(** * AI Fitness Assistant: a shallow embedding of the core logic

    The development follows the layout of the repository's [utils] package.
    Part I holds the definitions, one module per source file:

    - [Py]       : the fragment of Python the code relies on: results and
                   exceptions, dicts, [str.lower], [range], [random.sample];
    - [Num]      : the arithmetic of the numeric code, with its IEEE binary64
                   instance ([Float64]);
    - [Progress] : the percent-to-goal computation of [show_progress]
                   (app_dashboard_functions.py);
    - [BodyFat]  : [BodyFatPredictor] (utils/ml_models.py);
    - [Workout]  : [WorkoutGenerator] (utils/workout_generator.py);
    - [Meal]     : [MealPlanner] (utils/meal_planner.py);
    - [Re]       : the regular expressions of the validators;
    - [Store]    : [Database] (utils/database.py) over a model of the SQLite
                   engine with its constraints and its failures;
    - [Auth]     : [AuthManager] (utils/auth.py);
    - [Coach]    : [AICoach] (utils/ai_coach.py).

    Part II holds the theorems, one module of facts per module of Part I.

    Texts are [string]s whose characters are code points below 256. *)

From Stdlib Require Import ZArith List String Ascii Bool Lia SpecFloat.
From stdpp Require Import base option list strings gmap.
Import ListNotations.

Set Default Proof Using "Type".
Open Scope string_scope.
Open Scope Z_scope.

(* ===================================================================== *)
(** * Part I: definitions                                                 *)
(* ===================================================================== *)

(** ** Python fragments *)

Module Py.

(** Exceptions that the modelled code can meet.  The payload is the text that
    [str(e)] returns. *)
Inductive exn :=
| IntegrityError (msg : string)
| OperationalError (msg : string)
| KeyError (key : string)
| AttributeError (msg : string)
| ValueError (msg : string)
| IndexError (msg : string)
| RemoteError (msg : string)
| OverflowError (msg : string).

Definition exn_str (e : exn) : string :=
  match e with
  | IntegrityError m | OperationalError m | AttributeError m
  | ValueError m | IndexError m | RemoteError m | OverflowError m => m
  | KeyError k => "'" ++ k ++ "'"
  end.

(** The outcome of a call: a returned value or a raised exception. *)
Inductive result (A : Type) :=
| Ret (a : A)
| Raise (e : exn).
Arguments Ret {A} a.
Arguments Raise {A} e.

Definition bind {A B} (m : result A) (k : A -> result B) : result B :=
  match m with
  | Ret a => k a
  | Raise e => Raise e
  end.

(** Sequencing is written [x ← m; k]. *)
#[global] Instance result_bind : MBind result := fun A B k m => bind m k.
#[global] Instance result_ret : MRet result := @Ret.

(** [d[key]] on a dict with string keys. *)
Definition getitem {V} (d : gmap string V) (key : string) : result V :=
  match d !! key with
  | Some v => Ret v
  | None => Raise (KeyError key)
  end.

(** [len(l)] *)
Definition len {A} (l : list A) : Z := Z.of_nat (length l).

(** [str.lower] on code points below 256: the ASCII capitals and the Latin-1
    capitals (U+00C0..U+00DE without the multiplication sign U+00D7) move
    up by 32; every other code point is its own lower case. *)
Definition lower_char (c : ascii) : ascii :=
  let n := nat_of_ascii c in
  if ((65 <=? n) && (n <=? 90))%nat
     || ((192 <=? n) && (n <=? 222) && negb (n =? 215))%nat
  then ascii_of_nat (n + 32) else c.

Fixpoint lower (s : string) : string :=
  match s with
  | EmptyString => EmptyString
  | String c s' => String (lower_char c) (lower s')
  end.

(** [str.capitalize] on ASCII text, the only text that reaches it: the first
    letter in upper case, the others in lower case. *)
Definition upper_char (c : ascii) : ascii :=
  let n := nat_of_ascii c in
  if ((97 <=? n) && (n <=? 122))%nat then ascii_of_nat (n - 32) else c.

Definition capitalize (s : string) : string :=
  match s with
  | EmptyString => EmptyString
  | String c s' => String (upper_char c) (lower s')
  end.

(** The generator behind the [random] module, as the sequence of its raw
    draws.  [randbelow n] is a number below [n]. *)
Definition rng := nat -> nat.

Definition randbelow (n : nat) (g : rng) : nat * rng :=
  (g 0%nat mod n, fun i => g (S i))%nat.

(** [random.sample(population, k)] for a population of at most 21 elements,
    where CPython draws from a copy of the population and moves the last
    live element into the slot it has just drawn:
    [j = randbelow(n - i); result[i] = pool[j]; pool[j] = pool[n - i - 1]]. *)
Fixpoint sample_loop {A} (k : nat) (pool : list A) (n : nat) (g : rng)
  : result (list A * rng) :=
  match k with
  | O => Ret ([], g)
  | S k' =>
      let '(j, g1) := randbelow n g in
      match pool !! j, pool !! (n - 1)%nat with
      | Some x, Some y =>
          '(rest, g2) ← sample_loop k' (<[j := y]> pool) (n - 1)%nat g1;
          Ret (x :: rest, g2)
      | _, _ => Raise (IndexError "list index out of range")
      end
  end.

Definition random_sample {A} (population : list A) (k : Z) (g : rng)
  : result (list A * rng) :=
  if ((k <? 0) || (len population <? k))%Z
  then Raise (ValueError "Sample larger than population or is negative")
  else sample_loop (Z.to_nat k) population (length population) g.

(** [range(start, stop)] as the list of its values. *)
Definition range (start stop : Z) : list Z :=
  map (fun i => start + Z.of_nat i) (seq 0 (Z.to_nat (stop - start))).

(** A [for] loop that collects one value per round and stops at the first
    exception. *)
Fixpoint for_each {A B} (body : A -> result B) (l : list A) : result (list B) :=
  match l with
  | [] => Ret []
  | a :: l' => b ← body a; bs ← for_each body l'; Ret (b :: bs)
  end.

(** [dict.get(key, default)] on an optional field. *)
Definition get {A} (field : option A) (dflt : A) : A :=
  match field with Some v => v | None => dflt end.

End Py.

(** ** Arithmetic *)

(** The numeric code only uses the operations below.  [of_int] is the
    conversion of a Python [int] that takes part in float arithmetic. *)
Class Num (F : Type) := {
  add : F -> F -> F;
  sub : F -> F -> F;
  mul : F -> F -> F;
  div : F -> F -> F;
  absf : F -> F;
  ltb : F -> F -> bool;
  of_int : Z -> F
}.

(** [numpy.log10], an external function of the body-fat formula. *)
Class Log10 (F : Type) := log10 : F -> F.

Declare Scope num_scope.
Delimit Scope num_scope with num.
Infix "+" := add : num_scope.
Infix "-" := sub : num_scope.
Infix "*" := mul : num_scope.
Infix "/" := div : num_scope.
Infix "<?" := ltb : num_scope.

Section NumOps.
Context {F : Type} `{Num F}.

(** A decimal literal [n/d] of the source text (for example [1.0324] is
    [dec 10324 10000]): the correctly rounded quotient of two integers
    that are exact in every instance. *)
Definition dec (n d : Z) : F := (of_int n / of_int d)%num.

(** The builtin [min(a, b)] and [max(a, b)]: the first argument is kept
    unless the second is strictly smaller (resp. strictly larger). *)
Definition py_min (a b : F) : F := if (b <? a)%num then b else a.
Definition py_max (a b : F) : F := if (a <? b)%num then b else a.

End NumOps.

(** *** IEEE 754 binary64, the arithmetic of Python's [float] *)

Module Float64.

Definition prec : Z := 53.
Definition emax : Z := 1024.

Abbreviation float := spec_float.

Definition fadd : float -> float -> float := SFadd prec emax.
Definition fsub : float -> float -> float := SFsub prec emax.
Definition fmul : float -> float -> float := SFmul prec emax.
Definition fdiv : float -> float -> float := SFdiv prec emax.

(** [float(z)] for an integer [z]: rounded to nearest even. *)
Definition of_Z (z : Z) : float := binary_normalize prec emax z 0 false.

(** The position of a number in the order of the comparisons: the class
    (negative infinity, negative, zero, positive, positive infinity), then
    the exponent and the mantissa.  NaN has no position. *)
Definition rank (x : float) : option (Z * Z * Z) :=
  match x with
  | S754_nan => None
  | S754_infinity true => Some (-2, 0, 0)
  | S754_infinity false => Some (2, 0, 0)
  | S754_zero _ => Some (0, 0, 0)
  | S754_finite true m e => Some (-1, - e, Zneg m)
  | S754_finite false m e => Some (1, e, Zpos m)
  end.

Definition lex3 (a b : Z * Z * Z) : comparison :=
  let '(a1, a2, a3) := a in
  let '(b1, b2, b3) := b in
  match a1 ?= b1 with
  | Eq => match a2 ?= b2 with Eq => a3 ?= b3 | c => c end
  | c => c
  end.

(** The arithmetic of the interpreter. *)
#[global] Instance num : Num float := {|
  add := fadd; sub := fsub; mul := fmul; div := fdiv;
  absf := SFabs; ltb := SFltb; of_int := of_Z
|}.

End Float64.

(** ** Progress tracker: percent-to-goal ([show_progress]) *)

Module Progress.
Section WithNum.
Context {F : Type} `{Num F}.

(** Lines 920-928 of app_dashboard_functions.py.  The weights come out of a
    pandas column, so the arithmetic is that of numpy's float64: a zero
    denominator gives an infinity or NaN and raises nothing.  The [int]
    bounds [0] and [100] of the last line are compared, and returned, as the
    floats of the same value. *)
Definition progress_percentage (start_weight current_weight goal_weight : F) : F :=
  let weight_change := (start_weight - current_weight)%num in
  let progress_percentage :=
    if (goal_weight <? start_weight)%num
    then (weight_change / (start_weight - goal_weight) * of_int 100)%num
    else (absf weight_change / (goal_weight - start_weight) * of_int 100)%num in
  py_max (of_int 0) (py_min (of_int 100) progress_percentage).

(** The weight column of the frame sorted by date: [iloc[0]] is the start,
    [iloc[-1]] the current weight.  Nothing is computed for an empty
    history ([if progress_history:]). *)
Definition percent_to_goal (weights : list F) (goal_weight : option F) : option F :=
  match weights with
  | [] => None
  | start_weight :: _ =>
      let current_weight := List.last weights start_weight in
      Some (progress_percentage start_weight current_weight
              (Py.get goal_weight start_weight))
  end.

(** The spec's [clamp(lo, hi, x)]: [x] cut to the interval, computed as
    [max(lo, min(hi, x))]. *)
Definition clamp (lo hi x : F) : F := py_max lo (py_min hi x).

End WithNum.
End Progress.

(** ** Body-fat predictor ([BodyFatPredictor], utils/ml_models.py) *)

Module BodyFat.
Section WithNum.
Context {F : Type} `{Num F} `{Log10 F}.

(** The keys of the [measurements] dict that the predictor reads; a missing
    key is [None]. *)
Record measurements := {
  gender : option string;
  height : option F;
  weight : option F;
  abdomen : option F;
  neck : option F;
  hip : option F
}.

(** The predictor object: [is_trained] and the fitted model, kept as the
    function that [model.predict] computes on a feature vector. *)
Record predictor := {
  is_trained : bool;
  model : option (measurements -> F)
}.

(** [__init__] *)
Definition init : predictor := {| is_trained := false; model := None |}.

(** [_empirical_prediction].  [numpy.log10] returns a float64, so the
    quotient is numpy's: a zero denominator gives an infinity and raises
    nothing.  The key ['weight'] is read and not used. *)
Definition _empirical_prediction (m : measurements) : F :=
  let gender := Py.lower (Py.get (gender m) "male") in
  let height_cm := Py.get (height m) (of_int 170) in
  let waist_cm := Py.get (abdomen m) (of_int 85) in
  let neck_cm := Py.get (neck m) (of_int 37) in
  let hip_cm := Py.get (hip m) (of_int 95) in
  let body_fat :=
    if String.eqb gender "male"
    then (of_int 495 / (dec 10324 10000 - dec 19077 100000 * log10 (waist_cm - neck_cm)
                        + dec 15456 100000 * log10 height_cm) - of_int 450)%num
    else (of_int 495 / (dec 129579 100000 - dec 35004 100000 * log10 (waist_cm + hip_cm - neck_cm)
                        + dec 22100 100000 * log10 height_cm) - of_int 450)%num in
  py_max (of_int 5) (py_min (of_int 50) body_fat).

(** The argument of the first logarithm and the denominator of the Navy
    formula, named for the statements of Part II. *)
Definition is_male (m : measurements) : bool :=
  String.eqb (Py.lower (Py.get (gender m) "male")) "male".

Definition girth (m : measurements) : F :=
  let waist_cm := Py.get (abdomen m) (of_int 85) in
  let neck_cm := Py.get (neck m) (of_int 37) in
  let hip_cm := Py.get (hip m) (of_int 95) in
  if is_male m then (waist_cm - neck_cm)%num
  else (waist_cm + hip_cm - neck_cm)%num.

Definition denominator (m : measurements) : F :=
  let height_cm := Py.get (height m) (of_int 170) in
  if is_male m
  then (dec 10324 10000 - dec 19077 100000 * log10 (girth m)
        + dec 15456 100000 * log10 height_cm)%num
  else (dec 129579 100000 - dec 35004 100000 * log10 (girth m)
        + dec 22100 100000 * log10 height_cm)%num.


Definition with_height (m : measurements) (h : F) : measurements :=
  {| gender := gender m; height := Some h; weight := weight m;
     abdomen := abdomen m; neck := neck m; hip := hip m |}.

(** The value of the Navy formula before it is cut to [[5, 50]]. *)
Definition body_fat (m : measurements) : F :=
  (of_int 495 / denominator m - of_int 450)%num.

(** [predict] *)
Definition predict (p : predictor) (m : measurements) : option F :=
  if negb (is_trained p) then Some (_empirical_prediction m)
  else match model p with
       | Some f => Some (py_max (of_int 5) (py_min (of_int 50) (f m)))
       | None => None
       end.

End WithNum.
Arguments measurements F : clear implicits.
Arguments predictor F : clear implicits.

(** A man with a 47 cm waist and a 37 cm neck, at a given height. *)
Definition man_47_37 {F} `{Num F} (height_cm : F) : measurements F :=
  {| gender := Some "male"; height := Some height_cm; weight := None;
     abdomen := Some (of_int 47); neck := Some (of_int 37); hip := None |}.

(** The spec's example: height 175, waist 85, neck 37. *)
Definition man_175_37 {F} `{Num F} (waist_cm : F) : measurements F :=
  {| gender := Some "male"; height := Some (of_int 175); weight := None;
     abdomen := Some waist_cm; neck := Some (of_int 37); hip := None |}.

(** A man of 100 cm with a 60 cm neck, at a given waist. *)
Definition man_100_60 {F} `{Num F} (waist_cm : F) : measurements F :=
  {| gender := Some "male"; height := Some (of_int 100); weight := None;
     abdomen := Some waist_cm; neck := Some (of_int 60); hip := None |}.

(** A [log10] on binary64 for closed examples.  Like [numpy.log10] it has
    no value (NaN) on a negative argument and is minus infinity at zero; it
    returns the exact logarithm of the few powers of ten that the examples
    need, and has no value elsewhere. *)
Definition log10_table : Log10 Float64.float := fun x =>
  if SFltb x (Float64.of_Z 0) then S754_nan
  else if SFeqb x (Float64.of_Z 0) then S754_infinity true
  else if SFeqb x (Float64.of_Z 10) then Float64.of_Z 1
  else if SFeqb x (Float64.of_Z 100) then Float64.of_Z 2
  else if SFeqb x (dec 1 1000000) then Float64.of_Z (-6)
  else if SFeqb x (dec 1 100000) then Float64.of_Z (-5)
  else S754_nan.

End BodyFat.


(** ** Workout generator ([WorkoutGenerator], utils/workout_generator.py) *)

Module Workout.
Import Py.

Record exercise := Exercise {
  name : string;
  sets : Z;
  reps : string;
  rest : string
}.

#[global] Instance exercise_eq_dec : EqDecision exercise.
Proof. solve_decision. Defined.

(** An item of the warmup or of the cooldown. *)
Record routine := Routine {
  routine_name : string;
  routine_duration : string
}.

(** [_initialize_exercises]: location, then category, then level. *)
Definition exercises_db : gmap string (gmap string (gmap string (list exercise))) :=
  {[
    "home" := {[
      "strength" := {[
        "beginner" := [
          Exercise "Push-ups" 3 "8-12" "60s";
          Exercise "Bodyweight Squats" 3 "12-15" "60s";
          Exercise "Plank" 3 "30-45s" "45s";
          Exercise "Lunges" 3 "10 each leg" "60s";
          Exercise "Glute Bridges" 3 "12-15" "45s";
          Exercise "Wall Sit" 3 "30-45s" "60s";
          Exercise "Mountain Climbers" 3 "20" "45s";
          Exercise "Tricep Dips (chair)" 3 "8-12" "60s" ];
        "intermediate" := [
          Exercise "Diamond Push-ups" 4 "10-15" "60s";
          Exercise "Jump Squats" 4 "12-15" "60s";
          Exercise "Side Plank" 3 "45s each" "45s";
          Exercise "Bulgarian Split Squats" 3 "12 each" "60s";
          Exercise "Pike Push-ups" 3 "10-12" "60s";
          Exercise "Single Leg Deadlift" 3 "10 each" "60s";
          Exercise "Burpees" 4 "10-12" "60s" ];
        "advanced" := [
          Exercise "One-Arm Push-ups" 4 "6-8 each" "90s";
          Exercise "Pistol Squats" 4 "8-10 each" "90s";
          Exercise "Handstand Push-ups" 3 "5-8" "120s";
          Exercise "Archer Push-ups" 4 "8-10 each" "90s";
          Exercise "Dragon Flags" 3 "6-8" "120s" ] ]};
      "cardio" := {[
        "beginner" := [
          Exercise "Jumping Jacks" 3 "30s" "30s";
          Exercise "High Knees" 3 "30s" "30s";
          Exercise "Butt Kicks" 3 "30s" "30s";
          Exercise "Step-ups" 3 "45s" "45s" ];
        "intermediate" := [
          Exercise "Burpees" 4 "45s" "30s";
          Exercise "Mountain Climbers" 4 "45s" "30s";
          Exercise "Jump Rope" 4 "60s" "30s";
          Exercise "Box Jumps" 3 "12-15" "60s" ];
        "advanced" := [
          Exercise "Burpee Box Jumps" 4 "60s" "30s";
          Exercise "Sprint Intervals" 6 "30s sprint" "30s";
          Exercise "Plyometric Push-ups" 4 "10-12" "60s" ] ]} ]};
    "gym" := {[
      "strength" := {[
        "beginner" := [
          Exercise "Barbell Bench Press" 3 "8-12" "90s";
          Exercise "Lat Pulldown" 3 "10-12" "60s";
          Exercise "Leg Press" 3 "12-15" "90s";
          Exercise "Dumbbell Shoulder Press" 3 "10-12" "60s";
          Exercise "Cable Rows" 3 "10-12" "60s";
          Exercise "Leg Curl" 3 "12-15" "60s" ];
        "intermediate" := [
          Exercise "Barbell Squat" 4 "8-10" "120s";
          Exercise "Deadlift" 4 "6-8" "120s";
          Exercise "Incline Dumbbell Press" 4 "8-12" "90s";
          Exercise "Pull-ups" 4 "8-12" "90s";
          Exercise "Romanian Deadlift" 3 "10-12" "90s";
          Exercise "Barbell Rows" 4 "8-10" "90s" ];
        "advanced" := [
          Exercise "Back Squat (Heavy)" 5 "5" "180s";
          Exercise "Deadlift (Heavy)" 5 "5" "180s";
          Exercise "Weighted Pull-ups" 4 "6-8" "120s";
          Exercise "Front Squat" 4 "6-8" "120s";
          Exercise "Overhead Press" 4 "6-8" "120s" ] ]};
      "cardio" := {[
        "beginner" := [
          Exercise "Treadmill Walk/Jog" 1 "20 min" "0s";
          Exercise "Stationary Bike" 1 "15 min" "0s";
          Exercise "Elliptical" 1 "15 min" "0s" ];
        "intermediate" := [
          Exercise "Treadmill HIIT" 8 "1 min sprint/1 min walk" "0s";
          Exercise "Rowing Machine" 1 "20 min" "0s";
          Exercise "Stair Climber" 1 "15 min" "0s" ];
        "advanced" := [
          Exercise "Sprint Intervals" 10 "30s sprint/30s rest" "0s";
          Exercise "Assault Bike" 1 "20 min" "0s";
          Exercise "Rowing HIIT" 8 "500m sprint" "60s" ] ]} ]} ]}.

(** [_get_warmup] *)
Definition _get_warmup : list routine := [
  Routine "Arm Circles" "30s";
  Routine "Leg Swings" "30s each leg";
  Routine "Torso Twists" "30s";
  Routine "Light Cardio (Jog in place)" "2 min" ].

(** [_get_cooldown] *)
Definition _get_cooldown : list routine := [
  Routine "Walking" "3 min";
  Routine "Hamstring Stretch" "30s each leg";
  Routine "Quad Stretch" "30s each leg";
  Routine "Shoulder Stretch" "30s each arm";
  Routine "Deep Breathing" "1 min" ].

Record workout_plan := {
  date : string;
  type : string;
  location : string;
  level : string;
  duration : Z;
  warmup : list routine;
  exercises : list exercise;
  cooldown : list routine
}.

(** [self.exercises_db[location][category][experience_level]] *)
Definition lookup_pool (location category experience_level : string)
  : result (list exercise) :=
  by_category ← getitem exercises_db location;
  by_level ← getitem by_category category;
  getitem by_level experience_level.

(** The category that a looked-up workout type reads, named for the
    statements of Part II. *)
Definition category_of (workout_type : string) : string :=
  if String.eqb workout_type "Strength Training" then "strength" else "cardio".

(** The first half of [generate_workout]: the exercise pool of the request.
    [location] and [experience_level] are already in lower case. *)
Definition select_pool (location workout_type experience_level : string) (g : rng)
  : result (list exercise * rng) :=
  if String.eqb workout_type "Strength Training" then
    exercise_pool ← lookup_pool location "strength" experience_level;
    Ret (exercise_pool, g)
  else if String.eqb workout_type "Cardio" || String.eqb workout_type "HIIT" then
    exercise_pool ← lookup_pool location "cardio" experience_level;
    Ret (exercise_pool, g)
  else
    strength_pool ← lookup_pool location "strength" experience_level;
    cardio_pool ← lookup_pool location "cardio" experience_level;
    '(from_strength, g1) ← random_sample strength_pool 3 g;
    '(from_cardio, g2) ← random_sample cardio_pool 2 g1;
    Ret ((from_strength ++ from_cardio)%list, g2).

(** [generate_workout]; [today] is [datetime.now().strftime("%Y-%m-%d")]. *)
Definition generate_workout (location workout_type experience_level : string)
    (duration_minutes : Z) (today : string) (g : rng)
  : result (workout_plan * rng) :=
  let location := lower location in
  let experience_level := lower experience_level in
  '(exercise_pool, g1) ← select_pool location workout_type experience_level g;
  let num_exercises := Z.min (len exercise_pool) (Z.max 4 (duration_minutes / 10)) in
  '(selected_exercises, g2) ←
    random_sample exercise_pool (Z.min num_exercises (len exercise_pool)) g1;
  Ret ({| date := today;
          type := workout_type;
          location := capitalize location;
          level := capitalize experience_level;
          duration := duration_minutes;
          warmup := _get_warmup;
          exercises := selected_exercises;
          cooldown := _get_cooldown |}, g2).

End Workout.

(** ** Meal planner ([MealPlanner], utils/meal_planner.py) *)

Module Meal.
Import Py.

Record food := Food {
  name : string;
  calories : Z;
  protein : Z;
  carbs : Z;
  fat : Z
}.

#[global] Instance food_eq_dec : EqDecision food.
Proof. solve_decision. Defined.

(** [_initialize_food_database]: meal slot, then diet tag. *)
Definition food_db : gmap string (gmap string (list food)) :=
  {[
    "breakfast" := {[
      "vegetarian" := [
        Food "Poha" 250 6 45 5;
        Food "Upma" 220 5 40 4;
        Food "Idli (3) with Sambar" 180 8 35 2;
        Food "Dosa with Chutney" 200 6 38 3;
        Food "Paratha (2) with Curd" 320 10 45 12;
        Food "Oats Porridge" 180 7 30 4;
        Food "Vegetable Sandwich" 240 8 35 8 ];
      "non-vegetarian" := [
        Food "Egg Bhurji with Roti (2)" 280 18 30 10;
        Food "Omelette (3 eggs) with Toast" 320 22 25 15;
        Food "Chicken Sandwich" 300 25 30 10 ];
      "eggetarian" := [
        Food "Boiled Eggs (2) with Toast" 220 16 25 8;
        Food "Egg Dosa" 250 14 30 8 ] ]};
    "lunch" := {[
      "vegetarian" := [
        Food "Dal Rice with Sabzi" 400 15 70 8;
        Food "Rajma Chawal" 450 18 75 10;
        Food "Chole Bhature" 550 16 85 18;
        Food "Paneer Butter Masala with Roti (3)" 480 20 55 20;
        Food "Veg Biryani" 420 12 70 12;
        Food "Sambar Rice with Papad" 380 12 68 8;
        Food "Palak Paneer with Roti (3)" 450 22 50 18 ];
      "non-vegetarian" := [
        Food "Chicken Curry with Rice" 520 35 60 15;
        Food "Fish Curry with Rice" 480 32 58 12;
        Food "Chicken Biryani" 580 30 70 18;
        Food "Mutton Curry with Roti (3)" 620 38 50 28;
        Food "Egg Curry with Rice" 450 20 62 14 ];
      "vegan" := [
        Food "Chana Masala with Rice" 420 16 72 10;
        Food "Mixed Veg Curry with Roti (3)" 380 12 65 8 ] ]};
    "dinner" := {[
      "vegetarian" := [
        Food "Roti (3) with Dal and Sabzi" 380 14 60 10;
        Food "Khichdi with Curd" 320 12 55 8;
        Food "Paneer Tikka with Roti (2)" 420 24 40 18;
        Food "Vegetable Pulao with Raita" 360 10 62 10;
        Food "Aloo Gobi with Roti (3)" 340 10 58 8 ];
      "non-vegetarian" := [
        Food "Grilled Chicken with Roti (2)" 420 38 35 12;
        Food "Fish Fry with Salad" 350 32 20 16;
        Food "Chicken Tandoori with Roti (2)" 400 36 35 10;
        Food "Egg Curry with Roti (2)" 380 18 42 14 ];
      "vegan" := [
        Food "Tofu Curry with Rice" 380 18 58 10;
        Food "Mixed Dal with Roti (3)" 340 16 60 6 ] ]};
    "snacks" := {[
      "vegetarian" := [
        Food "Fruit Chaat" 120 2 28 1;
        Food "Roasted Chana" 150 8 25 3;
        Food "Sprouts Salad" 100 7 18 1;
        Food "Dhokla (2 pieces)" 140 5 24 3;
        Food "Masala Chai with Biscuits" 160 4 28 4;
        Food "Banana with Peanut Butter" 200 6 30 8 ];
      "non-vegetarian" := [
        Food "Boiled Eggs (2)" 140 12 2 10;
        Food "Chicken Tikka (4 pieces)" 180 24 4 8 ];
      "vegan" := [
        Food "Mixed Nuts (30g)" 180 6 8 15;
        Food "Hummus with Veggies" 150 6 18 6 ] ]} ]}.

(** An entry of a day's ['meals'] list. *)
Record meal := {
  type : string;
  food_of : food
}.

Record daily_meals := {
  day : Z;
  date : string;
  total_calories : Z;
  total_protein : Z;
  total_carbs : Z;
  total_fat : Z;
  meals : list meal
}.

Section WithNum.
Context {F : Type} `{Num F}.

(** [min(available_meals, key=...)] on a non-empty list: the running best
    is replaced by a later item only when its key is strictly smaller. *)
Fixpoint min_by {A} (key : A -> F) (best : A) (rest : list A) : A :=
  match rest with
  | [] => best
  | x :: rest' => min_by key (if (key x <? key best)%num then x else best) rest'
  end.

(** [lambda x: abs(x['calories'] - target_calories)] *)
Definition distance (target_calories : F) (x : food) : F :=
  absf (of_int (calories x) - target_calories)%num.

(** [_select_meal]; [None] is the value returned for an empty selection. *)
Definition _select_meal (meal_type diet_pref : string) (target_calories : F)
  : result (option food) :=
  available_meals ←
    (if String.eqb diet_pref "vegetarian" then
       by_tag ← getitem food_db meal_type;
       Ret (default [] (by_tag !! "vegetarian"))
     else if String.eqb diet_pref "non-vegetarian" then
       by_tag ← getitem food_db meal_type;
       Ret (default [] (by_tag !! "vegetarian")
            ++ default [] (by_tag !! "non-vegetarian"))%list
     else if String.eqb diet_pref "vegan" then
       by_tag ← getitem food_db meal_type;
       let available_meals := default [] (by_tag !! "vegan") in
       match available_meals with
       | [] => Ret (default [] (by_tag !! "vegetarian"))
       | _ :: _ => Ret available_meals
       end
     else if String.eqb diet_pref "eggetarian" then
       by_tag ← getitem food_db meal_type;
       Ret (default [] (by_tag !! "vegetarian")
            ++ default [] (by_tag !! "eggetarian"))%list
     else Ret []);
  match available_meals with
  | [] => Ret None
  | first :: others => Ret (Some (min_by (distance target_calories) first others))
  end.

(** The inner loop of [generate_meal_plan]: a selected meal is appended to
    the day and added to its totals. *)
Definition add_meal (daily : daily_meals) (entry : string * option food) : daily_meals :=
  match entry.2 with
  | None => daily
  | Some m =>
      {| day := day daily;
         date := date daily;
         total_calories := total_calories daily + calories m;
         total_protein := total_protein daily + protein m;
         total_carbs := total_carbs daily + carbs m;
         total_fat := total_fat daily + fat m;
         meals := (meals daily ++ [ {| type := entry.1; food_of := m |} ])%list |}
  end.

(** [generate_meal_plan]; [today] is [datetime.now().strftime("%Y-%m-%d")].
    The calorie target is taken as a float; the [int] that the page passes
    (1200 to 4000) is the float of the same value, and so are its
    adjustments. *)
Definition generate_meal_plan (diet_preference : string) (calorie_target : F)
    (num_days : Z) (goal : string) (today : string) : result (list daily_meals) :=
  let diet_pref := lower diet_preference in
  let daily_calories :=
    if String.eqb (lower goal) "weight loss" then (calorie_target - of_int 500)%num
    else if String.eqb (lower goal) "muscle gain" then (calorie_target + of_int 300)%num
    else calorie_target in
  for_each (fun day =>
    let daily_meals :=
      {| day := day; date := today;
         total_calories := 0; total_protein := 0; total_carbs := 0; total_fat := 0;
         meals := [] |} in
    let breakfast_cals := (daily_calories * dec 25 100)%num in
    let lunch_cals := (daily_calories * dec 35 100)%num in
    let dinner_cals := (daily_calories * dec 30 100)%num in
    let snack_cals := (daily_calories * dec 10 100)%num in
    breakfast ← _select_meal "breakfast" diet_pref breakfast_cals;
    lunch ← _select_meal "lunch" diet_pref lunch_cals;
    dinner ← _select_meal "dinner" diet_pref dinner_cals;
    snack ← _select_meal "snacks" diet_pref snack_cals;
    Ret (fold_left add_meal
           [("Breakfast", breakfast); ("Lunch", lunch);
            ("Dinner", dinner); ("Snacks", snack)]
           daily_meals))
    (range 1 (num_days + 1)).

End WithNum.

(** *** The selection as the specification words it *)

(** The list of a slot under a diet tag; empty when the tag is absent. *)
Definition tagged (meal_type tag : string) : list food :=
  default [] (by_tag ← food_db !! meal_type; by_tag !! tag).

(** The candidate pool of a slot under a diet preference. *)
Definition candidate_pool (meal_type diet_pref : string) : list food :=
  if String.eqb diet_pref "vegetarian" then tagged meal_type "vegetarian"
  else if String.eqb diet_pref "non-vegetarian"
       then tagged meal_type "vegetarian" ++ tagged meal_type "non-vegetarian"
  else if String.eqb diet_pref "vegan"
       then (if bool_decide (tagged meal_type "vegan" = [])
             then tagged meal_type "vegetarian" else tagged meal_type "vegan")
  else if String.eqb diet_pref "eggetarian"
       then tagged meal_type "vegetarian" ++ tagged meal_type "eggetarian"
  else [].

(** The daily calories after the goal adjustment, and the share of a slot. *)
Definition adjusted_calories {F} `{Num F} (goal : string) (calorie_target : F) : F :=
  if String.eqb (lower goal) "weight loss" then (calorie_target - of_int 500)%num
  else if String.eqb (lower goal) "muscle gain" then (calorie_target + of_int 300)%num
  else calorie_target.

Definition slots : list string := ["breakfast"; "lunch"; "dinner"; "snacks"].

Definition recognized : list string :=
  ["vegetarian"; "non-vegetarian"; "vegan"; "eggetarian"].

(** [m] is the item of [pool] with the smallest absolute difference from
    the target, the earliest one on ties: it sits at some position [i], no
    item is strictly closer, and no item before [i] is as close.  The
    differences are compared as the interpreter compares them. *)
Definition nearest (pool : list food) (target : Float64.float) (m : food) : Prop :=
  exists i : nat,
    pool !! i = Some m
    /\ (forall x, x ∈ pool -> SFltb (distance target x) (distance target m) = false)
    /\ (forall (j : nat) x, (j < i)%nat -> pool !! j = Some x ->
          SFleb (distance target x) (distance target m) = false).

(** A day entry that holds the four given items, with their sums. *)
Definition day_of (today : string) (b l d s : food) (day : Z) : daily_meals :=
  {| day := day; date := today;
     total_calories := calories b + calories l + calories d + calories s;
     total_protein := protein b + protein l + protein d + protein s;
     total_carbs := carbs b + carbs l + carbs d + carbs s;
     total_fat := fat b + fat l + fat d + fat s;
     meals := [ {| type := "Breakfast"; food_of := b |};
                {| type := "Lunch"; food_of := l |};
                {| type := "Dinner"; food_of := d |};
                {| type := "Snacks"; food_of := s |} ] |}.

(** A day entry without meals. *)
Definition empty_day (today : string) (day : Z) : daily_meals :=
  {| day := day; date := today;
     total_calories := 0; total_protein := 0; total_carbs := 0; total_fat := 0;
     meals := [] |}.

End Meal.

(** ** Regular expressions ([re]) *)

Module Re.

(** The fragment of the pattern language that the validators use. *)
Inductive regex :=
| Void
| Eps
| Class (p : ascii -> bool)
| Cat (r1 r2 : regex)
| Alt (r1 r2 : regex)
| Star (r : regex).

(** [r+] and [r{2,}] *)
Definition plus (r : regex) : regex := Cat r (Star r).
Definition at_least_two (r : regex) : regex := Cat r (Cat r (Star r)).

Fixpoint nullable (r : regex) : bool :=
  match r with
  | Void => false
  | Eps => true
  | Class _ => false
  | Cat r1 r2 => nullable r1 && nullable r2
  | Alt r1 r2 => nullable r1 || nullable r2
  | Star _ => true
  end.

(** The derivative of [r] by the character [c]. *)
Fixpoint deriv (c : ascii) (r : regex) : regex :=
  match r with
  | Void => Void
  | Eps => Void
  | Class p => if p c then Eps else Void
  | Cat r1 r2 =>
      if nullable r1 then Alt (Cat (deriv c r1) r2) (deriv c r2)
      else Cat (deriv c r1) r2
  | Alt r1 r2 => Alt (deriv c r1) (deriv c r2)
  | Star r1 => Cat (deriv c r1) (Star r1)
  end.

(** [r] covers the whole of [s]. *)
Fixpoint matches (r : regex) (s : list ascii) : bool :=
  match s with
  | [] => nullable r
  | c :: s' => matches (deriv c r) s'
  end.

(** The words of a regular expression. *)
Inductive star (L : list ascii -> Prop) : list ascii -> Prop :=
| star_nil : star L []
| star_app (u v : list ascii) : L u -> star L v -> star L (u ++ v).

Fixpoint lang (r : regex) (s : list ascii) : Prop :=
  match r with
  | Void => False
  | Eps => s = []
  | Class p => exists c, s = [c] /\ p c = true
  | Cat r1 r2 => exists u v, s = (u ++ v)%list /\ lang r1 u /\ lang r2 v
  | Alt r1 r2 => lang r1 s \/ lang r2 s
  | Star r1 => star (lang r1) s
  end.

(** The text without its final newline, when it ends with one. *)
Fixpoint before_final_newline (s : list ascii) : option (list ascii) :=
  match s with
  | [] => None
  | [c] => if Ascii.eqb c "010" then Some [] else None
  | c :: s' => option_map (cons c) (before_final_newline s')
  end.

(** [re.match('^' + r + '$', s)]: without [re.MULTILINE], [$] matches at the
    end of the text and just before a newline that ends the text. *)
Definition match_anchored (r : regex) (s : string) : bool :=
  let l := list_ascii_of_string s in
  matches r l
  || match before_final_newline l with
     | Some l' => matches r l'
     | None => false
     end.

(** [re.search('[...]', s)] for a single character class. *)
Definition search_class (p : ascii -> bool) (s : string) : bool :=
  existsb p (list_ascii_of_string s).

(** Character ranges. *)
Definition between (lo hi c : ascii) : bool :=
  (nat_of_ascii lo <=? nat_of_ascii c)%nat && (nat_of_ascii c <=? nat_of_ascii hi)%nat.

Definition lower_az (c : ascii) : bool := between "a" "z" c.
Definition upper_az (c : ascii) : bool := between "A" "Z" c.
Definition digit (c : ascii) : bool := between "0" "9" c.
Definition letter (c : ascii) : bool := lower_az c || upper_az c.
Definition one_of (chars : string) (c : ascii) : bool :=
  existsb (Ascii.eqb c) (list_ascii_of_string chars).

End Re.

(** ** Persistence store ([Database], utils/database.py) *)

Module Store.
Import Py.

(** A value bound to a statement or held by a column. *)
Inductive sql_value :=
| Null
| Int (z : Z)
| Real (x : Float64.float)
| Text (s : string).

(** A row of [users]. *)
Record user_row := {
  id : Z;
  username : string;
  email : string;
  password_hash : string;
  created_at : string;
  last_login : option string;
  is_active : option Z
}.

(** A row of [progress]. *)
Record progress_row := {
  progress_id : Z;
  user_id : Z;
  date : sql_value;
  weight : sql_value;
  body_fat : sql_value;
  waist : sql_value;
  chest : sql_value;
  arms : sql_value;
  notes : sql_value;
  progress_created_at : string
}.

(** The rules of type affinity of the engine: what a column of a declared
    type stores for a value that is bound to it (an integer bound to a REAL
    column is stored as a float, a text that reads as a number is stored as
    that number in a REAL or DATE column, and so on). *)
Class Sqlite := affinity : string -> sql_value -> sql_value.

(** An [int] is bound as a 64-bit integer; a larger one makes the binding
    raise [OverflowError]. *)
Definition fits_int64 (z : Z) : bool := (- 2 ^ 63 <=? z) && (z <? 2 ^ 63).

Definition bindable (v : sql_value) : bool :=
  match v with
  | Int z => fits_int64 z
  | _ => true
  end.

(** A float that is not a number is bound as NULL, like [None]. *)
Definition bound (v : sql_value) : sql_value :=
  match v with
  | Real S754_nan => Null
  | _ => v
  end.

(** The order of [ORDER BY] on stored values: NULL first, then the numbers
    by value, then the texts by their bytes. *)
Definition compare_int_real (z : Z) (x : Float64.float) : comparison :=
  match x with
  | S754_nan => Gt
  | S754_infinity s => if s then Gt else Lt
  | S754_zero _ => z ?= 0
  | S754_finite s m e =>
      let v := cond_Zopp s (Z.pos m) in
      if 0 <=? e then z ?= v * 2 ^ e else z * 2 ^ (- e) ?= v
  end.

Definition compare_values (a b : sql_value) : comparison :=
  match bound a, bound b with
  | Null, Null => Eq
  | Null, _ => Lt
  | _, Null => Gt
  | Int x, Int y => x ?= y
  | Int x, Real y => compare_int_real x y
  | Real x, Int y => CompOpp (compare_int_real y x)
  | Real x, Real y => default Eq (SFcompare x y)
  | Text x, Text y => String.compare x y
  | Text _, _ => Gt
  | _, Text _ => Lt
  end.

(** The statements that the engine has carried out. *)
Inductive event :=
| Select (table : string)
| Insert (table : string)
| Update (table : string).

Definition is_write (ev : event) : bool :=
  match ev with
  | Select _ => false
  | Insert _ | Update _ => true
  end.

(** The database file seen through the engine: the two tables with their
    AUTOINCREMENT counters ([sqlite_sequence]), the value of
    [CURRENT_TIMESTAMP], the statements carried out so far, and what the
    engine will answer to the next statements: [Some msg] is a failure of
    the storage layer (disk I/O error, locked or unreadable file), raised as
    [sqlite3.OperationalError]. *)
Record db := {
  users : list user_row;
  users_seq : N;
  progress : list progress_row;
  progress_seq : N;
  clock : string;
  journal : list event;
  faults : list (option string)
}.

Definition writes (st : db) : nat := length (List.filter is_write (journal st)).

(** A method of the store: it runs on a state, returns or raises, and leaves
    a state. *)
Definition M (A : Type) : Type := db -> result A * db.

Definition ret {A} (a : A) : M A := fun st => (Ret a, st).
Definition raise {A} (e : exn) : M A := fun st => (Raise e, st).
Definition bindM {A B} (m : M A) (k : A -> M B) : M B := fun st =>
  match m st with
  | (Ret a, st') => k a st'
  | (Raise e, st') => (Raise e, st')
  end.

(** A step given by what it does to the state, and a read of the state. *)
Definition run {A} (step : db -> result A * db) : M A := step.
Definition gets {A} (f : db -> A) : M A := fun st => (Ret (f st), st).

#[global] Instance M_bind : MBind M := fun A B k m => bindM m k.
#[global] Instance M_ret : MRet M := @ret.

(** [try: body except ...: handler]: [handler e] is [None] when no [except]
    clause takes [e]. *)
Definition try_except {A} (body : M A) (handler : exn -> option (M A)) : M A :=
  fun st =>
    match body st with
    | (Ret a, st') => (Ret a, st')
    | (Raise e, st') =>
        match handler e with
        | Some h => h st'
        | None => (Raise e, st')
        end
    end.

(** The engine takes a statement: it fails if the storage layer fails. *)
Definition take_statement : M unit := fun st =>
  match faults st with
  | [] => (Ret tt, st)
  | answer :: later =>
      let st' := {| users := users st; users_seq := users_seq st;
                    progress := progress st; progress_seq := progress_seq st;
                    clock := clock st; journal := journal st; faults := later |} in
      match answer with
      | None => (Ret tt, st')
      | Some msg => (Raise (OperationalError msg), st')
      end
  end.

Definition record (ev : event) : M unit := fun st =>
  (Ret tt, {| users := users st; users_seq := users_seq st;
              progress := progress st; progress_seq := progress_seq st;
              clock := clock st; journal := (journal st ++ [ev])%list;
              faults := faults st |}).

(** The rowid of a new row of an AUTOINCREMENT table: one more than the
    largest rowid that the table ever held. *)
Definition next_rowid (seq : N) (rowids : list Z) : Z :=
  Z.max (Z.of_N seq) (fold_right Z.max 0 rowids) + 1.

(** [SELECT * FROM users WHERE ... ] with [fetchone()]. *)
Definition select_user (p : user_row -> bool) : M (option user_row) :=
  _ ← take_statement;
  _ ← record (Select "users");
  gets (fun st => List.find p (users st)).

(** [INSERT INTO users (username, email, password_hash)] and [commit()];
    the two UNIQUE constraints compare with the BINARY collation. *)
Definition insert_user (username' email' password_hash' : string) : M Z :=
  _ ← take_statement;
  run (fun st =>
    if existsb (fun row => String.eqb (username row) username') (users st)
    then (Raise (IntegrityError "UNIQUE constraint failed: users.username"), st)
    else if existsb (fun row => String.eqb (email row) email') (users st)
    then (Raise (IntegrityError "UNIQUE constraint failed: users.email"), st)
    else
      let rowid := next_rowid (users_seq st) (map id (users st)) in
      let row := {| id := rowid; username := username'; email := email';
                    password_hash := password_hash'; created_at := clock st;
                    last_login := None; is_active := Some 1 |} in
      (Ret rowid,
       {| users := (users st ++ [row])%list; users_seq := Z.to_N rowid;
          progress := progress st; progress_seq := progress_seq st;
          clock := clock st; journal := (journal st ++ [Insert "users"])%list;
          faults := faults st |})).

(** [UPDATE users SET last_login = CURRENT_TIMESTAMP WHERE id = ?] *)
Definition touch (now : string) (user_id' : Z) (row : user_row) : user_row :=
  if id row =? user_id'
  then {| id := id row; username := username row; email := email row;
          password_hash := password_hash row; created_at := created_at row;
          last_login := Some now; is_active := is_active row |}
  else row.

Definition update_user_last_login (user_id' : Z) : M unit :=
  _ ← take_statement;
  run (fun st =>
    (Ret tt,
     {| users := map (touch (clock st) user_id') (users st); users_seq := users_seq st;
        progress := progress st; progress_seq := progress_seq st;
        clock := clock st; journal := (journal st ++ [Update "users"])%list;
        faults := faults st |})).

(** [INSERT INTO progress (...)] and [commit()].  The eight values are
    bound first, then the row is checked ([date] is NOT NULL) and stored
    with the affinity of each column. *)
Definition insert_progress `{Sqlite} (user_id' : Z) (values : gmap string sql_value)
  : M unit :=
  _ ← take_statement;
  run (fun st =>
    let field key := default Null (values !! key) in
    if negb (fits_int64 user_id'
             && forallb (fun key => bindable (field key))
                  ["date"; "weight"; "body_fat"; "waist"; "chest"; "arms"; "notes"])
    then (Raise (OverflowError "Python int too large to convert to SQLite INTEGER"), st)
    else
    match bound (field "date") with
    | Null => (Raise (IntegrityError "NOT NULL constraint failed: progress.date"), st)
    | date' =>
        let rowid := next_rowid (progress_seq st) (map progress_id (progress st)) in
        let stored type key := affinity type (bound (field key)) in
        let row := {| progress_id := rowid; user_id := user_id';
                      date := affinity "DATE" date'; weight := stored "REAL" "weight";
                      body_fat := stored "REAL" "body_fat"; waist := stored "REAL" "waist";
                      chest := stored "REAL" "chest"; arms := stored "REAL" "arms";
                      notes := stored "TEXT" "notes"; progress_created_at := clock st |} in
        (Ret tt,
         {| users := users st; users_seq := users_seq st;
            progress := (progress st ++ [row])%list; progress_seq := Z.to_N rowid;
            clock := clock st; journal := (journal st ++ [Insert "progress"])%list;
            faults := faults st |})
    end).

(** *** The methods of [Database] *)

(** [create_user]: [except sqlite3.IntegrityError: return None]. *)
Definition create_user (username' email' password_hash' : string) : M (option Z) :=
  try_except
    (user_id ← insert_user username' email' password_hash'; ret (Some user_id))
    (fun e => match e with
              | IntegrityError _ => Some (ret None)
              | _ => None
              end).

(** [get_user_by_username], [get_user_by_email], [get_user_by_id]: no
    [try] block. *)
Definition get_user_by_username (username' : string) : M (option user_row) :=
  select_user (fun row => String.eqb (username row) username').

Definition get_user_by_email (email' : string) : M (option user_row) :=
  select_user (fun row => String.eqb (email row) email').

Definition get_user_by_id (user_id' : Z) : M (option user_row) :=
  select_user (fun row => id row =? user_id').

(** [update_last_login]: no [try] block. *)
Definition update_last_login (user_id' : Z) : M unit :=
  update_user_last_login user_id'.

(** [add_progress_entry]: [except Exception as e: print(...); return False].
    [progress_data.get(key)] is NULL for a missing key. *)
Definition add_progress_entry `{Sqlite} (user_id' : Z)
    (progress_data : gmap string sql_value) : M bool :=
  try_except
    (_ ← insert_progress user_id' progress_data; ret true)
    (fun e => Some (ret false)).

(** [ORDER BY date DESC]: a row goes before the first row whose date is
    smaller than its own.  The engine does not say in which order it
    returns rows of the same date; here they keep the order of the table. *)
Fixpoint insert_desc (row : progress_row) (sorted : list progress_row)
  : list progress_row :=
  match sorted with
  | [] => [row]
  | first :: others =>
      match compare_values (date first) (date row) with
      | Lt => row :: sorted
      | _ => first :: insert_desc row others
      end
  end.

Definition order_by_date_desc (rows : list progress_row) : list progress_row :=
  fold_left (fun sorted row => insert_desc row sorted) rows [].

(** [get_progress_history]: no [try] block. *)
Definition get_progress_history (user_id' : Z) : M (list progress_row) :=
  _ ← take_statement;
  if negb (fits_int64 user_id')
  then raise (OverflowError "Python int too large to convert to SQLite INTEGER")
  else
  _ ← record (Select "progress");
  gets (fun st =>
    order_by_date_desc
      (List.filter (fun row => user_id row =? user_id') (progress st))).

(** The two tables and their counters are the same in [st'] as in [st], and
    no write has been carried out in between. *)
Definition untouched (st st' : db) : Prop :=
  users st' = users st /\ users_seq st' = users_seq st
  /\ progress st' = progress st /\ progress_seq st' = progress_seq st
  /\ writes st' = writes st.

End Store.

(** ** Credential manager ([AuthManager], utils/auth.py) *)

(** The two functions of the [bcrypt] package that the manager calls:
    [hashpw(password, salt)] and [checkpw(password, hash)], which raises on a
    malformed hash. *)
Class Bcrypt := {
  hashpw : string -> string -> string;
  checkpw : string -> string -> Py.result bool
}.

Module Auth.
Import Py Re Store.

Definition MIN_PASSWORD_LENGTH : nat := 8.

Section WithBcrypt.
Context `{Bcrypt}.

(** [hash_password]; [salt] is the value of [bcrypt.gensalt(rounds=12)]. *)
Definition hash_password (password salt : string) : string :=
  hashpw password salt.

(** [verify_password]: [except Exception: return False]. *)
Definition verify_password (password password_hash' : string) : bool :=
  match checkpw password password_hash' with
  | Ret ok => ok
  | Raise _ => false
  end.

End WithBcrypt.

(** [[a-zA-Z0-9._%+-]+@[a-zA-Z0-9.-]+\.[a-zA-Z]{2,}] *)
Definition email_pattern : regex :=
  Cat (plus (Class (fun c => letter c || digit c || one_of "._%+-" c)))
   (Cat (Class (Ascii.eqb "@"))
    (Cat (plus (Class (fun c => letter c || digit c || one_of ".-" c)))
     (Cat (Class (Ascii.eqb "."))
          (at_least_two (Class letter))))).

(** [[a-zA-Z0-9_]+] *)
Definition word_char (c : ascii) : bool := letter c || digit c || Ascii.eqb c "_".
Definition username_pattern : regex := plus (Class word_char).

(** [validate_email] *)
Definition validate_email (email : string) : bool * string :=
  if String.eqb email "" then (false, "Email is required")
  else if negb (match_anchored email_pattern email) then (false, "Invalid email format")
  else (true, "").

(** [validate_username] *)
Definition validate_username (username : string) : bool * string :=
  if String.eqb username "" then (false, "Username is required")
  else if (String.length username <? 3)%nat
  then (false, "Username must be at least 3 characters")
  else if (20 <? String.length username)%nat
  then (false, "Username must be less than 20 characters")
  else if negb (match_anchored username_pattern username)
  then (false, "Username can only contain letters, numbers, and underscores")
  else (true, "").

(** [validate_password] *)
Definition validate_password (password : string) : bool * string :=
  if String.eqb password "" then (false, "Password is required")
  else if (String.length password <? MIN_PASSWORD_LENGTH)%nat
  then (false, "Password must be at least 8 characters")
  else if negb (search_class letter password)
  then (false, "Password must contain at least one letter")
  else if negb (search_class digit password)
  then (false, "Password must contain at least one number")
  else (true, "").

(** The account data that a login returns: the row without its
    ['password_hash']. *)
Record user_data := {
  data_id : Z;
  data_username : string;
  data_email : string;
  data_created_at : string;
  data_last_login : option string;
  data_is_active : option Z
}.

Definition strip_hash (user : user_row) : user_data :=
  {| data_id := id user; data_username := username user; data_email := email user;
     data_created_at := created_at user; data_last_login := last_login user;
     data_is_active := is_active user |}.

(** The truth value of a column that holds an integer or NULL. *)
Definition truthy (v : option Z) : bool :=
  match v with
  | Some z => negb (z =? 0)
  | None => false
  end.

Section WithBcrypt.
Context `{Bcrypt}.

(** [register_user] *)
Definition register_user (username email password salt : string)
  : M (bool * string * option Z) :=
  let '(valid, msg) := validate_username username in
  if negb valid then ret (false, msg, None) else
  let '(valid, msg) := validate_email email in
  if negb valid then ret (false, msg, None) else
  let '(valid, msg) := validate_password password in
  if negb valid then ret (false, msg, None) else
  by_name ← get_user_by_username username;
  if bool_decide (is_Some by_name) then ret (false, "Username already exists", None) else
  by_email ← get_user_by_email email;
  if bool_decide (is_Some by_email) then ret (false, "Email already registered", None) else
  let password_hash := hash_password password salt in
  user_id ← create_user username email password_hash;
  if truthy user_id
  then ret (true, "Registration successful", user_id)
  else ret (false, "Registration failed. Please try again.", None).

(** The lookup of [login_user]: by username, then by email. *)
Definition find_user (username_or_email : string) : M (option user_row) :=
  user ← get_user_by_username username_or_email;
  match user with
  | Some _ => ret user
  | None => get_user_by_email username_or_email
  end.

(** [login_user] *)
Definition login_user (username_or_email password : string)
  : M (bool * string * option user_data) :=
  if String.eqb username_or_email "" || String.eqb password ""
  then ret (false, "Username/email and password are required", None) else
  user ← find_user username_or_email;
  match user with
  | None => ret (false, "Invalid credentials", None)
  | Some user =>
      if negb (verify_password password (password_hash user))
      then ret (false, "Invalid credentials", None)
      else if negb (truthy (is_active user))
      then ret (false, "Account is disabled", None)
      else
        _ ← update_last_login (id user);
        ret (true, "Login successful", Some (strip_hash user))
  end.

End WithBcrypt.

(** *** Words of the statements of Part II *)

(** The username without the newline that may end it. *)
Definition body (s : string) : list ascii :=
  let l := list_ascii_of_string s in
  default l (before_final_newline l).

(** The stored user that an identifier designates at login: the first row
    with that username, else the first row with that email. *)
Definition resolve (st : db) (username_or_email : string) : option user_row :=
  match List.find (fun row => String.eqb (username row) username_or_email) (users st) with
  | Some user => Some user
  | None => List.find (fun row => String.eqb (email row) username_or_email) (users st)
  end.

(** *** Data of the examples *)

(** A stand-in for [bcrypt] in closed examples: the hash is the salt, a
    dollar sign and the password, and a password is checked against the end
    of the hash. *)
Definition plain_bcrypt : Bcrypt := {|
  hashpw := fun password salt => salt ++ "$" ++ password;
  checkpw := fun password hash =>
    Ret (String.eqb ("$" ++ password)
           (substring (String.length hash - String.length password - 1)
                      (String.length password + 1) hash))
|}.

Definition empty_db : db :=
  {| users := []; users_seq := 0; progress := []; progress_seq := 0;
     clock := "2024-01-01 00:00:00"; journal := []; faults := [] |}.

(** A store with the account of alice, whose password is [wonderland1]. *)
Definition alice : user_row :=
  {| id := 1; username := "alice"; email := "alice@example.com";
     password_hash := "$2b$12$saltsaltsaltsaltsaltsa$wonderland1"; created_at := "2024-01-01 00:00:00";
     last_login := None; is_active := Some 1 |}.

Definition alice_db : db :=
  {| users := [alice]; users_seq := 1; progress := []; progress_seq := 0;
     clock := "2024-01-02 00:00:00"; journal := []; faults := [] |}.

(** The same store when the storage layer fails on the next statement. *)
Definition failing_db : db :=
  {| users := [alice]; users_seq := 1; progress := []; progress_seq := 0;
     clock := "2024-01-02 00:00:00"; journal := [];
     faults := [Some "disk I/O error"] |}.

End Auth.

(** ** Chat coach ([AICoach], utils/ai_coach.py) *)

Module Coach.
Import Py.

(** The calls into [google.generativeai]: each one returns or raises.
    [send_message] stands for [chat.send_message(prompt)] followed by the
    read of [response.text]; it returns the reply and the session with its
    longer history. *)
Class Genai (model_t chat_t : Type) := {
  configure : string -> result unit;
  GenerativeModel : string -> result model_t;
  start_chat : model_t -> result chat_t;
  send_message : chat_t -> string -> result (string * chat_t)
}.

Section WithGenai.
Context {model_t chat_t : Type} `{Genai model_t chat_t}.

Record AICoach := {
  api_key : string;
  model : option model_t;
  chat : option chat_t
}.

(** [try: body except Exception as e: handler(e)] *)
Definition try_except {A} (body : result A) (handler : exn -> result A) : result A :=
  match body with
  | Ret a => Ret a
  | Raise e => handler e
  end.

(** [_initialize_model]: the model is dropped when a call raises. *)
Definition _initialize_model (self : AICoach) : AICoach :=
  if negb (String.eqb (api_key self) "") then
    match configure (api_key self) with
    | Raise _ => {| api_key := api_key self; model := None; chat := chat self |}
    | Ret _ =>
        match GenerativeModel "gemini-1.5-flash" with
        | Raise _ => {| api_key := api_key self; model := None; chat := chat self |}
        | Ret m =>
            match start_chat m with
            | Raise _ => {| api_key := api_key self; model := None; chat := chat self |}
            | Ret c => {| api_key := api_key self; model := Some m; chat := Some c |}
            end
        end
    end
  else self.

(** [__init__]; [key] is the value of [GEMINI_API_KEY], the empty text when
    the environment has none. *)
Definition init (key : string) : AICoach :=
  _initialize_model {| api_key := key; model := None; chat := None |}.

Definition nl : string := String "010" "".

Definition not_configured : string :=
  "⚠️ AI Coach is not configured. Please add your Gemini API key in the .env file.".

Definition system_context : string :=
  "You are an expert AI Fitness Coach. You provide:" ++ nl ++
  "            - Personalized fitness advice" ++ nl ++
  "            - Workout tips and form corrections" ++ nl ++
  "            - Nutrition guidance (especially Indian cuisine)" ++ nl ++
  "            - Motivation and support" ++ nl ++
  "            - Evidence-based fitness information" ++ nl ++
  "            " ++ nl ++
  "            Be friendly, encouraging, and professional. Keep responses concise but helpful." ++ nl ++
  "            ".

(** The prompt of a request.  [user_context] is the profile dict, with its
    values as they print; an absent or empty dict adds nothing. *)
Definition full_prompt (user_message : string) (user_context : option (gmap string string))
  : string :=
  let field ctx key := default "N/A" (ctx !! key) in
  let system_context :=
    match user_context with
    | Some ctx =>
        if bool_decide (ctx = ∅) then system_context
        else system_context ++
             (nl ++ nl ++ "User Profile:" ++ nl
              ++ "- Age: " ++ field ctx "age" ++ nl
              ++ "- Gender: " ++ field ctx "gender" ++ nl
              ++ "- Goal: " ++ field ctx "goal" ++ nl
              ++ "- Experience: " ++ field ctx "experience" ++ nl)
    | None => system_context
    end in
  system_context ++ nl ++ nl ++ "User: " ++ user_message ++ nl ++ nl ++ "AI Coach:".

(** [get_response]: the answer, the coach afterwards, and the prompts that
    went to the external service during the call. *)
Definition get_response (self : AICoach) (user_message : string)
    (user_context : option (gmap string string))
  : result string * AICoach * list string :=
  match model self with
  | None => (Ret not_configured, self, [])
  | Some _ =>
      let prompt := full_prompt user_message user_context in
      match chat self with
      | None =>
          (try_except (Raise (AttributeError "'NoneType' object has no attribute 'send_message'"))
             (fun e => Ret ("❌ Error getting response: " ++ exn_str e)),
           self, [])
      | Some session =>
          let reply := send_message session prompt in
          (try_except (text ← reply; Ret text.1)
             (fun e => Ret ("❌ Error getting response: " ++ exn_str e)),
           match reply with
           | Ret (_, session') =>
               {| api_key := api_key self; model := model self; chat := Some session' |}
           | Raise _ => self
           end,
           [prompt])
      end
  end.

End WithGenai.
Arguments AICoach model_t chat_t : clear implicits.

(** A service for closed examples: it refuses the key [bad-key] and fails on
    every message with a quota error. *)
Definition failing_service : Genai unit unit := {|
  configure := fun key =>
    if String.eqb key "bad-key" then Raise (RemoteError "API key not valid") else Ret tt;
  GenerativeModel := fun _ => Ret tt;
  start_chat := fun _ => Ret tt;
  send_message := fun _ _ => Raise (RemoteError "429 quota exceeded")
|}.

End Coach.

(** ** Words for further statements on the store *)

Module StoreWords.
Import Py Store.

(** The constraints of the schema on a state: usernames, emails and rowids
    of [users] are pairwise distinct, and so are the rowids of [progress]. *)
Definition consistent (st : db) : Prop :=
  NoDup (map username (users st))
  /\ NoDup (map email (users st))
  /\ NoDup (map id (users st))
  /\ NoDup (map progress_id (progress st)).

(** The row that [create_user] stores. *)
Definition new_user (rowid : Z) (username' email' password_hash' now : string) : user_row :=
  {| id := rowid; username := username'; email := email';
     password_hash := password_hash'; created_at := now;
     last_login := None; is_active := Some 1 |}.

(** The row that [add_progress_entry] stores. *)
Definition new_progress `{Sqlite} (rowid user_id' : Z) (data : gmap string sql_value)
    (now : string) : progress_row :=
  let stored type key := affinity type (bound (default Null (data !! key))) in
  {| progress_id := rowid; user_id := user_id';
     date := stored "DATE" "date"; weight := stored "REAL" "weight";
     body_fat := stored "REAL" "body_fat"; waist := stored "REAL" "waist";
     chest := stored "REAL" "chest"; arms := stored "REAL" "arms";
     notes := stored "TEXT" "notes"; progress_created_at := now |}.

(** The values of a dict can be bound. *)
Definition all_bindable (data : gmap string sql_value) : Prop :=
  forall key, bindable (default Null (data !! key)) = true.



(** An engine for closed examples: it stores every value as it is bound. *)
Definition plain_sqlite : Sqlite := fun _ v => v.

End StoreWords.

(** ** Words for the statements about the workout generator *)

Module WorkoutWords.

(** The keys of [exercises_db] and of its innermost dicts. *)
Definition locations : list string := ["home"; "gym"].
Definition levels : list string := ["beginner"; "intermediate"; "advanced"].

End WorkoutWords.

(** ** Categories, messages and the goal date (utils/helpers.py) *)

Module Helpers.
Import Py Float64.

(** [get_bmi_category]: the category and its icon.  The chained comparison
    [a <= bmi < b] is [a <= bmi and bmi < b]. *)
Definition get_bmi_category (bmi : float) : string * string :=
  if SFltb bmi (dec 185 10) then ("Underweight", "🔵")
  else if SFleb (dec 185 10) bmi && SFltb bmi (of_Z 25) then ("Normal", "🟢")
  else if SFleb (of_Z 25) bmi && SFltb bmi (of_Z 30) then ("Overweight", "🟡")
  else ("Obese", "🔴").

(** [get_motivational_message] *)
Definition get_motivational_message (progress_percentage : float) : string :=
  if SFltb progress_percentage (of_Z 10)
  then "🌱 Every journey begins with a single step. You've got this!"
  else if SFltb progress_percentage (of_Z 25)
  then "💪 Great start! Keep the momentum going!"
  else if SFltb progress_percentage (of_Z 50)
  then "🔥 You're making solid progress! Stay consistent!"
  else if SFltb progress_percentage (of_Z 75)
  then "⭐ Halfway there! Your dedication is paying off!"
  else if SFltb progress_percentage (of_Z 90)
  then "🚀 Almost there! The finish line is in sight!"
  else "🏆 Outstanding! You're so close to your goal!".

(** The exceptions of [predict_transformation_date]. *)
Inductive error :=
| ZeroDivisionError
| OverflowError
| ValueError.

Inductive outcome (A : Type) :=
| Done (a : A)
| Fail (e : error).
Arguments Done {A} a.
Arguments Fail {A} e.

Definition and_then {A B} (m : outcome A) (k : A -> outcome B) : outcome B :=
  match m with
  | Done a => k a
  | Fail e => Fail e
  end.

(** [x / y] on two floats of the interpreter: a zero divisor raises. *)
Definition truediv (x y : float) : outcome float :=
  if SFeqb y (of_Z 0) then Fail ZeroDivisionError else Done (fdiv x y).

(** [int(x)]: the float cut towards zero; NaN and the infinities raise. *)
Definition int_of_float (x : float) : outcome Z :=
  match x with
  | S754_nan => Fail ValueError
  | S754_infinity _ => Fail OverflowError
  | S754_zero _ => Done 0
  | S754_finite s m e =>
      Done (cond_Zopp s (if 0 <=? e then Z.pos m * 2 ^ e else Z.pos m / 2 ^ (- e)))
  end.

(** A [datetime]: the ordinal of its day ([toordinal()], from 1 for
    0001-01-01 to 3652059 for 9999-12-31) and the time of the day in
    microseconds. *)
Record datetime := {
  ordinal : Z;
  time_of_day : Z
}.

Definition MAXORDINAL : Z := 3652059.

(** [timedelta(days=d)]: the magnitude is at most 999999999 days. *)
Definition timedelta (days : Z) : outcome Z :=
  if 999999999 <? Z.abs days then Fail OverflowError else Done days.

(** [now + delta] for a [delta] of whole days. *)
Definition add_days (now : datetime) (delta : Z) : outcome datetime :=
  let day := ordinal now + delta in
  if (day <? 1) || (MAXORDINAL <? day) then Fail OverflowError
  else Done {| ordinal := day; time_of_day := time_of_day now |}.

(** [predict_transformation_date] on float arguments; [now] is
    [datetime.now()].  The [0] of the conditional expression is returned as
    the float of the same value. *)
Definition predict_transformation_date
    (current_weight target_weight weekly_goal : float) (goal_type : string)
    (now : datetime) : outcome (datetime * float * Z) :=
  let weight_diff := SFabs (fsub current_weight target_weight) in
  let weekly_change :=
    if String.eqb goal_type "Weight Loss"
    then py_min (SFabs weekly_goal) (of_Z 1)
    else py_min (SFabs weekly_goal) (dec 5 10) in
  and_then (if SFltb (of_Z 0) weekly_change
            then truediv weight_diff weekly_change
            else Done (of_Z 0)) (fun weeks_needed =>
  and_then (int_of_float (fmul weeks_needed (of_Z 7))) (fun days_needed =>
  and_then (timedelta days_needed) (fun delta =>
  and_then (add_days now delta) (fun target_date =>
  Done (target_date, weeks_needed, days_needed))))).

(** *** Words for the statements *)

(** The number of leading thresholds that [x] is not below. *)
Fixpoint band (thresholds : list float) (x : float) : nat :=
  match thresholds with
  | [] => 0
  | t :: ts => if SFltb x t then 0 else S (band ts x)
  end.

Definition bmi_categories : list string :=
  ["Underweight"; "Normal"; "Overweight"; "Obese"].

Definition messages : list string :=
  [ "🌱 Every journey begins with a single step. You've got this!";
    "💪 Great start! Keep the momentum going!";
    "🔥 You're making solid progress! Stay consistent!";
    "⭐ Halfway there! Your dedication is paying off!";
    "🚀 Almost there! The finish line is in sight!";
    "🏆 Outstanding! You're so close to your goal!" ].

(** The sign bit of a float is clear, or the float has none. *)
Definition unsigned (x : float) : Prop :=
  match x with
  | S754_finite s _ _ | S754_infinity s => s = false
  | S754_zero _ | S754_nan => True
  end.

End Helpers.

(** ** Body-fat categories ([get_body_fat_category], utils/ml_models.py) *)

Module MlModels.
Import Py Float64.

Definition get_body_fat_category (body_fat_percentage : float) (gender : string)
  : string * string :=
  if String.eqb (lower gender) "male" then
    if SFltb body_fat_percentage (of_Z 6) then ("Essential Fat", "🔵")
    else if SFleb (of_Z 6) body_fat_percentage && SFltb body_fat_percentage (of_Z 14)
    then ("Athletes", "🟢")
    else if SFleb (of_Z 14) body_fat_percentage && SFltb body_fat_percentage (of_Z 18)
    then ("Fitness", "🟢")
    else if SFleb (of_Z 18) body_fat_percentage && SFltb body_fat_percentage (of_Z 25)
    then ("Average", "🟡")
    else ("Obese", "🔴")
  else
    if SFltb body_fat_percentage (of_Z 14) then ("Essential Fat", "🔵")
    else if SFleb (of_Z 14) body_fat_percentage && SFltb body_fat_percentage (of_Z 21)
    then ("Athletes", "🟢")
    else if SFleb (of_Z 21) body_fat_percentage && SFltb body_fat_percentage (of_Z 25)
    then ("Fitness", "🟢")
    else if SFleb (of_Z 25) body_fat_percentage && SFltb body_fat_percentage (of_Z 32)
    then ("Average", "🟡")
    else ("Obese", "🔴").

Definition body_fat_categories : list string :=
  ["Essential Fat"; "Athletes"; "Fitness"; "Average"; "Obese"].

End MlModels.

(** ** Profile form ([validate_profile_data], app_dashboard_functions.py) *)

Module Dashboard.
Import Py Float64.

(** [str.isspace] on code points below 256. *)
Definition isspace (c : ascii) : bool :=
  let n := nat_of_ascii c in
  (((9 <=? n) && (n <=? 13)) || ((28 <=? n) && (n <=? 32))
   || (n =? 133) || (n =? 160))%nat.

Fixpoint lstrip (l : list ascii) : list ascii :=
  match l with
  | [] => []
  | c :: l' => if isspace c then lstrip l' else l
  end.

(** [str.strip()] *)
Definition strip (s : string) : string :=
  string_of_list_ascii
    (rev (lstrip (rev (lstrip (list_ascii_of_string s))))).

(** [validate_profile_data]; the form passes [age] and [height] as [int],
    [weight] and [goal_weight] as [float]. *)
Definition validate_profile_data (name : string) (age : Z) (weight : float)
    (height : Z) (goal_weight : float) : list string :=
  let errors := [] in
  let errors :=
    if String.eqb name "" || (String.length (strip name) =? 0)%nat
    then (errors ++ ["Name cannot be empty"])%list else errors in
  let errors :=
    if (age <? 15) || (100 <? age)
    then (errors ++ ["Age must be between 15 and 100"])%list else errors in
  let errors :=
    if SFltb weight (of_Z 30) || SFltb (of_Z 200) weight
    then (errors ++ ["Weight must be between 30 and 200 kg"])%list else errors in
  let errors :=
    if (height <? 100) || (250 <? height)
    then (errors ++ ["Height must be between 100 and 250 cm"])%list else errors in
  let errors :=
    if SFltb goal_weight (of_Z 30) || SFltb (of_Z 200) goal_weight
    then (errors ++ ["Goal weight must be between 30 and 200 kg"])%list else errors in
  errors.

End Dashboard.

(** ** The prompts of the coach ([get_workout_advice], [get_nutrition_advice],
    [analyze_progress], utils/ai_coach.py) *)

Module CoachPrompts.
Import Py Coach.

Section WithGenai.
Context {model_t chat_t : Type} `{Genai model_t chat_t}.

Definition workout_prompt (exercise_name user_level : string) : string :=
  "Provide form tips and common mistakes for " ++ exercise_name
  ++ " exercise for a " ++ user_level ++ " level person. Keep it concise.".

(** [get_workout_advice] *)
Definition get_workout_advice (self : AICoach model_t chat_t)
    (exercise_name user_level : string) :=
  get_response self (workout_prompt exercise_name user_level) None.

Definition nutrition_prompt (goal diet_preference : string) : string :=
  "Provide nutrition tips for someone with " ++ goal ++ " goal following a "
  ++ diet_preference ++ " diet, focusing on Indian cuisine. Keep it concise.".

(** [get_nutrition_advice] *)
Definition get_nutrition_advice (self : AICoach model_t chat_t)
    (goal diet_preference : string) :=
  get_response self (nutrition_prompt goal diet_preference) None.

(** The prompt of [analyze_progress]; [progress_data] is a dict, with its
    values as they print. *)
Definition progress_prompt (progress_data : gmap string string) : string :=
  let field key := default "N/A" (progress_data !! key) in
  "Analyze this fitness progress and provide insights:" ++ nl
  ++ "        Starting Weight: " ++ field "start_weight" ++ " kg" ++ nl
  ++ "        Current Weight: " ++ field "current_weight" ++ " kg" ++ nl
  ++ "        Goal Weight: " ++ field "goal_weight" ++ " kg" ++ nl
  ++ "        Weeks Elapsed: " ++ field "weeks" ++ nl
  ++ "        " ++ nl
  ++ "        Provide brief encouragement and suggestions." ++ nl
  ++ "        ".

(** [analyze_progress] *)
Definition analyze_progress (self : AICoach model_t chat_t)
    (progress_data : gmap string string) :=
  get_response self (progress_prompt progress_data) None.

(** A call of one of the four methods that talk to the service. *)
Inductive call :=
| GetResponse (user_message : string) (user_context : option (gmap string string))
| GetWorkoutAdvice (exercise_name user_level : string)
| GetNutritionAdvice (goal diet_preference : string)
| AnalyzeProgress (progress_data : gmap string string).

Definition perform (self : AICoach model_t chat_t) (c : call)
  : result string * AICoach model_t chat_t * list string :=
  match c with
  | GetResponse user_message user_context => get_response self user_message user_context
  | GetWorkoutAdvice exercise_name user_level =>
      get_workout_advice self exercise_name user_level
  | GetNutritionAdvice goal diet_preference =>
      get_nutrition_advice self goal diet_preference
  | AnalyzeProgress progress_data => analyze_progress self progress_data
  end.

(** The coach after a sequence of calls. *)
Definition after (self : AICoach model_t chat_t) (calls : list call)
  : AICoach model_t chat_t :=
  fold_left (fun coach c => (perform coach c).1.2) calls self.

End WithGenai.
End CoachPrompts.
(* ===================================================================== *)
(** * Part II: theorems                                                   *)
(* ===================================================================== *)

(** ** Facts on binary64 comparisons *)

Module Float64Facts.
Import Float64.

Lemma SFltb_SFleb (x y : float) : SFltb x y = true -> SFleb x y = true.
Proof.
  unfold SFltb, SFleb. destruct (SFcompare x y) as [[ | | ]|]; congruence.
Qed.

(** [max(lo, min(hi, x))] lands in [[lo, hi]] for every [x], NaN and the
    infinities included, as soon as the two bounds are ordered numbers. *)
Lemma clamp_bounds (lo hi x : float) :
  SFleb lo lo = true -> SFleb hi hi = true -> SFleb lo hi = true ->
  SFleb lo (py_max lo (py_min hi x)) = true
  /\ SFleb (py_max lo (py_min hi x)) hi = true.
Proof.
  intros Hlo Hhi Hlh. unfold py_max, py_min. cbn [ltb num].
  destruct (SFltb x hi) eqn:Hx.
  - destruct (SFltb lo x) eqn:Hl; auto using SFltb_SFleb.
  - destruct (SFltb lo hi) eqn:Hl; auto.
Qed.

(** [SFcompare] is the lexicographic comparison of the ranks. *)
Lemma SFcompare_rank (x y : float) :
  SFcompare x y = match rank x, rank y with
                  | Some a, Some b => Some (lex3 a b)
                  | _, _ => None
                  end.
Proof.
  destruct x as [[]|[]| |[] mx ex], y as [[]|[]| |[] my ey]; try reflexivity;
    cbn [SFcompare rank lex3 Z.compare]; f_equal.
  change (CompOpp (1 ?= 1)%positive) with Eq. cbv iota.
  rewrite Z.compare_opp, (Z.compare_antisym ex ey).
  destruct (ex ?= ey); reflexivity.
Qed.

Ltac order_cases :=
  unfold SFltb, SFleb; rewrite !SFcompare_rank;
  repeat match goal with
         | |- context [rank ?x] => destruct (rank x) as [[[? ?] ?]|]
         end;
  unfold lex3;
  repeat match goal with
         | |- context [?a ?= ?b] => destruct (Z.compare_spec a b)
         end;
  try congruence; try lia.

Lemma SFltb_irrefl (x : float) : SFltb x x = false.
Proof. order_cases. Qed.

Lemma SFltb_trans (x y z : float) :
  SFltb x y = true -> SFltb y z = true -> SFltb x z = true.
Proof. order_cases. Qed.

Lemma SFltb_not_SFleb (x y : float) : SFltb x y = true -> SFleb y x = false.
Proof. order_cases. Qed.

Lemma SFleb_SFltb_trans (x y z : float) :
  SFleb x y = true -> SFltb y z = true -> SFleb x z = true.
Proof. order_cases. Qed.

(** Whoever does not beat [z] is not as good as something that does. *)
Lemma SFltb_not_beaten (x y z : float) :
  SFltb x z = true -> SFltb y z = false -> SFleb y x = false.
Proof. order_cases. Qed.

(** A NaN operand is cut to the upper bound. *)
Lemma clamp_nan (lo hi : float) :
  SFltb lo hi = true -> py_max lo (py_min hi S754_nan) = hi.
Proof.
  intros Hlh. unfold py_max, py_min. cbn [ltb num].
  replace (SFltb S754_nan hi) with false by reflexivity.
  now rewrite Hlh.
Qed.

End Float64Facts.

(** ** Progress tracker *)

Module ProgressFacts.
Import Float64 Float64Facts Progress.

Lemma progress_percentage_bounds (start current goal : float) :
  SFleb (of_Z 0) (progress_percentage start current goal) = true
  /\ SFleb (progress_percentage start current goal) (of_Z 100) = true.
Proof.
  unfold progress_percentage. cbn [of_int num].
  apply clamp_bounds; reflexivity.
Qed.

(** C6. For every non-empty progress history [start :: rest] (sorted by
    date) and every goal weight, the percent-to-goal is
    [clamp(0, 100, (start - current) / (start - goal) * 100)] when
    [goal < start] and [clamp(0, 100, |start - current| / (goal - start) * 100)]
    otherwise, and it lies in [[0, 100]] whatever the three weights are. *)
Theorem percent_to_goal_clamped (start : float) (rest : list float) (goal : float) :
  let current := List.last (start :: rest) start in
  exists p,
    percent_to_goal (start :: rest) (Some goal) = Some p
    /\ p = (if SFltb goal start
            then clamp (of_Z 0) (of_Z 100)
                   (fmul (fdiv (fsub start current) (fsub start goal)) (of_Z 100))
            else clamp (of_Z 0) (of_Z 100)
                   (fmul (fdiv (SFabs (fsub start current)) (fsub goal start)) (of_Z 100)))
    /\ SFleb (of_Z 0) p = true /\ SFleb p (of_Z 100) = true.
Proof.
  intros current. eexists. split; [reflexivity|].
  change (Py.get (Some goal) start) with goal.
  fold current. split.
  - unfold progress_percentage, clamp. cbn [ltb sub div mul absf of_int num].
    now destruct (SFltb goal start).
  - apply progress_percentage_bounds.
Qed.

(** Overshooting the goal in either direction, and a goal equal to the
    start (a zero denominator), on concrete histories. *)
Example overshoot_loss :
  percent_to_goal [of_Z 80; of_Z 78; of_Z 60] (Some (of_Z 70)) = Some (of_Z 100).
Proof. vm_compute. reflexivity. Qed.

Example overshoot_wrong_direction :
  percent_to_goal [of_Z 80; of_Z 85] (Some (of_Z 70)) = Some (of_Z 0).
Proof. vm_compute. reflexivity. Qed.

Example goal_equals_start :
  percent_to_goal [of_Z 70; of_Z 70] (Some (of_Z 70)) = Some (of_Z 100).
Proof. vm_compute. reflexivity. Qed.

End ProgressFacts.

(** ** Body-fat predictor *)

Module BodyFatFacts.
Import Float64 Float64Facts Progress BodyFat.





Lemma py_min_number (hi x : float) : SFleb hi hi = true -> SFleb (py_min hi x) (py_min hi x) = true.
Proof.
  unfold py_min. cbn [ltb num]. destruct (SFltb x hi) eqn:Hx; revert Hx; order_cases.
Qed.






Example waist_below_neck :
  _empirical_prediction (H0:=log10_table) (man_100_60 (of_Z 50)) = of_Z 50
  /\ _empirical_prediction (H0:=log10_table) (man_100_60 (of_Z 70)) = of_Z 5.
Proof. split; vm_compute; reflexivity. Qed.

(** Nor is it non-increasing in the height: between the heights 10^-6 and
    10^-5 the denominator of the quotient changes sign. *)
Example height_monotonicity_binary64 :
  _empirical_prediction (H0:=log10_table) (man_47_37 (dec 1 1000000)) = of_Z 5
  /\ _empirical_prediction (H0:=log10_table) (man_47_37 (dec 1 100000)) = of_Z 50.
Proof. split; vm_compute; reflexivity. Qed.

End BodyFatFacts.

(** ** [random.sample] *)

Module SampleFacts.
Import Py.
Local Open Scope nat_scope.

Section WithElements.
Context {A : Type}.
Implicit Types (pool : list A) (g : rng).

Lemma randbelow_lt n g : 0 < n -> (randbelow n g).1 < n.
Proof. intros Hn. cbn. apply Nat.mod_upper_bound. lia. Qed.

(** One round of the loop: the drawn element leaves the live prefix, whose
    last element takes its slot. *)
Lemma live_prefix_step pool n j x y :
  j < n -> pool !! j = Some x -> pool !! (n - 1) = Some y ->
  x :: take (n - 1) (<[j := y]> pool) ≡ₚ take n pool.
Proof.
  intros Hj Hx Hy. destruct n as [|m]; [lia|].
  replace (S m - 1) with m in * by lia.
  rewrite (take_S_r pool m y Hy).
  destruct (decide (j = m)) as [->|Hne].
  - rewrite take_insert_ge by lia.
    assert (x = y) as -> by congruence.
    apply Permutation_cons_append.
  - rewrite take_insert_lt by lia.
    assert (Hl : take m pool !! j = Some x).
    { rewrite lookup_take_lt by lia. exact Hx. }
    assert (Hlen : j < length (take m pool)) by (eapply lookup_lt_Some; eauto).
    rewrite insert_take_drop by exact Hlen.
    rewrite <- (take_drop_middle (take m pool) j x Hl) at 3.
    set (a := take j (take m pool)). set (b := drop (S j) (take m pool)).
    rewrite <- (Permutation_middle a b y), <- (Permutation_middle a b x).
    cbn. apply perm_skip, Permutation_cons_append.
Qed.

(** [k] rounds return [k] elements which, together with what is left of the
    live prefix, are a rearrangement of the live prefix at the start. *)
Lemma sample_loop_spec k : forall pool n g,
  k <= n -> n <= length pool ->
  exists res g', sample_loop k pool n g = Ret (res, g')
    /\ length res = k
    /\ exists rest, res ++ rest ≡ₚ take n pool.
Proof.
  induction k as [|k IH]; intros pool n g Hk Hn.
  - exists [], g. split; [reflexivity|]. split; [reflexivity|].
    exists (take n pool). reflexivity.
  - cbn [sample_loop].
    pose proof (randbelow_lt n g ltac:(lia)) as Hj.
    destruct (randbelow n g) as [j g1]. cbn in Hj.
    destruct (lookup_lt_is_Some_2 pool j ltac:(lia)) as [x Hx].
    destruct (lookup_lt_is_Some_2 pool (n - 1) ltac:(lia)) as [y Hy].
    rewrite Hx, Hy.
    destruct (IH (<[j := y]> pool) (n - 1) g1) as (res & g2 & Hrun & Hlen & rest & Hperm).
    { lia. } { rewrite length_insert. lia. }
    exists (x :: res), g2. unfold mbind, result_bind. rewrite Hrun. cbn.
    split; [reflexivity|]. split; [cbn; lia|].
    exists rest. cbn. rewrite Hperm.
    apply live_prefix_step; assumption.
Qed.

(** [random.sample(population, k)] with [0 <= k <= len(population)] returns
    [k] elements taken at distinct positions of the population. *)
Lemma random_sample_spec (population : list A) (k : Z) g :
  (0 <= k <= len population)%Z ->
  exists res g', random_sample population k g = Ret (res, g')
    /\ length res = Z.to_nat k
    /\ exists rest, res ++ rest ≡ₚ population.
Proof.
  intros Hk. unfold random_sample, len in *.
  replace ((k <? 0)%Z || (Z.of_nat (length population) <? k)%Z) with false
    by (symmetry; apply orb_false_iff; split; apply Z.ltb_ge; lia).
  destruct (sample_loop_spec (Z.to_nat k) population (length population) g)
    as (res & g' & Hrun & Hlen & rest & Hperm); [lia | lia |].
  exists res, g'. split; [exact Hrun|]. split; [exact Hlen|].
  exists rest. now rewrite firstn_all in Hperm.
Qed.

Lemma sample_NoDup (res rest population : list A) :
  res ++ rest ≡ₚ population -> NoDup population -> NoDup res.
Proof.
  intros Hperm Hnd. rewrite <- Hperm in Hnd.
  apply NoDup_app in Hnd. tauto.
Qed.

Lemma sample_subseteq (res rest population : list A) :
  res ++ rest ≡ₚ population -> res ⊆ population.
Proof.
  intros Hperm x Hx. rewrite <- Hperm. apply elem_of_app. now left.
Qed.

Lemma sample_whole (res rest population : list A) :
  res ++ rest ≡ₚ population -> length res = length population -> res ≡ₚ population.
Proof.
  intros Hperm Hlen. pose proof (Permutation_length Hperm) as Hl.
  rewrite length_app in Hl.
  assert (rest = []) as -> by (apply length_zero_iff_nil; lia).
  now rewrite app_nil_r in Hperm.
Qed.

End WithElements.
End SampleFacts.

(** ** Workout generator *)

Module WorkoutFacts.
Import Py SampleFacts Workout.

Ltac split_elem H :=
  repeat (apply elem_of_cons in H as [->|H]); try (apply elem_of_nil in H; destruct H).

(** Every entry of the table exists and lists pairwise distinct exercises. *)
Lemma lookup_pool_valid (location category level : string) :
  location ∈ ["home"; "gym"] ->
  category ∈ ["strength"; "cardio"] ->
  level ∈ ["beginner"; "intermediate"; "advanced"] ->
  exists pool, lookup_pool location category level = Ret pool /\ NoDup pool.
Proof.
  intros Hloc Hcat Hlvl. split_elem Hloc; split_elem Hcat; split_elem Hlvl;
    (eexists; split; [vm_compute; reflexivity |
                      apply (bool_decide_unpack _); vm_compute; exact I]).
Qed.

(** The second half of [generate_workout] on a pool without repeats. *)
Lemma select_from_pool (pool : list exercise) (duration_minutes : Z) (g : rng) :
  NoDup pool ->
  let target := Z.max 4 (duration_minutes / 10) in
  let num_exercises := Z.min (len pool) target in
  exists selected g',
    random_sample pool (Z.min num_exercises (len pool)) g = Ret (selected, g')
    /\ length selected = Z.to_nat num_exercises
    /\ NoDup selected
    /\ selected ⊆ pool
    /\ (len pool <= target -> selected ≡ₚ pool).
Proof.
  intros Hnd target num_exercises.
  assert (Hnum : Z.min num_exercises (len pool) = num_exercises)
    by (subst num_exercises; lia).
  rewrite Hnum.
  destruct (random_sample_spec pool num_exercises g)
    as (selected & g' & Hrun & Hlen & rest & Hperm).
  { subst num_exercises target. unfold len. lia. }
  exists selected, g'. split; [exact Hrun|]. split; [exact Hlen|].
  split; [eapply sample_NoDup; eauto|].
  split; [eapply sample_subseteq; eauto|].
  intros Hsmall. eapply sample_whole; [exact Hperm|].
  rewrite Hlen. subst num_exercises. unfold len in *. lia.
Qed.

(** Every plan that is returned carries the fixed warmup and cooldown. *)
Lemma generate_workout_routines location workout_type experience_level
    duration_minutes today g plan g' :
  generate_workout location workout_type experience_level duration_minutes today g
    = Ret (plan, g') ->
  length (warmup plan) = 4%nat /\ length (cooldown plan) = 5%nat.
Proof.
  unfold generate_workout.
  destruct (select_pool _ _ _ _) as [[pool g1]|]; [|discriminate].
  unfold mbind at 1, result_bind at 1; cbn [bind].
  match goal with |- context [random_sample ?p ?k ?r] =>
    destruct (random_sample p k r) as [[selected g2]|]; [|discriminate] end.
  intros [= <- <-]. split; reflexivity.
Qed.

(** C3. For a location and a level of the table (in any letter case), a
    workout type whose pool is looked up ("Strength Training", "Cardio",
    "HIIT") and every duration, the generator returns a plan whose exercise
    list has exactly [min(len(pool), max(4, duration // 10))] entries, which
    are pairwise distinct elements of the pool and all of the pool when the
    pool is not larger than the target; the warmup has 4 items and the
    cooldown 5. *)
Theorem generate_workout_selection
    (location workout_type experience_level today : string)
    (duration_minutes : Z) (g : rng) :
  lower location ∈ ["home"; "gym"] ->
  lower experience_level ∈ ["beginner"; "intermediate"; "advanced"] ->
  workout_type ∈ ["Strength Training"; "Cardio"; "HIIT"] ->
  exists pool plan g',
    lookup_pool (lower location) (category_of workout_type) (lower experience_level)
      = Ret pool
    /\ generate_workout location workout_type experience_level duration_minutes today g
       = Ret (plan, g')
    /\ length (exercises plan)
       = Z.to_nat (Z.min (len pool) (Z.max 4 (duration_minutes / 10)))
    /\ NoDup (exercises plan)
    /\ exercises plan ⊆ pool
    /\ (len pool <= Z.max 4 (duration_minutes / 10) -> exercises plan ≡ₚ pool)
    /\ (forall location' workout_type' experience_level' duration' today' g0 plan' g1,
          generate_workout location' workout_type' experience_level' duration' today' g0
            = Ret (plan', g1) ->
          length (warmup plan') = 4%nat /\ length (cooldown plan') = 5%nat).
Proof.
  intros Hloc Hlvl Htype.
  assert (Hcat : category_of workout_type ∈ ["strength"; "cardio"]).
  { split_elem Htype; unfold category_of; cbn [String.eqb Ascii.eqb Bool.eqb];
      repeat constructor. }
  destruct (lookup_pool_valid _ _ _ Hloc Hcat Hlvl) as (pool & Hpool & Hnd).
  destruct (select_from_pool pool duration_minutes g Hnd)
    as (selected & g' & Hrun & Hlen & Hnd' & Hsub & Hall).
  assert (Hsel : select_pool (lower location) workout_type (lower experience_level) g
                 = Ret (pool, g)).
  { unfold select_pool.
    split_elem Htype; cbn [String.eqb Ascii.eqb Bool.eqb orb];
      change (category_of _) with "strength" in Hpool || change (category_of _) with "cardio" in Hpool;
      rewrite Hpool; reflexivity. }
  eexists pool, _, g'. split; [exact Hpool|].
  split.
  { unfold generate_workout. rewrite Hsel.
    unfold mbind at 1, result_bind at 1; cbn [bind].
    rewrite Hrun. reflexivity. }
  cbn [exercises]. repeat (split; [assumption|]).
  apply generate_workout_routines.
Qed.

(** The spec's example: 45 minutes of strength training at home for a
    beginner select 4 of the 8 exercises of the pool, without repeats. *)
Lemma generate_workout_selection_witness :
  exists plan g',
    generate_workout "Home" "Strength Training" "Beginner" 45 "2024-01-01" (fun i => i)
      = Ret (plan, g')
    /\ length (exercises plan) = 4%nat
    /\ NoDup (exercises plan).
Proof.
  destruct (generate_workout_selection
              "Home" "Strength Training" "Beginner" "2024-01-01" 45 (fun i => i))
    as (pool & plan & g' & Hpool & Hrun & Hlen & Hnd & _).
  - apply (bool_decide_unpack _). vm_compute. exact I.
  - apply (bool_decide_unpack _). vm_compute. exact I.
  - apply (bool_decide_unpack _). vm_compute. exact I.
  - exists plan, g'. split; [exact Hrun|]. split; [|exact Hnd].
    vm_compute in Hpool. injection Hpool as <-. exact Hlen.
Defined.

Example workout_45_home_beginner :
  (p ← generate_workout "Home" "Strength Training" "Beginner" 45 "2024-01-01"
         (fun i => (3 * i + 5)%nat);
   Ret (map name (exercises p.1)))
  = Ret ["Wall Sit"; "Bodyweight Squats"; "Tricep Dips (chair)"; "Glute Bridges"].
Proof. vm_compute. reflexivity. Qed.

(** A long session on a small pool uses the whole pool, each exercise once. *)
Example workout_90_gym_cardio :
  (p ← generate_workout "gym" "Cardio" "advanced" 90 "2024-01-01" (fun i => i);
   Ret (map name (exercises p.1)))
  = Ret ["Sprint Intervals"; "Assault Bike"; "Rowing HIIT"].
Proof. vm_compute. reflexivity. Qed.

(** Any type that is not looked up is served as a mixed workout: 3 strength
    and 2 cardio exercises, of which 4 or 5 are kept. *)
Example workout_mixed :
  (p ← generate_workout "Home" "Mixed" "Beginner" 30 "2024-01-01" (fun i => i);
   Ret (length (exercises p.1)))
  = Ret 4%nat
  /\ (p ← generate_workout "Home" "Yoga" "Beginner" 60 "2024-01-01" (fun i => i);
      Ret (length (exercises p.1)))
     = Ret 5%nat.
Proof. split; vm_compute; reflexivity. Qed.

(** An unknown location or level is a [KeyError]. *)
Example workout_unknown_location :
  generate_workout "Park" "Cardio" "Beginner" 45 "2024-01-01" (fun i => i)
  = Raise (KeyError "park").
Proof. vm_compute. reflexivity. Qed.

End WorkoutFacts.

(** ** Meal planner *)

Module MealFacts.
Import Py Float64 Float64Facts Meal.
Local Open Scope list_scope.

Section MinBy.
Context {A : Type} (key : A -> float).

(** The loop of [min] keeps, over the items seen so far, an item that no
    seen item beats and that no earlier item equals. *)
Lemma min_by_invariant (rest : list A) : forall (seen : list A) (best : A) (i : nat),
  seen !! i = Some best ->
  (forall x, x ∈ seen -> SFltb (key x) (key best) = false) ->
  (forall (j : nat) x, (j < i)%nat -> seen !! j = Some x -> SFleb (key x) (key best) = false) ->
  exists i' : nat,
    (seen ++ rest) !! i' = Some (min_by key best rest)
    /\ (forall x, x ∈ seen ++ rest -> SFltb (key x) (key (min_by key best rest)) = false)
    /\ (forall (j : nat) x, (j < i')%nat -> (seen ++ rest) !! j = Some x ->
          SFleb (key x) (key (min_by key best rest)) = false).
Proof.
  induction rest as [|x rest IH]; intros seen best i Hi Hmin Hfirst.
  - exists i. rewrite app_nil_r. cbn. auto.
  - cbn [min_by]. cbn [ltb num].
    replace (seen ++ x :: rest) with ((seen ++ [x]) ++ rest)
      by (rewrite <- app_assoc; reflexivity).
    destruct (SFltb (key x) (key best)) eqn:Hlt.
    + apply (IH (seen ++ [x]) x (length seen)).
      * rewrite lookup_app_r by lia. now rewrite Nat.sub_diag.
      * intros y Hy. apply elem_of_app in Hy as [Hy|Hy].
        -- destruct (SFltb (key y) (key x)) eqn:Hyx; [|reflexivity].
           rewrite <- (Hmin y Hy). symmetry. eapply SFltb_trans; eauto.
        -- apply list_elem_of_singleton in Hy as ->. apply SFltb_irrefl.
      * intros j y Hj Hy. rewrite lookup_app_l in Hy by lia.
        eapply SFltb_not_beaten; [exact Hlt|].
        apply Hmin. eapply list_elem_of_lookup_2; eauto.
    + apply (IH (seen ++ [x]) best i).
      * rewrite lookup_app_l; [exact Hi | eapply lookup_lt_Some; eauto].
      * intros y Hy. apply elem_of_app in Hy as [Hy|Hy]; [auto|].
        apply list_elem_of_singleton in Hy as ->. exact Hlt.
      * intros j y Hj Hy. apply (Hfirst j y Hj).
        rewrite lookup_app_l in Hy; [exact Hy|].
        apply lookup_lt_Some in Hi. lia.
Qed.

Lemma min_by_spec (first : A) (others : list A) :
  exists i : nat,
    (first :: others) !! i = Some (min_by key first others)
    /\ (forall x, x ∈ first :: others ->
          SFltb (key x) (key (min_by key first others)) = false)
    /\ (forall (j : nat) x, (j < i)%nat -> (first :: others) !! j = Some x ->
          SFleb (key x) (key (min_by key first others)) = false).
Proof.
  apply (min_by_invariant others [first] first 0%nat).
  - reflexivity.
  - intros x Hx. apply list_elem_of_singleton in Hx as ->. apply SFltb_irrefl.
  - intros j x Hj. lia.
Qed.

End MinBy.

(** Under the static table every candidate pool is non-empty, and
    [_select_meal] returns the [min] of the candidate pool. *)
Lemma select_meal_pool (meal_type diet_pref : string) :
  meal_type ∈ slots -> diet_pref ∈ recognized ->
  exists first others,
    candidate_pool meal_type diet_pref = first :: others
    /\ forall target : float,
         _select_meal meal_type diet_pref target
         = Ret (Some (min_by (distance target) first others)).
Proof.
  intros Hslot Hdiet. unfold slots, recognized in *.
  repeat (apply elem_of_cons in Hslot as [->|Hslot]);
    try (apply elem_of_nil in Hslot; destruct Hslot);
    repeat (apply elem_of_cons in Hdiet as [->|Hdiet]);
    try (apply elem_of_nil in Hdiet; destruct Hdiet);
    (eexists _, _; split; [vm_compute; reflexivity | intros target; reflexivity]).
Qed.

Lemma select_meal_nearest (meal_type diet_pref : string) (target : float) :
  meal_type ∈ slots -> diet_pref ∈ recognized ->
  exists m, _select_meal meal_type diet_pref target = Ret (Some m)
            /\ nearest (candidate_pool meal_type diet_pref) target m.
Proof.
  intros Hslot Hdiet.
  destruct (select_meal_pool _ _ Hslot Hdiet) as (first & others & Hpool & Hsel).
  eexists. split; [apply Hsel|].
  rewrite Hpool. apply min_by_spec.
Qed.

Lemma for_each_ret {A B} (f : A -> B) (body : A -> result B) (l : list A) :
  (forall a, body a = Ret (f a)) -> for_each body l = Ret (map f l).
Proof.
  intros Hbody. induction l as [|a l IH]; [reflexivity|].
  cbn [for_each map]. rewrite Hbody, IH. reflexivity.
Qed.

Lemma range_length (start stop : Z) :
  Z.of_nat (length (range start stop)) = Z.max 0 (stop - start).
Proof. unfold range. rewrite length_map, length_seq. lia. Qed.

(** With a recognized diet every day holds the four selected items. *)
Lemma generate_meal_plan_recognized
    (diet_preference : string) (calorie_target : float) (num_days : Z)
    (goal today : string) :
  lower diet_preference ∈ recognized ->
  let daily := adjusted_calories goal calorie_target in
  exists b l d s,
    nearest (candidate_pool "breakfast" (lower diet_preference)) (daily * dec 25 100)%num b
    /\ nearest (candidate_pool "lunch" (lower diet_preference)) (daily * dec 35 100)%num l
    /\ nearest (candidate_pool "dinner" (lower diet_preference)) (daily * dec 30 100)%num d
    /\ nearest (candidate_pool "snacks" (lower diet_preference)) (daily * dec 10 100)%num s
    /\ generate_meal_plan diet_preference calorie_target num_days goal today
       = Ret (map (day_of today b l d s) (range 1 (num_days + 1))).
Proof.
  intros Hdiet daily.
  assert (Hb : "breakfast" ∈ slots) by (unfold slots; repeat constructor).
  assert (Hl : "lunch" ∈ slots) by (unfold slots; repeat constructor).
  assert (Hd : "dinner" ∈ slots) by (unfold slots; repeat constructor).
  assert (Hs : "snacks" ∈ slots) by (unfold slots; repeat constructor).
  destruct (select_meal_nearest _ _ (daily * dec 25 100)%num Hb Hdiet) as (b & Eb & Nb).
  destruct (select_meal_nearest _ _ (daily * dec 35 100)%num Hl Hdiet) as (l & El & Nl).
  destruct (select_meal_nearest _ _ (daily * dec 30 100)%num Hd Hdiet) as (d & Ed & Nd).
  destruct (select_meal_nearest _ _ (daily * dec 10 100)%num Hs Hdiet) as (s & Es & Ns).
  exists b, l, d, s. repeat (split; [assumption|]).
  unfold generate_meal_plan. fold (adjusted_calories goal calorie_target). fold daily.
  apply for_each_ret. intros day.
  unfold mbind, result_bind.
  rewrite Eb; cbn [bind]. rewrite El; cbn [bind].
  rewrite Ed; cbn [bind]. rewrite Es; cbn [bind].
  cbn. unfold day_of. repeat f_equal.
Qed.

(** Without a recognized diet no table is read and no meal is selected. *)
Lemma select_meal_unrecognized (meal_type diet_pref : string) (target : float) :
  diet_pref ∉ recognized -> _select_meal meal_type diet_pref target = Ret None.
Proof.
  intros Hdiet. unfold _select_meal, recognized in *.
  rewrite !not_elem_of_cons in Hdiet. destruct Hdiet as (H1 & H2 & H3 & H4 & _).
  apply String.eqb_neq in H1, H2, H3, H4. rewrite H1, H2, H3, H4. reflexivity.
Qed.

Lemma generate_meal_plan_unrecognized
    (diet_preference : string) (calorie_target : float) (num_days : Z)
    (goal today : string) :
  lower diet_preference ∉ recognized ->
  generate_meal_plan diet_preference calorie_target num_days goal today
  = Ret (map (empty_day today) (range 1 (num_days + 1))).
Proof.
  intros Hdiet. unfold generate_meal_plan.
  apply for_each_ret. intros day.
  rewrite !select_meal_unrecognized by assumption. reflexivity.
Qed.

(** C2. For every recognized diet preference, meal slot and slot calorie
    target, [_select_meal] returns the item of the slot's candidate pool
    (vegetarian list; vegetarian then non-vegetarian lists; vegan list, or
    vegetarian list when it is absent or empty; vegetarian then eggetarian
    lists) with the smallest absolute difference from the target, the
    earliest in table order on ties.  [generate_meal_plan] calls it with
    25%, 35%, 30% and 10% of the daily calories after the goal adjustment
    (-500 for weight loss, +300 for muscle gain, unchanged otherwise). *)
Theorem meal_selection_nearest_match :
  (forall (meal_type diet_pref : string) (target : float),
      meal_type ∈ slots -> diet_pref ∈ recognized ->
      exists m, _select_meal meal_type diet_pref target = Ret (Some m)
                /\ nearest (candidate_pool meal_type diet_pref) target m)
  /\ (forall (diet_preference : string) (calorie_target : float) (num_days : Z)
             (goal today : string),
        lower diet_preference ∈ recognized ->
        let daily := adjusted_calories goal calorie_target in
        exists b l d s,
          nearest (candidate_pool "breakfast" (lower diet_preference))
            (daily * dec 25 100)%num b
          /\ nearest (candidate_pool "lunch" (lower diet_preference))
               (daily * dec 35 100)%num l
          /\ nearest (candidate_pool "dinner" (lower diet_preference))
               (daily * dec 30 100)%num d
          /\ nearest (candidate_pool "snacks" (lower diet_preference))
               (daily * dec 10 100)%num s
          /\ generate_meal_plan diet_preference calorie_target num_days goal today
             = Ret (map (day_of today b l d s) (range 1 (num_days + 1)))).
Proof.
  split.
  - intros. now apply select_meal_nearest.
  - intros. now apply generate_meal_plan_recognized.
Qed.

(** The spec's example: vegetarian, 2000 kcal, weight loss, 3 days. *)
Lemma meal_selection_nearest_match_witness :
  (exists m, _select_meal "breakfast" "vegetarian" (of_Z 375) = Ret (Some m)
             /\ nearest (candidate_pool "breakfast" "vegetarian") (of_Z 375) m)
  /\ exists b l d s,
       generate_meal_plan "Vegetarian" (of_Z 2000) 3 "Weight Loss" "2024-01-01"
       = Ret (map (day_of "2024-01-01" b l d s) (range 1 (3 + 1))).
Proof.
  destruct meal_selection_nearest_match as [Hselect Hplan]. split.
  - apply Hselect.
    + apply (bool_decide_unpack _). vm_compute. exact I.
    + apply (bool_decide_unpack _). vm_compute. exact I.
  - destruct (Hplan "Vegetarian" (of_Z 2000) 3 "Weight Loss" "2024-01-01")
      as (b & l & d & s & _ & _ & _ & _ & Hrun).
    + apply (bool_decide_unpack _). vm_compute. exact I.
    + exists b, l, d, s. exact Hrun.
Defined.

Example meal_plan_vegetarian_weight_loss :
  (plan ← generate_meal_plan "Vegetarian" (of_Z 2000) 3 "Weight Loss" "2024-01-01";
   Ret (map (fun entry => (day entry, map (fun m => name (food_of m)) (meals entry),
                           total_calories entry)) plan))
  = Ret [ (1, ["Paratha (2) with Curd"; "Chole Bhature"; "Paneer Tikka with Roti (2)";
               "Roasted Chana"], 1440);
          (2, ["Paratha (2) with Curd"; "Chole Bhature"; "Paneer Tikka with Roti (2)";
               "Roasted Chana"], 1440);
          (3, ["Paratha (2) with Curd"; "Chole Bhature"; "Paneer Tikka with Roti (2)";
               "Roasted Chana"], 1440) ].
Proof. vm_compute. reflexivity. Qed.

(** C10. Under the static table every candidate pool of a recognized diet
    is non-empty.  Hence, for a recognized diet preference, the plan has
    [num_days] day entries (none when [num_days] is not positive), each with
    the four meal slots and with totals equal to the sums of the four
    selected items; for any other diet preference the plan is returned with
    the same number of day entries, each without meals and with zero
    totals. *)
Theorem meal_plan_shape
    (diet_preference : string) (calorie_target : float) (num_days : Z)
    (goal today : string) :
  (forall meal_type diet_pref,
      meal_type ∈ slots -> diet_pref ∈ recognized ->
      candidate_pool meal_type diet_pref <> [])
  /\ exists plan,
       generate_meal_plan diet_preference calorie_target num_days goal today = Ret plan
       /\ Z.of_nat (length plan) = Z.max 0 num_days
       /\ if bool_decide (lower diet_preference ∈ recognized)
          then exists b l d s,
                 Forall (fun entry =>
                   map type (meals entry) = ["Breakfast"; "Lunch"; "Dinner"; "Snacks"]
                   /\ map food_of (meals entry) = [b; l; d; s]
                   /\ total_calories entry = calories b + calories l + calories d + calories s
                   /\ total_protein entry = protein b + protein l + protein d + protein s
                   /\ total_carbs entry = carbs b + carbs l + carbs d + carbs s
                   /\ total_fat entry = fat b + fat l + fat d + fat s) plan
          else Forall (fun entry =>
                 meals entry = []
                 /\ total_calories entry = 0 /\ total_protein entry = 0
                 /\ total_carbs entry = 0 /\ total_fat entry = 0) plan.
Proof.
  split.
  - intros meal_type diet_pref Hslot Hdiet.
    destruct (select_meal_pool _ _ Hslot Hdiet) as (first & others & -> & _).
    discriminate.
  - destruct (bool_decide (lower diet_preference ∈ recognized)) eqn:Hdec.
    + apply bool_decide_eq_true in Hdec.
      destruct (generate_meal_plan_recognized diet_preference calorie_target
                  num_days goal today Hdec) as (b & l & d & s & _ & _ & _ & _ & Hrun).
      eexists. split; [exact Hrun|]. split.
      * rewrite length_map, range_length. lia.
      * exists b, l, d, s. apply Forall_map, Forall_forall. intros day _.
        cbn. repeat split; reflexivity.
    + apply bool_decide_eq_false in Hdec.
      eexists. split; [now apply generate_meal_plan_unrecognized|]. split.
      * rewrite length_map, range_length. lia.
      * apply Forall_map, Forall_forall. intros day _. cbn. repeat split; reflexivity.
Qed.

(** Three vegan days: three entries with the four slots each. *)
Lemma meal_plan_shape_witness :
  candidate_pool "breakfast" "vegan" <> []
  /\ exists plan,
       generate_meal_plan "Vegan" (of_Z 1800) 3 "Muscle Gain" "2024-01-01" = Ret plan
       /\ Z.of_nat (length plan) = 3.
Proof.
  destruct (meal_plan_shape "Vegan" (of_Z 1800) 3 "Muscle Gain" "2024-01-01")
    as (Hpools & plan & Hrun & Hlen & _).
  split.
  - apply Hpools; apply (bool_decide_unpack _); vm_compute; exact I.
  - exists plan. split; [exact Hrun | exact Hlen].
Defined.

Example meal_plan_unrecognized_diet :
  generate_meal_plan "Keto" (of_Z 2000) 2 "Maintenance" "2024-01-01"
  = Ret [empty_day "2024-01-01" 1; empty_day "2024-01-01" 2].
Proof. vm_compute. reflexivity. Qed.

(** The vegan breakfast falls back on the vegetarian list. *)
Example vegan_breakfast_fallback :
  candidate_pool "breakfast" "vegan" = tagged "breakfast" "vegetarian"
  /\ candidate_pool "lunch" "vegan" = tagged "lunch" "vegan".
Proof. split; vm_compute; reflexivity. Qed.

End MealFacts.

(** ** Regular expressions *)

Module ReFacts.
Import Re.
Local Open Scope list_scope.

Lemma nullable_lang (r : regex) : nullable r = true <-> lang r [].
Proof.
  induction r as [| |p|r1 IH1 r2 IH2|r1 IH1 r2 IH2|r IH]; cbn.
  - split; [discriminate | tauto].
  - tauto.
  - split; [discriminate | intros (c & Hc & _); discriminate].
  - rewrite andb_true_iff, IH1, IH2. split.
    + intros [H1 H2]. exists [], []. auto.
    + intros (u & v & Huv & H1 & H2). symmetry in Huv.
      apply app_eq_nil in Huv as [-> ->]. auto.
  - rewrite orb_true_iff, IH1, IH2. tauto.
  - split; [intros _; constructor | reflexivity].
Qed.

(** A non-empty word of [r*] starts with a non-empty word of [r]. *)
Lemma star_cons (L : list ascii -> Prop) (c : ascii) (s : list ascii) :
  star L (c :: s) -> exists u v, s = u ++ v /\ L (c :: u) /\ star L v.
Proof.
  intros Hstar. remember (c :: s) as w eqn:Hw.
  induction Hstar as [|u v Hu Hv IH]; [discriminate|].
  destruct u as [|c' u'].
  - apply IH. exact Hw.
  - injection Hw as -> <-. eauto.
Qed.

Lemma deriv_lang (r : regex) : forall c s, lang (deriv c r) s <-> lang r (c :: s).
Proof.
  induction r as [| |p|r1 IH1 r2 IH2|r1 IH1 r2 IH2|r IH]; intros c s; cbn [deriv].
  - reflexivity.
  - cbn. split; [tauto | discriminate].
  - destruct (p c) eqn:Hp; cbn.
    + split.
      * intros ->. eauto.
      * intros (c' & [= -> ->] & _). reflexivity.
    + split; [tauto|]. intros (c' & [= <- _] & Hc'). congruence.
  - destruct (nullable r1) eqn:Hnull; cbn [lang].
    + split.
      * intros [(u & v & -> & H1 & H2) | H2].
        -- exists (c :: u), v. rewrite <- IH1. auto.
        -- exists [], (c :: s). rewrite <- IH2, <- nullable_lang. auto.
      * intros (u & v & Huv & H1 & H2). destruct u as [|c' u'].
        -- right. cbn in Huv. subst v. now apply IH2.
        -- left. injection Huv as <- ->. exists u', v. rewrite IH1. auto.
    + split.
      * intros (u & v & -> & H1 & H2). exists (c :: u), v. rewrite <- IH1. auto.
      * intros (u & v & Huv & H1 & H2). destruct u as [|c' u'].
        -- apply nullable_lang in H1. congruence.
        -- injection Huv as <- ->. exists u', v. rewrite IH1. auto.
  - cbn. rewrite IH1, IH2. reflexivity.
  - cbn [lang]. split.
    + intros (u & v & -> & Hu & Hv). apply IH in Hu.
      apply (star_app _ (c :: u) v); assumption.
    + intros Hstar. apply star_cons in Hstar as (u & v & -> & Hu & Hv).
      exists u, v. rewrite IH. auto.
Qed.

(** The matcher decides the words of the expression. *)
Lemma matches_lang (r : regex) (s : list ascii) : matches r s = true <-> lang r s.
Proof.
  revert r. induction s as [|c s IH]; intros r; cbn [matches].
  - apply nullable_lang.
  - rewrite IH. apply deriv_lang.
Qed.

Lemma star_class (p : ascii -> bool) (s : list ascii) :
  star (lang (Class p)) s <-> forallb p s = true.
Proof.
  split.
  - induction 1 as [|u v (c & -> & Hc) _ IH]; [reflexivity|].
    cbn. now rewrite Hc.
  - induction s as [|c s IH]; cbn; [constructor|].
    rewrite andb_true_iff. intros [Hc Hs].
    apply (star_app _ [c] s); [cbn; eauto | auto].
Qed.

(** [[...]+] covers the non-empty texts over the class. *)
Lemma matches_plus_class (p : ascii -> bool) (s : list ascii) :
  matches (plus (Class p)) s
  = match s with [] => false | _ :: _ => forallb p s end.
Proof.
  apply eq_true_iff_eq. rewrite matches_lang. unfold plus. cbn [lang].
  split.
  - intros (u & v & -> & (c & -> & Hc) & Hv). apply star_class in Hv.
    cbn. now rewrite Hc, Hv.
  - destruct s as [|c s]; [discriminate|]. cbn. rewrite andb_true_iff.
    intros [Hc Hs]. exists [c], s.
    split; [reflexivity|]. split; [cbn; eauto | apply star_class; exact Hs].
Qed.

Lemma before_final_newline_app (s s' : list ascii) :
  before_final_newline s = Some s' -> s = s' ++ ["010"%char].
Proof.
  revert s'. induction s as [|c s IH]; intros s'; [discriminate|].
  destruct s as [|c' s2].
  - cbn. destruct (Ascii.eqb_spec c "010"); [|discriminate].
    intros [= <-]. now subst.
  - change (before_final_newline (c :: c' :: s2))
      with (option_map (cons c) (before_final_newline (c' :: s2))).
    destruct (before_final_newline (c' :: s2)) as [t|]; [|discriminate].
    intros [= <-]. cbn. f_equal. now apply IH.
Qed.

End ReFacts.

(** ** Persistence store *)

Module StoreFacts.
Import Py Store.
Local Open Scope list_scope.

Ltac store_unfold :=
  unfold mbind, M_bind, bindM, mret, M_ret, ret, raise, run, gets, try_except in *.

Ltac untouched_solve :=
  unfold untouched, writes; cbn;
  rewrite ?List.filter_app, ?length_app; cbn;
  repeat split; try reflexivity; try lia.

Lemma untouched_refl (st : db) : untouched st st.
Proof. untouched_solve. Qed.

Lemma untouched_trans (st1 st2 st3 : db) :
  untouched st1 st2 -> untouched st2 st3 -> untouched st1 st3.
Proof. unfold untouched. intros (?&?&?&?&?) (?&?&?&?&?). repeat split; congruence. Qed.

Lemma next_rowid_positive (seq : N) (rowids : list Z) : 1 <= next_rowid seq rowids.
Proof. unfold next_rowid. lia. Qed.

(** A read leaves the tables alone; it returns unless the storage layer
    fails, and then it raises. *)
Lemma select_user_effect (p : user_row -> bool) (st : db) :
  exists r st',
    select_user p st = (r, st')
    /\ untouched st st'
    /\ faults st' = tail (faults st)
    /\ match head (faults st) with
       | Some (Some msg) => r = Raise (OperationalError msg)
       | _ => r = Ret (List.find p (users st))
       end.
Proof.
  unfold select_user, take_statement, record. store_unfold.
  destruct (faults st) as [|[msg|] later] eqn:Hf; cbn; rewrite ?Hf;
    eexists _, _; (split; [reflexivity|]); cbn; rewrite ?Hf;
    (split; [untouched_solve|]); auto.
Qed.

(** An insertion into [users] either appends one row, with a rowid that is
    not zero, as its single write, or raises and leaves the tables alone. *)
Lemma insert_user_effect (username' email' password_hash' : string) (st : db) :
  exists r st',
    insert_user username' email' password_hash' st = (r, st')
    /\ faults st' = tail (faults st)
    /\ match r with
       | Ret rowid =>
           rowid <> 0
           /\ users st' = users st ++
                [ {| id := rowid; username := username'; email := email';
                     password_hash := password_hash'; created_at := clock st;
                     last_login := None; is_active := Some 1 |} ]
           /\ progress st' = progress st /\ progress_seq st' = progress_seq st
           /\ writes st' = S (writes st)
       | Raise _ => untouched st st'
       end.
Proof.
  unfold insert_user, take_statement. store_unfold.
  destruct (faults st) as [|[msg|] later] eqn:Hf; cbn; rewrite ?Hf.
  2: { eexists _, _. split; [reflexivity|]. split; [reflexivity|]. untouched_solve. }
  all: destruct (existsb _ (users st)); [|destruct (existsb _ (users st))];
    eexists _, _; (split; [reflexivity|]); cbn; rewrite ?Hf;
    (split; [reflexivity|]); try untouched_solve;
    pose proof (next_rowid_positive (users_seq st) (map id (users st))); lia.
Qed.

Lemma insert_user_duplicate (username' email' password_hash' : string) (st : db) :
  head (faults st) = None \/ head (faults st) = Some None ->
  (exists row, row ∈ users st /\ (username row = username' \/ email row = email')) ->
  exists msg st',
    insert_user username' email' password_hash' st = (Raise (IntegrityError msg), st')
    /\ untouched st st'.
Proof.
  intros Hhealthy (row & Hrow & Hdup).
  assert (Hex : existsb (fun r => String.eqb (username r) username') (users st) = true
                \/ existsb (fun r => String.eqb (email r) email') (users st) = true).
  { apply list_elem_of_In in Hrow.
    destruct Hdup as [<-|<-]; [left|right]; apply existsb_exists;
      exists row; (split; [exact Hrow | apply String.eqb_refl]). }
  unfold insert_user, take_statement. store_unfold.
  destruct (faults st) as [|[msg|] later] eqn:Hf; cbn in Hhealthy;
    try (destruct Hhealthy; discriminate); cbn; rewrite ?Hf.
  all: destruct (existsb _ (users st)) eqn:H1;
    [|destruct Hex as [Hex|Hex]; [discriminate | rewrite Hex]];
    eexists _, _; (split; [reflexivity|]); untouched_solve.
Qed.

(** [create_user] never raises an integrity error. *)
Lemma create_user_effect (username' email' password_hash' : string) (st : db) :
  exists r st',
    create_user username' email' password_hash' st = (r, st')
    /\ faults st' = tail (faults st)
    /\ match r with
       | Ret (Some rowid) =>
           rowid <> 0
           /\ users st' = users st ++
                [ {| id := rowid; username := username'; email := email';
                     password_hash := password_hash'; created_at := clock st;
                     last_login := None; is_active := Some 1 |} ]
           /\ progress st' = progress st /\ progress_seq st' = progress_seq st
           /\ writes st' = S (writes st)
       | Ret None => untouched st st'
       | Raise e => untouched st st' /\ forall msg, e <> IntegrityError msg
       end.
Proof.
  destruct (insert_user_effect username' email' password_hash' st)
    as (r & st' & Hrun & Hf & Heff).
  unfold create_user. store_unfold. rewrite Hrun.
  destruct r as [rowid|e].
  - eexists _, _. split; [reflexivity|]. auto.
  - destruct e; eexists _, _; (split; [reflexivity|]); (split; [exact Hf|]);
      try exact Heff; (split; [exact Heff | discriminate]).
Qed.

(** The last-login update is one write on [users]; it raises only when the
    storage layer fails. *)
Lemma update_last_login_effect (user_id' : Z) (st : db) :
  exists r st',
    update_last_login user_id' st = (r, st')
    /\ faults st' = tail (faults st)
    /\ match head (faults st) with
       | Some (Some msg) => r = Raise (OperationalError msg) /\ untouched st st'
       | _ =>
           r = Ret tt
           /\ users st' = map (touch (clock st) user_id') (users st)
           /\ users_seq st' = users_seq st
           /\ progress st' = progress st /\ progress_seq st' = progress_seq st
           /\ writes st' = S (writes st)
       end.
Proof.
  unfold update_last_login, update_user_last_login, take_statement. store_unfold.
  destruct (faults st) as [|[msg|] later] eqn:Hf; cbn; rewrite ?Hf;
    eexists _, _; (split; [reflexivity|]); cbn; rewrite ?Hf;
    (split; [reflexivity|]); untouched_solve.
Qed.

(** [add_progress_entry] always returns. *)
Lemma add_progress_entry_effect `{Sqlite} (user_id' : Z) (data : gmap string sql_value)
    (st : db) :
  exists (ok : bool) st',
    add_progress_entry user_id' data st = (Ret ok, st')
    /\ faults st' = tail (faults st)
    /\ (if ok
        then length (progress st') = S (length (progress st))
             /\ users st' = users st /\ writes st' = S (writes st)
        else untouched st st')
    /\ ((exists msg, head (faults st) = Some (Some msg))
        \/ default Null (data !! "date") = Null
        \/ fits_int64 user_id' = false ->
        ok = false).
Proof.
  unfold add_progress_entry, insert_progress, take_statement. store_unfold.
  destruct (faults st) as [|[msg|] later] eqn:Hf; cbn [tail head].
  2: { exists false. eexists. split; [reflexivity|]. split; [cbn; reflexivity|].
       split; [untouched_solve|]. reflexivity. }
  all: match goal with |- context [negb ?b] => destruct b eqn:Hb end; cbn [negb];
    [match goal with |- context [bound ?v] => destruct (bound v) eqn:Hd end|];
    eexists _, _; (split; [reflexivity|]); cbn [faults];
    (split; [first [exact Hf | reflexivity]|]); (split; [untouched_solve|]);
    try reflexivity;
    (intros [[? [=]]|[Hnull|Hbig]]; exfalso;
     [rewrite Hnull in Hd; discriminate Hd
     |rewrite Hbig in Hb; discriminate Hb]).
Qed.

Lemma read_propagates (p : user_row -> bool) (st : db) (msg : string) :
  head (faults st) = Some (Some msg) ->
  (select_user p st).1 = Raise (OperationalError msg).
Proof.
  intros Hf. destruct (select_user_effect p st) as (r & st' & -> & _ & _ & Hr).
  now rewrite Hf in Hr.
Qed.

(** C7 (amended). A storage-layer failure or constraint violation inside
    [add_progress_entry], and a user id that cannot be bound, is caught and
    returned as [False], with the tables left alone, and a constraint
    violation inside [create_user] is caught and returned as [None]: these
    two never raise it.  The reads ([get_user_by_username],
    [get_user_by_email], [get_user_by_id], [get_progress_history]) and
    [update_last_login] have no handler: a failure of the storage layer is
    raised to their caller. *)
Theorem store_failures_at_boundary `{Sqlite} :
  (forall user_id' data st,
      exists ok st',
        add_progress_entry user_id' data st = (Ret ok, st')
        /\ ((exists msg, head (faults st) = Some (Some msg))
            \/ default Null (data !! "date") = Null
            \/ fits_int64 user_id' = false ->
            ok = false)
        /\ (ok = false -> untouched st st'))
  /\ (forall username' email' password_hash' st,
        head (faults st) = None \/ head (faults st) = Some None ->
        (exists row, row ∈ users st /\ (username row = username' \/ email row = email')) ->
        exists st', create_user username' email' password_hash' st = (Ret None, st')
                    /\ untouched st st')
  /\ (forall st msg,
        head (faults st) = Some (Some msg) ->
        (forall u, (get_user_by_username u st).1 = Raise (OperationalError msg))
        /\ (forall e, (get_user_by_email e st).1 = Raise (OperationalError msg))
        /\ (forall i, (get_user_by_id i st).1 = Raise (OperationalError msg))
        /\ (forall i, (get_progress_history i st).1 = Raise (OperationalError msg))
        /\ (forall i, (update_last_login i st).1 = Raise (OperationalError msg))).
Proof.
  split; [|split].
  - intros user_id' data st.
    destruct (add_progress_entry_effect user_id' data st)
      as (ok & st' & Hrun & _ & Heff & Hok).
    exists ok, st'. split; [exact Hrun|]. split; [exact Hok|].
    intros ->. exact Heff.
  - intros username' email' password_hash' st Hhealthy Hdup.
    destruct (insert_user_duplicate username' email' password_hash' st Hhealthy Hdup)
      as (msg & st' & Hrun & Hun).
    exists st'. split; [|exact Hun].
    unfold create_user. store_unfold. now rewrite Hrun.
  - intros st msg Hf. repeat split; intros.
    + now apply read_propagates.
    + now apply read_propagates.
    + now apply read_propagates.
    + unfold get_progress_history, take_statement. store_unfold.
      destruct (faults st) as [|[m|] later]; cbn in Hf; try discriminate.
      now injection Hf as ->.
    + destruct (update_last_login_effect i st) as (r & st' & -> & _ & Hr).
      rewrite Hf in Hr. apply Hr.
Qed.

(** On the store of alice with a failing disk: a progress entry is refused
    with [False], and a second account for alice's email is refused with
    [None] once the disk answers again. *)
Lemma store_failures_at_boundary_witness :
  (exists st', add_progress_entry (H:=StoreWords.plain_sqlite) 1 ∅ Auth.failing_db
               = (Ret false, st'))
  /\ (exists st', create_user "bob" "alice@example.com" "$2b$12$x" Auth.alice_db
                  = (Ret None, st')).
Proof.
  destruct (store_failures_at_boundary (H:=StoreWords.plain_sqlite))
    as (Hadd & Hcreate & _). split.
  - destruct (Hadd 1 ∅ Auth.failing_db) as (ok & st' & Hrun & Hok & _).
    exists st'. rewrite Hrun. repeat f_equal. apply Hok. left. cbn. eauto.
  - destruct (Hcreate "bob" "alice@example.com" "$2b$12$x" Auth.alice_db)
      as (st' & Hrun & _).
    + left. reflexivity.
    + exists Auth.alice. split; [apply list_elem_of_here | right; reflexivity].
    + exists st'. exact Hrun.
Defined.

(** C7 as stated fails: with a failing disk, [get_user_by_username] does not
    return, it raises [sqlite3.OperationalError]. *)
Lemma read_failure_counterexample :
  ~ (exists found, (get_user_by_username "alice" Auth.failing_db).1 = Ret found).
Proof. intros (found & Hfound). vm_compute in Hfound. discriminate. Qed.

Example read_failure_raises :
  (get_user_by_username "alice" Auth.failing_db).1
  = Raise (OperationalError "disk I/O error").
Proof. reflexivity. Qed.

(** [create_user] only takes integrity errors. *)
Example create_user_failure_raises :
  (create_user "bob" "bob@example.com" "$2b$12$x" Auth.failing_db).1
  = Raise (OperationalError "disk I/O error").
Proof. reflexivity. Qed.

End StoreFacts.

(** ** Credential manager *)

Module AuthFacts.
Import Py Re ReFacts Store StoreFacts Auth.
Local Open Scope list_scope.

(** *** The validators *)

(** The username pattern takes the non-empty texts over letters, digits and
    underscores, with or without a final newline. *)
Lemma username_match (s : string) :
  match_anchored username_pattern s
  = match body s with [] => false | _ :: _ => forallb word_char (body s) end.
Proof.
  unfold match_anchored, username_pattern, body.
  rewrite matches_plus_class.
  destruct (before_final_newline (list_ascii_of_string s)) as [l'|] eqn:Hnl; cbn [default].
  - rewrite matches_plus_class.
    apply before_final_newline_app in Hnl. rewrite Hnl.
    replace (match l' ++ ["010"%char] with
             | [] => false
             | _ :: _ => forallb word_char (l' ++ ["010"%char])
             end) with false; [reflexivity|].
    destruct l'; cbn; [reflexivity|].
    rewrite forallb_app. cbn. now rewrite !andb_false_r.
  - apply orb_false_r.
Qed.

Lemma validate_username_rules (username : string) :
  (username = "" -> validate_username username = (false, "Username is required"))
  /\ (username <> "" -> (String.length username < 3)%nat ->
      validate_username username = (false, "Username must be at least 3 characters"))
  /\ ((20 < String.length username)%nat ->
      validate_username username = (false, "Username must be less than 20 characters"))
  /\ ((3 <= String.length username <= 20)%nat ->
      (exists c, c ∈ body username /\ word_char c = false) ->
      validate_username username
      = (false, "Username can only contain letters, numbers, and underscores"))
  /\ ((3 <= String.length username <= 20)%nat ->
      body username <> [] -> (forall c, c ∈ body username -> word_char c = true) ->
      validate_username username = (true, "")).
Proof.
  unfold validate_username.
  destruct (String.eqb_spec username "") as [->|Hne].
  - repeat split; try reflexivity; try tauto; cbn; lia.
  - destruct (Nat.ltb_spec (String.length username) 3) as [Hshort|Hlong].
    { repeat split; try reflexivity; try tauto; lia. }
    destruct (Nat.ltb_spec 20 (String.length username)) as [Hbig|Hsmall].
    { repeat split; try reflexivity; try tauto; lia. }
    rewrite username_match.
    repeat split; try tauto; try lia.
    + intros _ (c & Hc & Hbad).
      destruct (body username) as [|c0 l] eqn:Hb; [reflexivity|].
      replace (forallb word_char (c0 :: l)) with false; [reflexivity|].
      symmetry. apply not_true_is_false. intros Hall.
      rewrite forallb_forall in Hall. apply list_elem_of_In in Hc.
      specialize (Hall c Hc). congruence.
    + intros _ Hb Hall.
      destruct (body username) as [|c0 l] eqn:Hbody; [congruence|].
      replace (forallb word_char (c0 :: l)) with true; [reflexivity|].
      symmetry. apply forallb_forall. intros c Hc. apply Hall.
      now apply list_elem_of_In.
Qed.

Lemma validate_email_rules (email : string) :
  (email = "" -> validate_email email = (false, "Email is required"))
  /\ (email <> "" -> match_anchored email_pattern email = false ->
      validate_email email = (false, "Invalid email format"))
  /\ (email <> "" -> match_anchored email_pattern email = true ->
      validate_email email = (true, "")).
Proof.
  unfold validate_email. destruct (String.eqb_spec email "") as [->|Hne].
  - repeat split; try reflexivity; tauto.
  - repeat split; try tauto; intros _ ->; reflexivity.
Qed.

Lemma validate_password_rules (password : string) :
  (password = "" -> validate_password password = (false, "Password is required"))
  /\ (password <> "" -> (String.length password < 8)%nat ->
      validate_password password = (false, "Password must be at least 8 characters"))
  /\ ((8 <= String.length password)%nat -> search_class letter password = false ->
      validate_password password = (false, "Password must contain at least one letter"))
  /\ ((8 <= String.length password)%nat -> search_class letter password = true ->
      search_class digit password = false ->
      validate_password password = (false, "Password must contain at least one number"))
  /\ ((8 <= String.length password)%nat -> search_class letter password = true ->
      search_class digit password = true ->
      validate_password password = (true, "")).
Proof.
  unfold validate_password, MIN_PASSWORD_LENGTH.
  destruct (String.eqb_spec password "") as [->|Hne].
  - repeat split; try reflexivity; try tauto; cbn; lia.
  - destruct (Nat.ltb_spec (String.length password) 8) as [Hshort|Hlong].
    { repeat split; try reflexivity; try tauto; lia. }
    repeat split; try tauto; try lia.
    + intros _ ->. reflexivity.
    + intros _ -> ->. reflexivity.
    + intros _ -> ->. reflexivity.
Qed.

(** Every failure of the password rule is a failure of the validator. *)
Lemma validate_password_fails (password : string) :
  (String.length password < 8)%nat
  \/ search_class letter password = false
  \/ search_class digit password = false ->
  exists msg, validate_password password = (false, msg).
Proof.
  intros Hbad. unfold validate_password, MIN_PASSWORD_LENGTH.
  destruct (String.eqb password ""); [eauto|].
  destruct (Nat.ltb_spec (String.length password) 8); [eauto|].
  destruct (search_class letter password); [|eauto].
  destruct (search_class digit password); [|eauto].
  cbn. destruct Hbad as [?|[?|?]]; [lia | discriminate | discriminate].
Qed.

(** *** Registration *)

Section WithBcrypt.
Context `{Bcrypt}.

(** A failed validation answers at once, in the order username, email,
    password, and the store is not consulted. *)
Lemma register_user_short_circuit (username email password salt : string) (st : db) :
  (forall msg, validate_username username = (false, msg) ->
     register_user username email password salt st = (Ret (false, msg, None), st))
  /\ (forall msg, validate_username username = (true, "") ->
        validate_email email = (false, msg) ->
        register_user username email password salt st = (Ret (false, msg, None), st))
  /\ (forall msg, validate_username username = (true, "") ->
        validate_email email = (true, "") ->
        validate_password password = (false, msg) ->
        register_user username email password salt st = (Ret (false, msg, None), st)).
Proof.
  unfold register_user. repeat split; intros msg.
  - intros ->. reflexivity.
  - intros -> ->. reflexivity.
  - intros -> -> ->. reflexivity.
Qed.

(** What a registration does to the store. *)
Lemma register_user_effect (username' email' password salt : string) (st : db) :
  exists r st',
    register_user username' email' password salt st = (r, st')
    /\ match r with
       | Ret (true, _, user_id) =>
           writes st' = S (writes st)
           /\ (exists row, users st' = users st ++ [row]
                           /\ user_id = Some (id row)
                           /\ username row = username' /\ email row = email')
           /\ progress st' = progress st
       | Ret (false, _, _) => untouched st st'
       | Raise _ => untouched st st'
       end.
Proof.
  unfold register_user.
  destruct (validate_username username') as [[] m1];
    [|eexists _, _; split; [reflexivity | apply untouched_refl]].
  destruct (validate_email email') as [[] m2];
    [|eexists _, _; split; [reflexivity | apply untouched_refl]].
  destruct (validate_password password) as [[] m3];
    [|eexists _, _; split; [reflexivity | apply untouched_refl]].
  cbn [negb]. cbv iota. store_unfold. unfold get_user_by_username, get_user_by_email.
  match goal with |- context [select_user ?p st] =>
    destruct (select_user_effect p st) as (r1 & st1 & E1 & U1 & _ & _) end.
  rewrite E1. destruct r1 as [by_name|e1];
    [|eexists _, _; split; [reflexivity | exact U1]].
  destruct by_name as [row1|];
    [eexists _, _; split; [reflexivity | exact U1]|].
  cbn [bool_decide decide_rel is_Some_dec].
  match goal with |- context [select_user ?p st1] =>
    destruct (select_user_effect p st1) as (r2 & st2 & E2 & U2 & _ & _) end.
  rewrite E2. pose proof (untouched_trans _ _ _ U1 U2) as U12.
  destruct r2 as [by_email|e2];
    [|eexists _, _; split; [reflexivity | exact U12]].
  destruct by_email as [row2|];
    [eexists _, _; split; [reflexivity | exact U12]|].
  cbn [bool_decide decide_rel is_Some_dec].
  destruct (create_user_effect username' email' (hash_password password salt) st2)
    as (r3 & st3 & E3 & _ & Heff).
  rewrite E3. destruct r3 as [[rowid|]|e3].
  - destruct Heff as (Hnz & Husers & Hprog & _ & Hw).
    assert (Htruthy : truthy (Some rowid) = true).
    { cbn. apply negb_true_iff, Z.eqb_neq. exact Hnz. }
    rewrite Htruthy. eexists _, _. split; [reflexivity|].
    destruct U12 as (Hu & _ & Hp & _ & Hw12).
    split; [lia|]. split; [|congruence].
    eexists. split; [rewrite Husers, Hu; reflexivity|]. cbn. auto.
  - cbn [truthy]. eexists _, _. split; [reflexivity|].
    eapply untouched_trans; eauto.
  - eexists _, _. split; [reflexivity|].
    eapply untouched_trans; [exact U12 | apply Heff].
Qed.

(** *** Login *)

Lemma find_user_effect (username_or_email : string) (st : db) :
  exists r st',
    find_user username_or_email st = (r, st')
    /\ untouched st st'
    /\ (faults st = [] -> r = Ret (resolve st username_or_email) /\ faults st' = [])
    /\ (forall found, r = Ret found -> found = resolve st username_or_email)
    /\ clock st' = clock st.
Proof.
  unfold find_user, resolve, get_user_by_username, get_user_by_email,
    select_user, take_statement, record. store_unfold.
  destruct (faults st) as [|[msg|] later] eqn:Hf; cbn; rewrite ?Hf; cbn.
  - destruct (List.find _ (users st)) as [user|] eqn:Hfind; cbn; rewrite ?Hf; cbn;
      eexists _, _; (split; [reflexivity|]); (split; [untouched_solve|]);
      repeat split; auto; intros found [= <-]; reflexivity.
  - eexists _, _. split; [reflexivity|]. split; [untouched_solve|].
    repeat split; try discriminate.
  - destruct (List.find _ (users st)) as [user|] eqn:Hfind; cbn.
    + eexists _, _. split; [reflexivity|]. split; [untouched_solve|].
      repeat split; try discriminate. intros found [= <-]. reflexivity.
    + destruct later as [|[msg|] later']; cbn;
        eexists _, _; (split; [reflexivity|]); (split; [untouched_solve|]);
        repeat split; try discriminate; intros found [= <-]; reflexivity.
Qed.

(** What a login does to the store. *)
Lemma login_user_effect (username_or_email password : string) (st : db) :
  exists r st',
    login_user username_or_email password st = (r, st')
    /\ match r with
       | Ret (true, _, data) =>
           writes st' = S (writes st)
           /\ (exists user, resolve st username_or_email = Some user
                            /\ data = Some (strip_hash user)
                            /\ users st' = map (touch (clock st) (id user)) (users st))
           /\ progress st' = progress st
       | Ret (false, _, _) => untouched st st'
       | Raise _ => untouched st st'
       end.
Proof.
  unfold login_user.
  destruct (String.eqb username_or_email "" || String.eqb password "");
    [eexists _, _; split; [reflexivity | apply untouched_refl]|].
  store_unfold.
  destruct (find_user_effect username_or_email st)
    as (r1 & st1 & E1 & U1 & _ & Hfound & Hclock).
  rewrite E1. destruct r1 as [found|e1];
    [|eexists _, _; split; [reflexivity | exact U1]].
  specialize (Hfound found eq_refl).
  destruct found as [user|];
    [|eexists _, _; split; [reflexivity | exact U1]].
  destruct (verify_password password (password_hash user)); cbn [negb];
    [|eexists _, _; split; [reflexivity | exact U1]].
  destruct (truthy (is_active user)); cbn [negb];
    [|eexists _, _; split; [reflexivity | exact U1]].
  destruct (update_last_login_effect (id user) st1) as (r2 & st2 & E2 & _ & Heff).
  rewrite E2.
  destruct (head (faults st1)) as [[msg|]|].
  - destruct Heff as [-> Hun]. eexists _, _. split; [reflexivity|].
    eapply untouched_trans; eauto.
  - destruct Heff as (-> & Husers & _ & Hprog & _ & Hw).
    eexists _, _. split; [reflexivity|].
    destruct U1 as (Hu & _ & Hp & _ & Hw1).
    split; [lia|]. split; [|congruence].
    exists user. rewrite Husers, Hu, Hclock. auto.
  - destruct Heff as (-> & Husers & _ & Hprog & _ & Hw).
    eexists _, _. split; [reflexivity|].
    destruct U1 as (Hu & _ & Hp & _ & Hw1).
    split; [lia|]. split; [|congruence].
    exists user. rewrite Husers, Hu, Hclock. auto.
Qed.

(** With a working store, an unknown identifier and a wrong password get
    the same answer. *)
Lemma login_user_invalid (username_or_email password : string) (st : db) :
  username_or_email <> "" -> password <> "" -> faults st = [] ->
  resolve st username_or_email = None
  \/ (exists user, resolve st username_or_email = Some user
                   /\ verify_password password (password_hash user) = false) ->
  (login_user username_or_email password st).1
  = Ret (false, "Invalid credentials", None).
Proof.
  intros Hid Hpw Hf Hbad. unfold login_user.
  apply String.eqb_neq in Hid, Hpw. rewrite Hid, Hpw. cbn [orb].
  store_unfold.
  destruct (find_user_effect username_or_email st)
    as (r1 & st1 & E1 & _ & Hhealthy & _).
  destruct (Hhealthy Hf) as [-> _]. rewrite E1.
  destruct Hbad as [->|(user & -> & Hverify)]; [reflexivity|].
  rewrite Hverify. reflexivity.
Qed.

Lemma resolve_none (st : db) (username_or_email : string) :
  resolve st username_or_email = None
  <-> forall row, row ∈ users st ->
        username row <> username_or_email /\ email row <> username_or_email.
Proof.
  unfold resolve. split.
  - intros Hnone row Hrow. apply list_elem_of_In in Hrow.
    destruct (List.find _ (users st)) eqn:H1; [discriminate|].
    pose proof (find_none _ _ H1 row Hrow) as Hu.
    pose proof (find_none _ _ Hnone row Hrow) as He.
    cbn in Hu, He. apply String.eqb_neq in Hu, He. auto.
  - intros Hall.
    destruct (List.find (fun row => String.eqb (username row) username_or_email)
                (users st)) as [row|] eqn:H1.
    { apply find_some in H1 as [Hin Heq]. apply String.eqb_eq in Heq.
      apply list_elem_of_In in Hin. destruct (Hall row Hin). contradiction. }
    destruct (List.find (fun row => String.eqb (email row) username_or_email)
                (users st)) as [row|] eqn:H2; [|reflexivity].
    apply find_some in H2 as [Hin Heq]. apply String.eqb_eq in Heq.
    apply list_elem_of_In in Hin. destruct (Hall row Hin). contradiction.
Qed.

End WithBcrypt.

(** C5 (amended). [register_user] validates the username, then the email,
    then the password, and answers with the message of the first violated
    rule without consulting the store: an empty username gets "Username is
    required", a non-empty username of fewer than 3 characters "Username
    must be at least 3 characters", a username of more than 20 characters
    its length message, a username with a character other than a letter, a
    digit or an underscore before its final newline its character message;
    an email that is empty or does not match the pattern fails; a password
    that is empty, shorter than 8 characters, without a letter or without a
    digit fails.  Whenever one of the three validations fails, the answer is
    a failure and the store is left exactly as it was. *)
Theorem register_validation_order `{Bcrypt}
    (username email password salt : string) (st : db) :
  let outcome := register_user username email password salt st in
  let fails msg := outcome = (Ret (false, msg, None), st) in
  (username = "" -> fails "Username is required")
  /\ (username <> "" -> (String.length username < 3)%nat ->
      fails "Username must be at least 3 characters")
  /\ ((20 < String.length username)%nat ->
      fails "Username must be less than 20 characters")
  /\ ((3 <= String.length username <= 20)%nat ->
      (exists c, c ∈ body username /\ word_char c = false) ->
      fails "Username can only contain letters, numbers, and underscores")
  /\ (validate_username username = (true, "") ->
      (email = "" -> fails "Email is required")
      /\ (email <> "" -> match_anchored email_pattern email = false ->
          fails "Invalid email format"))
  /\ (validate_username username = (true, "") -> validate_email email = (true, "") ->
      (password = "" -> fails "Password is required")
      /\ (password <> "" -> (String.length password < 8)%nat ->
          fails "Password must be at least 8 characters")
      /\ ((8 <= String.length password)%nat -> search_class letter password = false ->
          fails "Password must contain at least one letter")
      /\ ((8 <= String.length password)%nat -> search_class letter password = true ->
          search_class digit password = false ->
          fails "Password must contain at least one number"))
  /\ ((String.length password < 8)%nat
      \/ search_class letter password = false
      \/ search_class digit password = false ->
      exists msg, fails msg)
  /\ ((exists msg, validate_username username = (false, msg))
      \/ (exists msg, validate_email email = (false, msg))
      \/ (exists msg, validate_password password = (false, msg)) ->
      exists msg, fails msg).
Proof.
  intros outcome fails. subst outcome fails. cbv beta.
  destruct (register_user_short_circuit username email password salt st)
    as (Hu & He & Hp).
  destruct (validate_username_rules username) as (U0 & U1 & U2 & U3 & _).
  destruct (validate_email_rules email) as (E0 & E1 & _).
  destruct (validate_password_rules password) as (P0 & P1 & P2 & P3 & _).
  assert (Hany : (exists msg, validate_username username = (false, msg))
      \/ (exists msg, validate_email email = (false, msg))
      \/ (exists msg, validate_password password = (false, msg)) ->
      exists msg, register_user username email password salt st
                  = (Ret (false, msg, None), st)).
  { intros Hbad.
    destruct (validate_username username) as [[] mu] eqn:Vu; [|eauto].
    assert (mu = "") as ->.
    { revert Vu. unfold validate_username.
      repeat match goal with |- context [if ?b then _ else _] => destruct b end;
        congruence. }
    destruct (validate_email email) as [[] me] eqn:Ve; [|eauto].
    assert (me = "") as ->.
    { revert Ve. unfold validate_email.
      repeat match goal with |- context [if ?b then _ else _] => destruct b end;
        congruence. }
    destruct (validate_password password) as [[] mp] eqn:Vp; [|eauto].
    destruct Hbad as [[? [=]]|[[? [=]]|[? [=]]]]. }
  repeat split; intros; auto.
  - apply Hany. right. right. now apply validate_password_fails.
Qed.

(** The spec's examples: the username [ab] and the password [short1]. *)
Lemma register_validation_order_witness :
  register_user (H:=plain_bcrypt) "ab" "ab@example.com" "passw0rd" "salt" empty_db
  = (Ret (false, "Username must be at least 3 characters", None), empty_db)
  /\ register_user (H:=plain_bcrypt) "abc" "ab@example.com" "short1" "salt" alice_db
     = (Ret (false, "Password must be at least 8 characters", None), alice_db).
Proof.
  split.
  - apply (register_validation_order (H:=plain_bcrypt)
             "ab" "ab@example.com" "passw0rd" "salt" empty_db).
    + discriminate.
    + cbn. lia.
  - apply (register_validation_order (H:=plain_bcrypt)
             "abc" "ab@example.com" "short1" "salt" alice_db).
    + reflexivity.
    + reflexivity.
    + discriminate.
    + cbn. lia.
Defined.

(** C5 as stated fails: the empty username is shorter than 3 characters and
    is answered with another message. *)
Lemma register_empty_username_counterexample :
  ~ ((String.length "" < 3)%nat ->
     (register_user (H:=plain_bcrypt) "" "ab@example.com" "passw0rd" "salt" empty_db).1
     = Ret (false, "Username must be at least 3 characters", None)).
Proof.
  intros Hclaim. specialize (Hclaim ltac:(cbn; lia)).
  vm_compute in Hclaim. discriminate.
Qed.

Example register_empty_username :
  register_user (H:=plain_bcrypt) "" "ab@example.com" "passw0rd" "salt" empty_db
  = (Ret (false, "Username is required", None), empty_db).
Proof. reflexivity. Qed.

(** A newline at the end of a username passes the pattern: the account is
    created under a name that holds a character outside the class. *)
Example register_trailing_newline :
  let username := String "a" (String "b" (String "c" (String "010" ""))) in
  word_char "010" = false
  /\ validate_username username = (true, "")
  /\ (register_user (H:=plain_bcrypt) username "ab@example.com" "passw0rd" "salt"
        empty_db).1
     = Ret (true, "Registration successful", Some 1).
Proof. repeat split; vm_compute; reflexivity. Qed.

Example validate_email_examples :
  validate_email "user.name+tag@example.co.in" = (true, "")
  /\ validate_email "user@example" = (false, "Invalid email format")
  /\ validate_email "user@@example.com" = (false, "Invalid email format")
  /\ validate_email "user@example.c" = (false, "Invalid email format")
  /\ validate_email "" = (false, "Email is required").
Proof. repeat split; vm_compute; reflexivity. Qed.

(** C1 (amended). With a store that answers the lookups, a login with a
    non-empty identifier that matches no stored username or email and a
    login with a non-empty password that does not verify against the hash
    of the stored user that the identifier designates both fail with the
    same answer, whose message is "Invalid credentials". *)
Theorem login_uniform_failure `{Bcrypt}
    (st1 st2 : db) (unknown known password1 password2 : string) (user : user_row) :
  unknown <> "" -> password1 <> "" -> faults st1 = [] ->
  (forall row, row ∈ users st1 -> username row <> unknown /\ email row <> unknown) ->
  known <> "" -> password2 <> "" -> faults st2 = [] ->
  resolve st2 known = Some user ->
  verify_password password2 (password_hash user) = false ->
  (login_user unknown password1 st1).1 = Ret (false, "Invalid credentials", None)
  /\ (login_user known password2 st2).1 = Ret (false, "Invalid credentials", None).
Proof.
  intros Hu Hp1 Hf1 Hnone Hk Hp2 Hf2 Hsome Hverify. split.
  - apply login_user_invalid; auto. left. now apply resolve_none.
  - apply login_user_invalid; auto. right. eauto.
Qed.

(** On the store of alice: the unknown identifier [bob] and a wrong
    password for [alice]. *)
Lemma login_uniform_failure_witness :
  (login_user (H:=plain_bcrypt) "bob" "wonderland1" alice_db).1
  = Ret (false, "Invalid credentials", None)
  /\ (login_user (H:=plain_bcrypt) "alice" "wonderland2" alice_db).1
     = Ret (false, "Invalid credentials", None).
Proof.
  apply (login_uniform_failure (H:=plain_bcrypt) alice_db alice_db
           "bob" "alice" "wonderland1" "wonderland2" alice).
  - discriminate.
  - discriminate.
  - reflexivity.
  - intros row Hrow. apply list_elem_of_singleton in Hrow as ->.
    split; discriminate.
  - discriminate.
  - discriminate.
  - reflexivity.
  - reflexivity.
  - vm_compute. reflexivity.
Defined.

(** C1 as stated fails: the empty password does not verify against the hash
    of alice, and the login is answered with another message. *)
Lemma login_empty_password_counterexample :
  ~ (resolve alice_db "alice" = Some alice ->
     verify_password (H:=plain_bcrypt) "" (password_hash alice) = false ->
     (login_user (H:=plain_bcrypt) "alice" "" alice_db).1
     = Ret (false, "Invalid credentials", None)).
Proof.
  intros Hclaim.
  specialize (Hclaim eq_refl ltac:(vm_compute; reflexivity)).
  vm_compute in Hclaim. discriminate.
Qed.

Example login_empty_password :
  login_user (H:=plain_bcrypt) "alice" "" alice_db
  = (Ret (false, "Username/email and password are required", None), alice_db).
Proof. reflexivity. Qed.

(** C8. A successful registration performs exactly one store write, the
    creation of the account, and a successful login exactly one, the
    last-login update.  A registration or a login that fails (validation
    failure, duplicate username or email, unknown identifier, wrong
    password, inactive account) performs no write and leaves the tables as
    they were; so does one that is interrupted by a storage failure. *)
Theorem auth_store_writes `{Bcrypt} (st : db) :
  (forall username' email' password salt,
      exists r st',
        register_user username' email' password salt st = (r, st')
        /\ match r with
           | Ret (true, _, user_id) =>
               writes st' = S (writes st)
               /\ (exists row, users st' = users st ++ [row]
                               /\ user_id = Some (id row)
                               /\ username row = username' /\ email row = email')
               /\ progress st' = progress st
           | Ret (false, _, _) => untouched st st'
           | Raise _ => untouched st st'
           end)
  /\ (forall username_or_email password,
        exists r st',
          login_user username_or_email password st = (r, st')
          /\ match r with
             | Ret (true, _, data) =>
                 writes st' = S (writes st)
                 /\ (exists user,
                        resolve st username_or_email = Some user
                        /\ data = Some (strip_hash user)
                        /\ users st' = map (touch (clock st) (id user)) (users st))
                 /\ progress st' = progress st
             | Ret (false, _, _) => untouched st st'
             | Raise _ => untouched st st'
             end).
Proof.
  split; intros.
  - apply register_user_effect.
  - apply login_user_effect.
Qed.

(** A registration, a second registration under the same name, and the
    logins of alice, with the statements that the store has carried out. *)
Example register_then_duplicate :
  let '(r1, st1) := register_user (H:=plain_bcrypt)
                      "bob_77" "bob@example.com" "passw0rd" "$2b$12$salt" alice_db in
  let '(r2, st2) := register_user (H:=plain_bcrypt)
                      "bob_77" "bob2@example.com" "passw0rd" "$2b$12$salt" st1 in
  r1 = Ret (true, "Registration successful", Some 2)
  /\ journal st1 = [Select "users"; Select "users"; Insert "users"]
  /\ r2 = Ret (false, "Username already exists", None)
  /\ users st2 = users st1 /\ writes st2 = writes st1.
Proof. vm_compute. repeat split; reflexivity. Qed.

Example login_success :
  let '(r, st') := login_user (H:=plain_bcrypt) "alice@example.com" "wonderland1" alice_db in
  r = Ret (true, "Login successful", Some (strip_hash alice))
  /\ journal st' = [Select "users"; Select "users"; Update "users"]
  /\ map last_login (users st') = [Some "2024-01-02 00:00:00"].
Proof. vm_compute. repeat split; reflexivity. Qed.

Example login_inactive :
  let disabled :=
    {| id := 1; username := "alice"; email := "alice@example.com";
       password_hash := password_hash alice; created_at := created_at alice;
       last_login := None; is_active := Some 0 |} in
  let st := {| users := [disabled]; users_seq := 1; progress := []; progress_seq := 0;
               clock := "2024-01-02 00:00:00"; journal := []; faults := [] |} in
  (login_user (H:=plain_bcrypt) "alice" "wonderland1" st).1
  = Ret (false, "Account is disabled", None)
  /\ writes (login_user (H:=plain_bcrypt) "alice" "wonderland1" st).2 = 0%nat.
Proof. vm_compute. split; reflexivity. Qed.

End AuthFacts.

(** ** Chat coach *)

Module CoachFacts.
Import Py Coach.

Section WithGenai.
Context {model_t chat_t : Type} `{Genai model_t chat_t}.

Lemma init_without_key : model (init "") = None.
Proof. reflexivity. Qed.

(** After [__init__] there is a model exactly when there is a session. *)
Lemma init_model_chat (key : string) :
  (model (init key) = None /\ chat (init key) = None)
  \/ (exists m c, model (init key) = Some m /\ chat (init key) = Some c).
Proof.
  unfold init, _initialize_model. cbn [api_key model chat].
  destruct (negb (String.eqb key "")); [|auto].
  destruct (configure key); [|auto].
  destruct (GenerativeModel "gemini-1.5-flash") as [m|]; [|auto].
  destruct (start_chat m) as [c|]; [|auto].
  right. eauto.
Qed.

(** C9. [get_response] always returns a text.  Without a configured model,
    in particular when no API key is set, it returns the fixed
    configuration message and sends nothing to the external service.  When
    the remote call raises, it returns the fixed error text followed by the
    text of the exception. *)
Theorem get_response_never_raises
    (self : AICoach model_t chat_t) (user_message : string)
    (user_context : option (gmap string string)) :
  (exists text, (get_response self user_message user_context).1.1 = Ret text)
  /\ (model self = None ->
      get_response self user_message user_context = (Ret not_configured, self, []))
  /\ get_response (init "") user_message user_context
     = (Ret not_configured, init "", [])
  /\ (forall m session e,
        model self = Some m -> chat self = Some session ->
        send_message session (full_prompt user_message user_context) = Raise e ->
        (get_response self user_message user_context).1.1
        = Ret ("❌ Error getting response: " ++ exn_str e)).
Proof.
  repeat split.
  - unfold get_response.
    destruct (model self); [|eauto].
    destruct (chat self) as [session|]; cbn; [|eauto].
    destruct (send_message session _) as [[text session']|e]; cbn; eauto.
  - unfold get_response. now intros ->.
  - intros m session e Hm Hc Hsend. unfold get_response.
    rewrite Hm, Hc. cbn. now rewrite Hsend.
Qed.

End WithGenai.

(** With a service that fails on every message. *)
Lemma get_response_never_raises_witness :
  (get_response (H:=failing_service) (init (H:=failing_service) "some-key") "Hello" None).1.1
  = Ret "❌ Error getting response: 429 quota exceeded".
Proof.
  destruct (get_response_never_raises (H:=failing_service)
              (init (H:=failing_service) "some-key") "Hello" None)
    as (_ & _ & _ & Herror).
  apply (Herror tt tt (RemoteError "429 quota exceeded")); reflexivity.
Defined.

Example coach_without_key :
  get_response (H:=failing_service) (init (H:=failing_service) "") "Hello" None
  = (Ret not_configured, init (H:=failing_service) "", []).
Proof. reflexivity. Qed.

Example coach_with_refused_key :
  get_response (H:=failing_service) (init (H:=failing_service) "bad-key") "Hello" None
  = (Ret not_configured, init (H:=failing_service) "bad-key", []).
Proof. reflexivity. Qed.

End CoachFacts.

(** ** More on the store: constraints and round trips *)

Module StoreMore.
Import Py Store StoreFacts StoreWords.
Local Open Scope list_scope.

Lemma next_rowid_above (seq : N) (rowids : list Z) (i : Z) :
  i ∈ rowids -> i < next_rowid seq rowids.
Proof.
  unfold next_rowid. intros Hi.
  assert (i <= fold_right Z.max 0 rowids); [|lia].
  induction Hi as [i l|i j l Hi IH]; cbn; lia.
Qed.

Lemma existsb_false_forall {A} (p : A -> bool) (l : list A) :
  existsb p l = false -> forall x, x ∈ l -> p x = false.
Proof.
  intros Hex x Hx. apply not_true_is_false. intros Hp.
  apply list_elem_of_In in Hx.
  assert (existsb p l = true) by (apply existsb_exists; eauto). congruence.
Qed.

(** What a successful insertion into [users] has checked and done. *)
Lemma insert_user_inv (username' email' password_hash' : string) (st st' : db) (rowid : Z) :
  insert_user username' email' password_hash' st = (Ret rowid, st') ->
  (forall row, row ∈ users st -> username row <> username' /\ email row <> email')
  /\ rowid = next_rowid (users_seq st) (map id (users st))
  /\ users st' = users st ++ [new_user rowid username' email' password_hash' (clock st)]
  /\ progress st' = progress st /\ progress_seq st' = progress_seq st
  /\ clock st' = clock st /\ faults st' = tail (faults st).
Proof.
  unfold insert_user, take_statement. store_unfold.
  destruct (faults st) as [|[msg|] later] eqn:Hf; cbn; rewrite ?Hf; try discriminate.
  all: match goal with |- context [existsb ?p ?l] =>
         destruct (existsb p l) eqn:Hu; [discriminate|] end;
    match goal with |- context [existsb ?p ?l] =>
      destruct (existsb p l) eqn:He; [discriminate|] end;
    intros Heq; injection Heq as Hr Hs; subst rowid st'; cbn; rewrite ?Hf;
    (split; [|repeat split; reflexivity]);
    intros row Hrow;
    pose proof (existsb_false_forall _ _ Hu row Hrow) as H1;
    pose proof (existsb_false_forall _ _ He row Hrow) as H2;
    cbn in H1, H2; apply String.eqb_neq in H1, H2; auto.
Qed.

Lemma create_user_inv (username' email' password_hash' : string) (st st' : db) (rowid : Z) :
  create_user username' email' password_hash' st = (Ret (Some rowid), st') ->
  insert_user username' email' password_hash' st = (Ret rowid, st').
Proof.
  unfold create_user. store_unfold.
  destruct (insert_user username' email' password_hash' st) as [[r|e] st1].
  - now intros [= -> ->].
  - destruct e; intros [=].
Qed.

(** What a successful insertion into [progress] has done. *)
Lemma add_progress_entry_inv `{Sqlite} (user_id' : Z) (data : gmap string sql_value)
    (st st' : db) :
  add_progress_entry user_id' data st = (Ret true, st') ->
  progress st' = progress st ++
     [new_progress (next_rowid (progress_seq st) (map progress_id (progress st)))
        user_id' data (clock st)]
  /\ users st' = users st /\ users_seq st' = users_seq st
  /\ clock st' = clock st /\ faults st' = tail (faults st)
  /\ fits_int64 user_id' = true
  /\ bound (default Null (data !! "date")) <> Null.
Proof.
  unfold add_progress_entry, insert_progress, take_statement. store_unfold.
  destruct (faults st) as [|[msg|] later] eqn:Hf; cbn [tail]; try discriminate.
  all: match goal with |- context [negb ?b] => destruct b eqn:Hb end; cbn [negb];
    try discriminate;
    apply andb_true_iff in Hb as [Hfit _];
    unfold new_progress;
    destruct (bound (default Null (data !! "date"))) eqn:Hd; try discriminate;
    intros Heq; injection Heq as Hs; subst st';
    cbn [progress users users_seq clock faults];
    repeat split; try reflexivity; try assumption; try discriminate.
Qed.

Lemma consistent_untouched (st st' : db) :
  untouched st st' -> consistent st -> consistent st'.
Proof.
  unfold untouched, consistent. intros (Hu & _ & Hp & _) H. now rewrite Hu, Hp.
Qed.

Lemma NoDup_snoc {A} (l : list A) (x : A) : NoDup l -> x ∉ l -> NoDup (l ++ [x]).
Proof.
  intros Hl Hx. apply NoDup_app. split; [exact Hl|]. split.
  - intros y Hy Hy'. apply list_elem_of_singleton in Hy' as ->. contradiction.
  - apply NoDup_singleton.
Qed.

Lemma map_touch {A} (f : user_row -> A) (now : string) (user_id' : Z) (l : list user_row) :
  (forall row, f (touch now user_id' row) = f row) ->
  map f (map (touch now user_id') l) = map f l.
Proof. intros Hf. rewrite map_map. apply map_ext. exact Hf. Qed.

Lemma touch_keeps (now : string) (user_id' : Z) (row : user_row) :
  id (touch now user_id' row) = id row
  /\ username (touch now user_id' row) = username row
  /\ email (touch now user_id' row) = email row
  /\ password_hash (touch now user_id' row) = password_hash row
  /\ is_active (touch now user_id' row) = is_active row
  /\ created_at (touch now user_id' row) = created_at row.
Proof. unfold touch. destruct (id row =? user_id'); repeat split; reflexivity. Qed.

Lemma consistent_insert_user (username' email' password_hash' : string) (st st' : db) (rowid : Z) :
  insert_user username' email' password_hash' st = (Ret rowid, st') ->
  consistent st -> consistent st'.
Proof.
  intros Hrun (Hn & He & Hi & Hp).
  apply insert_user_inv in Hrun as (Hfresh & -> & Husers & Hprog & _).
  unfold consistent. rewrite Husers, Hprog, !map_app. cbn.
  repeat split; try assumption; apply NoDup_snoc; try assumption.
  - intros Hin. apply list_elem_of_fmap in Hin as (row & Heq & Hrow).
    destruct (Hfresh row Hrow). congruence.
  - intros Hin. apply list_elem_of_fmap in Hin as (row & Heq & Hrow).
    destruct (Hfresh row Hrow). congruence.
  - intros Hin. apply next_rowid_above with (seq := users_seq st) in Hin. lia.
Qed.

Lemma consistent_create_user (username' email' password_hash' : string) (st : db) :
  consistent st -> consistent (create_user username' email' password_hash' st).2.
Proof.
  intros Hc.
  destruct (create_user_effect username' email' password_hash' st)
    as (r & st' & Hrun & _ & Heff).
  rewrite Hrun. cbn. destruct r as [[rowid|]|e].
  - apply create_user_inv in Hrun. eapply consistent_insert_user; eauto.
  - eapply consistent_untouched; eauto.
  - eapply consistent_untouched; [apply Heff | exact Hc].
Qed.

Lemma consistent_touch (st st' : db) (now : string) (user_id' : Z) :
  users st' = map (touch now user_id') (users st) -> progress st' = progress st ->
  consistent st -> consistent st'.
Proof.
  unfold consistent. intros -> ->.
  rewrite !map_touch; [tauto | | |]; intros row; apply touch_keeps.
Qed.

Lemma consistent_update_last_login (user_id' : Z) (st : db) :
  consistent st -> consistent (update_last_login user_id' st).2.
Proof.
  intros Hc.
  destruct (update_last_login_effect user_id' st) as (r & st' & Hrun & _ & Heff).
  rewrite Hrun. cbn.
  destruct (head (faults st)) as [[msg|]|].
  - eapply consistent_untouched; [apply Heff | exact Hc].
  - destruct Heff as (_ & Hu & _ & Hp & _). eapply consistent_touch; eauto.
  - destruct Heff as (_ & Hu & _ & Hp & _). eapply consistent_touch; eauto.
Qed.

Lemma consistent_add_progress_entry `{Sqlite} (user_id' : Z)
    (data : gmap string sql_value) (st : db) :
  consistent st -> consistent (add_progress_entry user_id' data st).2.
Proof.
  intros Hc.
  destruct (add_progress_entry_effect user_id' data st) as (ok & st' & Hrun & _ & Heff & _).
  rewrite Hrun. cbn. destruct ok.
  - apply add_progress_entry_inv in Hrun as (Hp & Hu & _).
    destruct Hc as (Hn & He & Hi & Hpi).
    unfold consistent. rewrite Hp, Hu, map_app. cbn.
    repeat split; try assumption. apply NoDup_snoc; [assumption|].
    intros Hin. apply next_rowid_above with (seq := progress_seq st) in Hin. lia.
  - eapply consistent_untouched; eauto.
Qed.

Lemma find_snoc {A} (p : A -> bool) (l : list A) (x : A) :
  (forall y, y ∈ l -> p y = false) -> p x = true -> List.find p (l ++ [x]) = Some x.
Proof.
  intros Hl Hx. induction l as [|y l IH]; cbn.
  - now rewrite Hx.
  - rewrite (Hl y) by apply list_elem_of_here.
    apply IH. intros z Hz. apply Hl. now apply list_elem_of_further.
Qed.

Lemma select_user_healthy (p : user_row -> bool) (st : db) :
  faults st = [] -> (select_user p st).1 = Ret (List.find p (users st)).
Proof.
  intros Hf. destruct (select_user_effect p st) as (r & st' & -> & _ & _ & Hr).
  now rewrite Hf in Hr.
Qed.

(** Round trip of an account: after [create_user] has returned a rowid, the
    three lookups (by username, by email, by rowid) return the row that was
    stored, as long as the storage layer answers. *)
Theorem create_user_then_lookup
    (username' email' password_hash' : string) (st st' : db) (rowid : Z) :
  create_user username' email' password_hash' st = (Ret (Some rowid), st') ->
  faults st' = [] ->
  let row := new_user rowid username' email' password_hash' (clock st) in
  (get_user_by_username username' st').1 = Ret (Some row)
  /\ (get_user_by_email email' st').1 = Ret (Some row)
  /\ (get_user_by_id rowid st').1 = Ret (Some row).
Proof.
  intros Hrun Hf row.
  apply create_user_inv, insert_user_inv in Hrun
    as (Hfresh & Hrowid & Husers & _).
  unfold get_user_by_username, get_user_by_email, get_user_by_id.
  rewrite !select_user_healthy by exact Hf. rewrite Husers. fold row.
  repeat split; f_equal; apply find_snoc; cbn;
    try apply String.eqb_refl; try apply Z.eqb_refl.
  - intros y Hy. apply String.eqb_neq. now apply Hfresh.
  - intros y Hy. apply String.eqb_neq. now apply Hfresh.
  - intros y Hy. apply Z.eqb_neq.
    assert (id y < rowid); [|lia]. rewrite Hrowid.
    apply next_rowid_above, list_elem_of_fmap. eauto.
Qed.

Lemma create_user_then_lookup_witness :
  (get_user_by_username "bob"
     (create_user "bob" "bob@example.com" "$2b$12$x" Auth.alice_db).2).1
  = Ret (Some (new_user 2 "bob" "bob@example.com" "$2b$12$x" "2024-01-02 00:00:00")).
Proof.
  eapply (create_user_then_lookup "bob" "bob@example.com" "$2b$12$x" Auth.alice_db);
    reflexivity.
Defined.







End StoreMore.

(** ** More on the credential manager *)

Module AuthMore.
Import Py Re ReFacts Store StoreFacts StoreWords StoreMore Auth AuthFacts.
Local Open Scope list_scope.

(** A read leaves the clock alone and uses up one answer of the engine. *)
Lemma select_user_run (p : user_row -> bool) (st : db) :
  exists r st',
    select_user p st = (r, st')
    /\ untouched st st' /\ clock st' = clock st /\ faults st' = tail (faults st)
    /\ ((exists msg, r = Raise (OperationalError msg)) \/ r = Ret (List.find p (users st))).
Proof.
  unfold select_user, take_statement, record. store_unfold.
  destruct (faults st) as [|[msg|] later] eqn:Hf; cbn; rewrite ?Hf;
    eexists _, _; (split; [reflexivity|]); cbn; rewrite ?Hf;
    (split; [untouched_solve|]); eauto.
Qed.

Lemma validate_username_true (username : string) (msg : string) :
  validate_username username = (true, msg) -> msg = "" /\ username <> "".
Proof.
  unfold validate_username. destruct (String.eqb_spec username ""); [discriminate|].
  repeat match goal with |- context [if ?b then _ else _] => destruct b end;
    intros [= <-]; auto.
Qed.

Lemma validate_email_true (email : string) (msg : string) :
  validate_email email = (true, msg) -> msg = "".
Proof.
  unfold validate_email.
  repeat match goal with |- context [if ?b then _ else _] => destruct b end;
    intros [= <-]; auto.
Qed.

Lemma validate_password_true (password : string) (msg : string) :
  validate_password password = (true, msg) -> msg = "" /\ password <> "".
Proof.
  unfold validate_password. destruct (String.eqb_spec password ""); [discriminate|].
  repeat match goal with |- context [if ?b then _ else _] => destruct b end;
    intros [= <-]; auto.
Qed.

Lemma find_none_iff {A} (p : A -> bool) (l : list A) :
  List.find p l = None <-> forall x, x ∈ l -> p x = false.
Proof.
  split.
  - intros Hnone x Hx. apply list_elem_of_In in Hx. eapply find_none; eauto.
  - intros Hall. destruct (List.find p l) as [x|] eqn:Hfind; [|reflexivity].
    apply find_some in Hfind as [Hin Hp]. apply list_elem_of_In in Hin.
    rewrite (Hall x Hin) in Hp. discriminate.
Qed.

Lemma find_some_exists {A} (p : A -> bool) (l : list A) :
  (exists x, x ∈ l /\ p x = true) -> exists y, List.find p l = Some y /\ p y = true.
Proof.
  intros (x & Hx & Hp). destruct (List.find p l) as [y|] eqn:Hfind.
  - exists y. split; [reflexivity|]. now apply find_some in Hfind.
  - rewrite find_none_iff in Hfind. rewrite (Hfind x Hx) in Hp. discriminate.
Qed.



Section WithBcrypt.
Context `{Bcrypt}.

(** A registration on valid inputs, step by step. *)
Lemma register_user_valid (username' email' password salt : string) (st : db) :
  validate_username username' = (true, "") ->
  validate_email email' = (true, "") ->
  validate_password password = (true, "") ->
  register_user username' email' password salt st
  = (by_name ← get_user_by_username username';
     if bool_decide (is_Some by_name) then ret (false, "Username already exists", None) else
     by_email ← get_user_by_email email';
     if bool_decide (is_Some by_email) then ret (false, "Email already registered", None) else
     user_id ← create_user username' email' (hash_password password salt);
     if truthy user_id
     then ret (true, "Registration successful", user_id)
     else ret (false, "Registration failed. Please try again.", None)) st.
Proof. intros Hu He Hp. unfold register_user. rewrite Hu, He, Hp. reflexivity. Qed.

(** What a successful registration has checked and done. *)
Lemma register_user_inv (username' email' password salt msg : string)
    (user_id : option Z) (st st' : db) :
  register_user username' email' password salt st = (Ret (true, msg, user_id), st') ->
  validate_username username' = (true, "")
  /\ validate_email email' = (true, "")
  /\ validate_password password = (true, "")
  /\ msg = "Registration successful"
  /\ exists st2 rowid,
       untouched st st2 /\ clock st2 = clock st
       /\ faults st2 = tail (tail (faults st))
       /\ user_id = Some rowid
       /\ insert_user username' email' (hash_password password salt) st2 = (Ret rowid, st').
Proof.
  intros Hrun.
  destruct (validate_username username') as [[] m1] eqn:Vu;
    [|unfold register_user in Hrun; rewrite Vu in Hrun; discriminate].
  destruct (validate_email email') as [[] m2] eqn:Ve;
    [|unfold register_user in Hrun; rewrite Vu, Ve in Hrun; discriminate].
  destruct (validate_password password) as [[] m3] eqn:Vp;
    [|unfold register_user in Hrun; rewrite Vu, Ve, Vp in Hrun; discriminate].
  pose proof (validate_username_true _ _ Vu) as [-> _].
  pose proof (validate_email_true _ _ Ve) as ->.
  pose proof (validate_password_true _ _ Vp) as [-> _].
  rewrite register_user_valid in Hrun by assumption.
  revert Hrun. store_unfold. unfold get_user_by_username, get_user_by_email.
  match goal with |- context [select_user ?p st] =>
    destruct (select_user_run p st) as (r1 & st1 & E1 & U1 & C1 & F1 & _) end.
  rewrite E1. destruct r1 as [[row1|]|e1]; try discriminate.
  cbn [bool_decide decide_rel is_Some_dec].
  match goal with |- context [select_user ?p st1] =>
    destruct (select_user_run p st1) as (r2 & st2 & E2 & U2 & C2 & F2 & _) end.
  rewrite E2. destruct r2 as [[row2|]|e2]; try discriminate.
  cbn [bool_decide decide_rel is_Some_dec].
  destruct (create_user username' email' (hash_password password salt) st2)
    as [[[rowid|]|e3] st3] eqn:E3; try discriminate.
  destruct (truthy (Some rowid)); [|discriminate].
  intros [= <- <- <-].
  repeat split; try reflexivity.
  exists st2, rowid. split; [eapply untouched_trans; eauto|].
  split; [congruence|]. split; [rewrite F2, F1; reflexivity|].
  split; [reflexivity|]. now apply create_user_inv.
Qed.

End WithBcrypt.

(** The constraints of the schema are kept: when usernames, emails and
    rowids are pairwise distinct before a call of [register_user],
    [login_user], [create_user], [update_last_login] or
    [add_progress_entry], they are so after it, whatever the call returns
    or raises. *)
Theorem constraints_preserved `{Bcrypt} `{Sqlite} (st : db) :
  consistent st ->
  (forall username' email' password salt,
      consistent (register_user username' email' password salt st).2)
  /\ (forall username_or_email password,
        consistent (login_user username_or_email password st).2)
  /\ (forall username' email' password_hash',
        consistent (create_user username' email' password_hash' st).2)
  /\ (forall user_id', consistent (update_last_login user_id' st).2)
  /\ (forall user_id' data, consistent (add_progress_entry user_id' data st).2).
Proof.
  intros Hc. split; [|split; [|split; [|split]]]; intros.
  - destruct (register_user_effect username' email' password salt st)
      as (r & st' & Hrun & Heff).
    rewrite Hrun. cbn. destruct r as [[[[] msg] uid]|e];
      try (eapply consistent_untouched; eauto; fail).
    apply register_user_inv in Hrun
      as (_ & _ & _ & _ & st2 & rowid & U & _ & _ & _ & Hins).
    eapply consistent_insert_user; [exact Hins|].
    eapply consistent_untouched; eauto.
  - destruct (login_user_effect username_or_email password st)
      as (r & st' & Hrun & Heff).
    rewrite Hrun. cbn. destruct r as [[[[] msg] data]|e];
      try (eapply consistent_untouched; eauto; fail).
    destruct Heff as (_ & (user & _ & _ & Hu) & Hp).
    eapply consistent_touch; eauto.
  - now apply consistent_create_user.
  - now apply consistent_update_last_login.
  - now apply consistent_add_progress_entry.
Qed.

Lemma consistent_alice : consistent alice_db.
Proof.
  unfold consistent. cbn. repeat split; try apply NoDup_singleton. apply NoDup_nil_2.
Qed.

Lemma constraints_preserved_witness :
  consistent
    (register_user (H:=plain_bcrypt) "bob_77" "bob@example.com" "passw0rd" "salt" alice_db).2.
Proof.
  apply (constraints_preserved (H:=plain_bcrypt) (H0:=plain_sqlite) alice_db
           consistent_alice).
Defined.

Section WithBcrypt.
Context `{Bcrypt}.


(** The answer of a login on a store that answers. *)
Lemma login_user_ok (username_or_email password : string) (st : db) :
  username_or_email <> "" -> password <> "" -> faults st = [] ->
  exists st',
    login_user username_or_email password st
    = (match resolve st username_or_email with
       | None => Ret (false, "Invalid credentials", None)
       | Some user =>
           if negb (verify_password password (password_hash user))
           then Ret (false, "Invalid credentials", None)
           else if negb (truthy (is_active user))
           then Ret (false, "Account is disabled", None)
           else Ret (true, "Login successful", Some (strip_hash user))
       end, st')
    /\ faults st' = [] /\ clock st' = clock st.
Proof.
  intros Hid Hpw Hf. unfold login_user.
  apply String.eqb_neq in Hid, Hpw. rewrite Hid, Hpw. cbn [orb].
  store_unfold.
  destruct (find_user_effect username_or_email st)
    as (r1 & st1 & E1 & _ & Hhealthy & _ & C1).
  destruct (Hhealthy Hf) as [-> F1]. rewrite E1.
  destruct (resolve st username_or_email) as [user|]; [|eauto].
  destruct (verify_password password (password_hash user)); cbn [negb]; [|eauto].
  destruct (truthy (is_active user)); cbn [negb]; [|eauto].
  destruct (update_last_login_effect (id user) st1) as (r2 & st2 & E2 & F2 & Heff).
  rewrite E2. rewrite F1 in Heff, F2. cbn in Heff, F2.
  destruct Heff as (-> & _). exists st2. split; [reflexivity|]. split; [exact F2|].
  revert E2. unfold update_last_login, update_user_last_login, take_statement.
  store_unfold. rewrite F1. intros [= <-]. cbn. exact C1.
Qed.

End WithBcrypt.



(** On a store that answers, a login with a non-empty identifier and a
    non-empty password succeeds exactly when the identifier designates a
    stored user (by username, else by email) whose hash verifies the
    password and whose account is active; the data returned is then the row
    of that user without its hash. *)
Theorem login_success_iff `{Bcrypt}
    (username_or_email password : string) (st : db) (data : user_data) :
  username_or_email <> "" -> password <> "" -> faults st = [] ->
  (login_user username_or_email password st).1
    = Ret (true, "Login successful", Some data)
  <-> exists user,
        resolve st username_or_email = Some user
        /\ verify_password password (password_hash user) = true
        /\ truthy (is_active user) = true
        /\ data = strip_hash user.
Proof.
  intros Hid Hpw Hf.
  destruct (login_user_ok username_or_email password st Hid Hpw Hf) as (st' & -> & _).
  cbn [fst]. split.
  - destruct (resolve st username_or_email) as [user|]; [|discriminate].
    destruct (verify_password password (password_hash user)) eqn:Hv; [|discriminate].
    destruct (truthy (is_active user)) eqn:Ha; [|discriminate].
    cbn. intros [= <-]. exists user. auto.
  - intros (user & -> & -> & -> & ->). reflexivity.
Qed.

Lemma login_success_iff_witness :
  (login_user (H:=plain_bcrypt) "alice@example.com" "wonderland1" alice_db).1
  = Ret (true, "Login successful", Some (strip_hash alice)).
Proof.
  apply (login_success_iff (H:=plain_bcrypt)); try discriminate; try reflexivity.
  exists alice. repeat split; vm_compute; reflexivity.
Defined.

(** Round trip of the credentials: after a successful registration, a login
    with the same username and password succeeds on a store that answers,
    provided that [bcrypt] verifies the password against the hash it has
    produced for it; the data returned is that of the new account, which
    has never logged in. *)
Theorem register_then_login `{Bcrypt}
    (username' email' password salt msg : string) (user_id : option Z) (st st1 : db) :
  register_user username' email' password salt st = (Ret (true, msg, user_id), st1) ->
  checkpw password (hashpw password salt) = Ret true ->
  faults st1 = [] ->
  exists rowid st2,
    user_id = Some rowid
    /\ login_user username' password st1
       = (Ret (true, "Login successful",
               Some {| data_id := rowid; data_username := username';
                       data_email := email'; data_created_at := clock st;
                       data_last_login := None; data_is_active := Some 1 |}), st2).
Proof.
  intros Hreg Hcheck Hf.
  apply register_user_inv in Hreg
    as (Vu & _ & Vp & _ & st0 & rowid & U & C & _ & -> & Hins).
  apply validate_username_true in Vu as [_ Hu].
  apply validate_password_true in Vp as [_ Hp].
  apply insert_user_inv in Hins as (Hfresh & _ & Husers & _ & _ & Hclock & _).
  destruct (login_user_ok username' password st1 Hu Hp Hf) as (st2 & Hlogin & _).
  exists rowid, st2. split; [reflexivity|]. rewrite Hlogin. f_equal.
  assert (Hres : resolve st1 username'
                 = Some (new_user rowid username' email'
                           (hash_password password salt) (clock st0))).
  { unfold resolve. rewrite Husers.
    rewrite (find_snoc _ _ (new_user rowid username' email'
                              (hash_password password salt) (clock st0))).
    - reflexivity.
    - intros y Hy. apply String.eqb_neq. now apply Hfresh.
    - apply String.eqb_refl. }
  rewrite Hres. cbn [password_hash new_user is_active].
  unfold verify_password, hash_password. rewrite Hcheck. cbn.
  unfold strip_hash. cbn. now rewrite C.
Qed.

Lemma register_then_login_witness :
  let st1 := (register_user (H:=plain_bcrypt) "bob_77" "bob@example.com" "passw0rd"
                "$2b$12$salt" alice_db).2 in
  exists data, (login_user (H:=plain_bcrypt) "bob_77" "passw0rd" st1).1
               = Ret (true, "Login successful", Some data)
               /\ data_id data = 2.
Proof.
  intros st1.
  destruct (register_then_login (H:=plain_bcrypt) "bob_77" "bob@example.com" "passw0rd"
              "$2b$12$salt" "Registration successful" (Some 2) alice_db st1)
    as (rowid & st2 & Hid & Hlogin).
  - reflexivity.
  - reflexivity.
  - reflexivity.
  - injection Hid as <-. eexists. rewrite Hlogin. split; reflexivity.
Defined.

Lemma find_map_touch (p : user_row -> bool) (now : string) (user_id' : Z)
    (l : list user_row) :
  (forall row, p (touch now user_id' row) = p row) ->
  List.find p (map (touch now user_id') l)
  = option_map (touch now user_id') (List.find p l).
Proof.
  intros Hp. induction l as [|row l IH]; [reflexivity|].
  cbn. rewrite Hp. destruct (p row); [reflexivity | exact IH].
Qed.

Lemma resolve_touch (st st' : db) (now : string) (user_id' : Z) (ident : string) :
  users st' = map (touch now user_id') (users st) ->
  resolve st' ident = option_map (touch now user_id') (resolve st ident).
Proof.
  intros Hu. unfold resolve. rewrite Hu.
  rewrite !find_map_touch.
  - destruct (List.find _ (users st)); reflexivity.
  - intros row. now destruct (touch_keeps now user_id' row) as (_ & _ & -> & _).
  - intros row. now destruct (touch_keeps now user_id' row) as (_ & -> & _).
Qed.

(** The data returned by a successful login carries the last login that was
    stored before the call, while the stored row now carries the time of
    the call; the credentials are not touched, so that the same login
    succeeds again on a store that answers, and then returns the time of
    the first call. *)
Theorem login_twice `{Bcrypt}
    (username_or_email password msg : string) (data : user_data) (st st1 : db) :
  login_user username_or_email password st = (Ret (true, msg, Some data), st1) ->
  exists user,
    resolve st username_or_email = Some user
    /\ data = strip_hash user
    /\ data_last_login data = last_login user
    /\ resolve st1 username_or_email = Some (touch (clock st) (id user) user)
    /\ last_login (touch (clock st) (id user) user) = Some (clock st)
    /\ (faults st1 = [] ->
        exists st2,
          login_user username_or_email password st1
          = (Ret (true, "Login successful",
                  Some (strip_hash (touch (clock st) (id user) user))), st2)).
Proof.
  intros Hrun.
  assert (Hne : username_or_email <> "" /\ password <> "").
  { revert Hrun. unfold login_user.
    destruct (String.eqb_spec username_or_email ""); [cbn; discriminate|].
    destruct (String.eqb_spec password ""); [cbn; discriminate|]. auto. }
  destruct Hne as [Hid Hpw].
  assert (Hdecided : exists user,
             resolve st username_or_email = Some user
             /\ verify_password password (password_hash user) = true
             /\ truthy (is_active user) = true).
  { revert Hrun. unfold login_user.
    apply String.eqb_neq in Hid, Hpw. rewrite Hid, Hpw. cbn [orb]. store_unfold.
    destruct (find_user_effect username_or_email st)
      as (r1 & st0 & E1 & _ & _ & Hfound & _).
    rewrite E1. destruct r1 as [[user|]|e1]; try discriminate.
    specialize (Hfound _ eq_refl).
    destruct (verify_password password (password_hash user)) eqn:Hv; [|discriminate].
    destruct (truthy (is_active user)) eqn:Ha; [|discriminate].
    intros _. exists user. auto. }
  destruct Hdecided as (user & Hres & Hverify & Hactive).
  destruct (login_user_effect username_or_email password st) as (r & st' & Hrun' & Heff).
  rewrite Hrun in Hrun'. injection Hrun' as <- <-.
  destruct Heff as (_ & (user' & Hres' & Hdata & Husers) & _).
  rewrite Hres in Hres'. injection Hres' as <-. injection Hdata as ->.
  pose proof (resolve_touch st st1 _ _ username_or_email Husers) as Hres1.
  rewrite Hres in Hres1. cbn in Hres1.
  exists user. repeat split; try assumption.
  - unfold touch. now rewrite Z.eqb_refl.
  - intros Hf.
    destruct (login_user_ok username_or_email password st1 Hid Hpw Hf) as (st2 & Hlogin & _).
    exists st2. rewrite Hlogin, Hres1.
    destruct (touch_keeps (clock st) (id user) user) as (_ & _ & _ & -> & -> & _).
    now rewrite Hverify, Hactive.
Qed.

Lemma login_twice_witness :
  let first := login_user (H:=plain_bcrypt) "alice" "wonderland1" alice_db in
  exists data1 data2,
    first.1 = Ret (true, "Login successful", Some data1)
    /\ (login_user (H:=plain_bcrypt) "alice" "wonderland1" first.2).1
       = Ret (true, "Login successful", Some data2)
    /\ data_last_login data1 = None
    /\ data_last_login data2 = Some "2024-01-02 00:00:00".
Proof.
  intros first.
  destruct (login_twice (H:=plain_bcrypt) "alice" "wonderland1" "Login successful"
              (strip_hash alice) alice_db first.2)
    as (user & Hres & _ & _ & _ & _ & Hagain).
  - reflexivity.
  - injection Hres as <-. destruct (Hagain eq_refl) as (st2 & Hlogin).
    eexists _, _. split; [reflexivity|]. rewrite Hlogin. repeat split.
Defined.

End AuthMore.

(** ** Workout generator: the mixed branch and the lookups that fail *)

Module WorkoutMore.
Import Py SampleFacts Workout WorkoutWords WorkoutFacts.
Local Open Scope list_scope.

(** For every location and level of the table, the strength pool and the
    cardio pool share no exercise, list no exercise twice, and are large
    enough for the mixed draw. *)
Lemma pools_valid (location level : string) :
  location ∈ locations -> level ∈ levels ->
  exists strength_pool cardio_pool,
    lookup_pool location "strength" level = Ret strength_pool
    /\ lookup_pool location "cardio" level = Ret cardio_pool
    /\ NoDup (strength_pool ++ cardio_pool)
    /\ (3 <= len strength_pool) /\ (2 <= len cardio_pool).
Proof.
  intros Hloc Hlvl. split_elem Hloc; split_elem Hlvl;
    (eexists _, _; split; [vm_compute; reflexivity|];
     split; [vm_compute; reflexivity|];
     split; [apply (bool_decide_unpack _); vm_compute; exact I|];
     split; vm_compute; discriminate).
Qed.

Lemma lookup_pool_unknown_location (location category level : string) :
  location ∉ locations -> lookup_pool location category level = Raise (KeyError location).
Proof.
  intros Hloc. unfold locations in Hloc.
  apply not_elem_of_cons in Hloc as [H1 Hloc].
  apply not_elem_of_cons in Hloc as [H2 _].
  unfold lookup_pool, getitem, exercises_db. simplify_map_eq. reflexivity.
Qed.

Lemma lookup_pool_unknown_level (location category level : string) :
  location ∈ locations -> category ∈ ["strength"; "cardio"] -> level ∉ levels ->
  lookup_pool location category level = Raise (KeyError level).
Proof.
  intros Hloc Hcat Hlvl. unfold levels in Hlvl.
  apply not_elem_of_cons in Hlvl as [H1 Hlvl].
  apply not_elem_of_cons in Hlvl as [H2 Hlvl].
  apply not_elem_of_cons in Hlvl as [H3 _].
  split_elem Hloc; split_elem Hcat;
    unfold lookup_pool, getitem, exercises_db; simplify_map_eq; reflexivity.
Qed.

Lemma NoDup_incl_length {A} (l k : list A) :
  NoDup l -> (forall x, x ∈ l -> x ∈ k) -> (length l <= length k)%nat.
Proof. intros Hnd Hin. apply submseteq_length, NoDup_submseteq; assumption. Qed.

Lemma filter_split_length {A} (P : A -> Prop) `{forall x, Decision (P x)} (l : list A) :
  (length l = length (filter P l) + length (filter (fun x => ~ P x) l))%nat.
Proof.
  induction l as [|x l IH]; [reflexivity|].
  rewrite !filter_cons. destruct (decide (P x)), (decide (~ P x)); cbn; try lia; tauto.
Qed.

(** The pool of a mixed workout: three strength exercises followed by two
    cardio exercises, five distinct exercises in all. *)
Lemma select_pool_mixed (location workout_type level : string) (g : rng)
    (strength_pool cardio_pool : list exercise) :
  workout_type ∉ ["Strength Training"; "Cardio"; "HIIT"] ->
  lookup_pool location "strength" level = Ret strength_pool ->
  lookup_pool location "cardio" level = Ret cardio_pool ->
  NoDup (strength_pool ++ cardio_pool) ->
  3 <= len strength_pool -> 2 <= len cardio_pool ->
  exists from_strength from_cardio g',
    select_pool location workout_type level g = Ret (from_strength ++ from_cardio, g')
    /\ length from_strength = 3%nat /\ length from_cardio = 2%nat
    /\ from_strength ⊆ strength_pool /\ from_cardio ⊆ cardio_pool
    /\ NoDup (from_strength ++ from_cardio).
Proof.
  intros Htype Hs Hc Hnd Hls Hlc.
  apply not_elem_of_cons in Htype as [H1 Htype].
  apply not_elem_of_cons in Htype as [H2 Htype].
  apply not_elem_of_cons in Htype as [H3 _].
  apply NoDup_app in Hnd as (Hnds & Hdisj & Hndc).
  destruct (random_sample_spec strength_pool 3 g)
    as (fs & g1 & Hrs & Hlfs & rs & Hps); [lia|].
  destruct (random_sample_spec cardio_pool 2 g1)
    as (fc & g2 & Hrc & Hlfc & rc & Hpc); [lia|].
  exists fs, fc, g2. unfold select_pool.
  apply String.eqb_neq in H1, H2, H3. rewrite H1, H2, H3. cbn [orb].
  rewrite Hs, Hc. unfold mbind, result_bind. cbn [bind]. rewrite Hrs. cbn [bind].
  rewrite Hrc. cbn [bind].
  pose proof (sample_subseteq _ _ _ Hps) as Hsubs.
  pose proof (sample_subseteq _ _ _ Hpc) as Hsubc.
  repeat (split; [first [reflexivity | assumption]|]).
  apply NoDup_app. split; [eapply sample_NoDup; eauto|].
  split; [|eapply sample_NoDup; eauto].
  intros x Hx Hx'. exact (Hdisj x (Hsubs x Hx) (Hsubc x Hx')).
Qed.

(** The pool of every workout type, for a location and a level of the
    table: distinct exercises. *)
Lemma select_pool_returns (location workout_type level : string) (g : rng) :
  location ∈ locations -> level ∈ levels ->
  exists pool g', select_pool location workout_type level g = Ret (pool, g')
                  /\ NoDup pool.
Proof.
  intros Hloc Hlvl.
  destruct (pools_valid location level Hloc Hlvl)
    as (sp & cp & Hs & Hc & Hnd & Hls & Hlc).
  destruct (decide (workout_type ∈ ["Strength Training"; "Cardio"; "HIIT"]))
    as [Htype|Htype].
  - apply NoDup_app in Hnd as (Hnds & _ & Hndc).
    split_elem Htype; unfold select_pool; cbn [String.eqb Ascii.eqb Bool.eqb orb];
      rewrite ?Hs, ?Hc; eexists _, _; (split; [reflexivity | assumption]).
  - destruct (select_pool_mixed location workout_type level g sp cp)
      as (fs & fc & g' & Hrun & _ & _ & _ & _ & Hnd'); try assumption.
    eauto.
Qed.

Lemma generate_workout_returns (location workout_type experience_level today : string)
    (duration_minutes : Z) (g : rng) :
  lower location ∈ locations -> lower experience_level ∈ levels ->
  exists plan g',
    generate_workout location workout_type experience_level duration_minutes today g
    = Ret (plan, g').
Proof.
  intros Hloc Hlvl.
  destruct (select_pool_returns _ workout_type _ g Hloc Hlvl) as (pool & g1 & Hsel & Hnd).
  destruct (select_from_pool pool duration_minutes g1 Hnd)
    as (selected & g2 & Hrun & _).
  unfold generate_workout. rewrite Hsel.
  unfold mbind at 1, result_bind at 1; cbn [bind]. rewrite Hrun.
  eexists _, _. reflexivity.
Qed.

Lemma select_pool_raises (location workout_type level : string) (g : rng) :
  (location ∉ locations -> select_pool location workout_type level g
                           = Raise (KeyError location))
  /\ (location ∈ locations -> level ∉ levels ->
      select_pool location workout_type level g = Raise (KeyError level)).
Proof.
  split.
  - intros Hloc. unfold select_pool.
    rewrite !(lookup_pool_unknown_location _ _ _ Hloc).
    destruct (String.eqb _ _); [reflexivity|].
    destruct (_ || _); reflexivity.
  - intros Hloc Hlvl. unfold select_pool.
    rewrite !(lookup_pool_unknown_level location _ level Hloc) by
      (first [assumption | repeat constructor]).
    destruct (String.eqb _ _); [reflexivity|].
    destruct (_ || _); reflexivity.
Qed.

(** X. [generate_workout] returns a plan exactly when the location and the
    level, in lower case, are keys of the exercise table.  Otherwise it
    raises [KeyError], on the location when that is unknown and else on the
    level, whatever the workout type and the duration are; it raises
    nothing else. *)
Theorem generate_workout_outcome
    (location workout_type experience_level today : string)
    (duration_minutes : Z) (g : rng) :
  match generate_workout location workout_type experience_level duration_minutes today g
  with
  | Ret _ => lower location ∈ locations /\ lower experience_level ∈ levels
  | Raise e =>
      ((lower location ∉ locations) /\ e = KeyError (lower location))
      \/ (lower location ∈ locations /\ (lower experience_level ∉ levels)
          /\ e = KeyError (lower experience_level))
  end.
Proof.
  destruct (decide (lower location ∈ locations)) as [Hloc|Hloc].
  - destruct (decide (lower experience_level ∈ levels)) as [Hlvl|Hlvl].
    + destruct (generate_workout_returns location workout_type experience_level today
                  duration_minutes g Hloc Hlvl) as (plan & g' & ->).
      split; assumption.
    + unfold generate_workout.
      rewrite (proj2 (select_pool_raises _ workout_type _ g) Hloc Hlvl).
      right. repeat split; assumption.
  - unfold generate_workout.
    rewrite (proj1 (select_pool_raises _ workout_type _ g) Hloc).
    left. split; [assumption | reflexivity].
Qed.

(** X. A workout type that is none of "Strength Training", "Cardio" and
    "HIIT" (so "Mixed", but also "Yoga" or "Flexibility") is served from
    three strength and two cardio exercises: for a location and a level of
    the table, the plan has [min(5, max(4, duration // 10))] exercises, that
    is 4 or 5, pairwise distinct, of which 2 or 3 come from the strength
    pool and 1 or 2 from the cardio pool. *)
Theorem generate_workout_mixed
    (location workout_type experience_level today : string)
    (duration_minutes : Z) (g : rng) :
  lower location ∈ locations ->
  lower experience_level ∈ levels ->
  workout_type ∉ ["Strength Training"; "Cardio"; "HIIT"] ->
  exists strength_pool cardio_pool plan g',
    lookup_pool (lower location) "strength" (lower experience_level) = Ret strength_pool
    /\ lookup_pool (lower location) "cardio" (lower experience_level) = Ret cardio_pool
    /\ generate_workout location workout_type experience_level duration_minutes today g
       = Ret (plan, g')
    /\ length (exercises plan) = Z.to_nat (Z.min 5 (Z.max 4 (duration_minutes / 10)))
    /\ NoDup (exercises plan)
    /\ exercises plan ⊆ strength_pool ++ cardio_pool
    /\ (2 <= length (filter (.∈ strength_pool) (exercises plan)) <= 3)%nat
    /\ (1 <= length (filter (.∈ cardio_pool) (exercises plan)) <= 2)%nat.
Proof.
  intros Hloc Hlvl Htype.
  destruct (pools_valid _ _ Hloc Hlvl) as (sp & cp & Hs & Hc & Hnd & Hls & Hlc).
  destruct (select_pool_mixed _ workout_type _ g sp cp Htype Hs Hc Hnd Hls Hlc)
    as (fs & fc & g1 & Hsel & Hlfs & Hlfc & Hsubs & Hsubc & Hndp).
  destruct (select_from_pool (fs ++ fc) duration_minutes g1 Hndp)
    as (selected & g2 & Hrun & Hlen & Hnds & Hsub & _).
  assert (Hlp : len (fs ++ fc) = 5) by (unfold len; rewrite length_app; lia).
  rewrite Hlp in Hlen.
  apply NoDup_app in Hnd as (_ & Hdisj & _).
  exists sp, cp. eexists _, g2. split; [exact Hs|]. split; [exact Hc|].
  split.
  { unfold generate_workout. rewrite Hsel.
    unfold mbind at 1, result_bind at 1; cbn [bind]. rewrite Hrun. reflexivity. }
  cbn [exercises]. split; [exact Hlen|]. split; [exact Hnds|].
  assert (Hin : forall x, x ∈ selected -> (x ∈ fs /\ x ∈ sp) \/ (x ∈ fc /\ x ∈ cp)).
  { intros x Hx. apply Hsub, elem_of_app in Hx as [Hx|Hx]; [left|right]; auto. }
  split.
  { intros x Hx. apply elem_of_app. destruct (Hin x Hx) as [[_ ?]|[_ ?]]; auto. }
  assert (Hfs : (length (filter (.∈ sp) selected) <= 3)%nat).
  { rewrite <- Hlfs. apply NoDup_incl_length; [now apply NoDup_filter|].
    intros x Hx. apply list_elem_of_filter in Hx as [Hxs Hx].
    destruct (Hin x Hx) as [[? _]|[_ Hxc]]; [assumption|].
    destruct (Hdisj x Hxs Hxc). }
  assert (Hfc : (length (filter (.∈ cp) selected) <= 2)%nat).
  { rewrite <- Hlfc. apply NoDup_incl_length; [now apply NoDup_filter|].
    intros x Hx. apply list_elem_of_filter in Hx as [Hxc Hx].
    destruct (Hin x Hx) as [[_ Hxs]|[? _]]; [|assumption].
    destruct (Hdisj x Hxs Hxc). }
  assert (Hns : (length (filter (fun x => ~ x ∈ sp) selected)
                 <= length (filter (.∈ cp) selected))%nat).
  { apply NoDup_incl_length; [now apply NoDup_filter|].
    intros x Hx. apply list_elem_of_filter in Hx as [Hxs Hx].
    apply list_elem_of_filter. split; [|assumption].
    destruct (Hin x Hx) as [[_ ?]|[_ ?]]; [contradiction | assumption]. }
  assert (Hnc : (length (filter (fun x => ~ x ∈ cp) selected)
                 <= length (filter (.∈ sp) selected))%nat).
  { apply NoDup_incl_length; [now apply NoDup_filter|].
    intros x Hx. apply list_elem_of_filter in Hx as [Hxc Hx].
    apply list_elem_of_filter. split; [|assumption].
    destruct (Hin x Hx) as [[_ ?]|[_ ?]]; [assumption | contradiction]. }
  pose proof (filter_split_length (.∈ sp) selected) as Es.
  pose proof (filter_split_length (.∈ cp) selected) as Ec.
  lia.
Qed.

(** A mixed half hour at home for an intermediate. *)
Lemma generate_workout_mixed_witness :
  exists plan g',
    generate_workout "Home" "Mixed" "Intermediate" 30 "2024-01-01" (fun i => i)
    = Ret (plan, g')
    /\ length (exercises plan) = 4%nat.
Proof.
  destruct (generate_workout_mixed "Home" "Mixed" "Intermediate" "2024-01-01" 30
              (fun i => i))
    as (sp & cp & plan & g' & _ & _ & Hrun & Hlen & _).
  - apply (bool_decide_unpack _). vm_compute. exact I.
  - apply (bool_decide_unpack _). vm_compute. exact I.
  - apply (bool_decide_unpack _). vm_compute. exact I.
  - exists plan, g'. split; [exact Hrun | exact Hlen].
Defined.

(** The exercises of a mixed plan are distinct entries of the table, not
    distinct names: at home an intermediate can be given "Burpees" twice,
    once as a strength and once as a cardio exercise. *)
Example mixed_repeats_a_name :
  (p ← generate_workout "Home" "Mixed" "Intermediate" 50 "2024-01-01"
         (fun i => match i with 0 => 6 | _ => 0 end)%nat;
   Ret (map name (exercises p.1)))
  = Ret ["Burpees"; "Box Jumps"; "Burpees"; "Single Leg Deadlift"; "Diamond Push-ups"].
Proof. vm_compute. reflexivity. Qed.

End WorkoutMore.

(** ** Meal planner: the wider diets *)

Module MealMore.
Import Py Float64 Float64Facts Meal MealFacts.
Local Open Scope list_scope.

Section MinBy.
Context {A : Type} (key : A -> float).

(** The loop over a concatenation is the loop over its second part, started
    from the result of the loop over the first part. *)
Lemma min_by_app (best : A) (l1 l2 : list A) :
  min_by key best (l1 ++ l2) = min_by key (min_by key best l1) l2.
Proof.
  revert best. induction l1 as [|x l1 IH]; intros best; [reflexivity|].
  cbn [app min_by]. apply IH.
Qed.

(** The loop keeps its starting item unless it finds a strictly smaller one. *)
Lemma min_by_keeps (rest : list A) : forall best : A,
  min_by key best rest = best
  \/ (min_by key best rest ∈ rest
      /\ SFltb (key (min_by key best rest)) (key best) = true).
Proof.
  induction rest as [|x rest IH]; intros best; [now left|].
  cbn [min_by]. cbn [ltb num].
  destruct (SFltb (key x) (key best)) eqn:Hlt.
  - right. destruct (IH x) as [->|[Hin Hlt']].
    + split; [apply list_elem_of_here | exact Hlt].
    + split; [now apply list_elem_of_further|].
      eapply SFltb_trans; eauto.
  - destruct (IH best) as [->|[Hin Hlt']]; [now left|].
    right. split; [now apply list_elem_of_further | exact Hlt'].
Qed.

End MinBy.

(** The vegetarian list of every slot is non-empty, and the pool of the two
    wider diets is that list followed by the list of the diet's own tag. *)
Lemma wider_pool (meal_type diet_pref : string) :
  meal_type ∈ slots -> diet_pref ∈ ["non-vegetarian"; "eggetarian"] ->
  exists first others,
    tagged meal_type "vegetarian" = first :: others
    /\ forall target : float,
         _select_meal meal_type "vegetarian" target
         = Ret (Some (min_by (distance target) first others))
         /\ _select_meal meal_type diet_pref target
            = Ret (Some (min_by (distance target) first
                           (others ++ tagged meal_type diet_pref))).
Proof.
  intros Hslot Hdiet. unfold slots in *.
  repeat (apply elem_of_cons in Hslot as [->|Hslot]);
    try (apply elem_of_nil in Hslot; destruct Hslot);
    repeat (apply elem_of_cons in Hdiet as [->|Hdiet]);
    try (apply elem_of_nil in Hdiet; destruct Hdiet);
    (eexists _, _; split; [vm_compute; reflexivity | intros target; split; reflexivity]).
Qed.

(** X. A non-vegetarian or eggetarian preference widens the vegetarian
    pool and never gives a worse match: for every slot and target, the item
    selected is the one selected for a vegetarian, unless an item of the
    diet's own list is strictly nearer to the target than that one. *)
Theorem wider_diet_never_farther (meal_type diet_pref : string) (target : float) :
  meal_type ∈ slots -> diet_pref ∈ ["non-vegetarian"; "eggetarian"] ->
  exists veg pick,
    _select_meal meal_type "vegetarian" target = Ret (Some veg)
    /\ _select_meal meal_type diet_pref target = Ret (Some pick)
    /\ SFltb (distance target veg) (distance target pick) = false
    /\ (pick = veg
        \/ (pick ∈ tagged meal_type diet_pref
            /\ SFltb (distance target pick) (distance target veg) = true)).
Proof.
  intros Hslot Hdiet.
  destruct (wider_pool _ _ Hslot Hdiet) as (first & others & Hveg & Hsel).
  destruct (Hsel target) as [Ev Ep].
  eexists _, _. split; [exact Ev|]. split; [exact Ep|].
  rewrite min_by_app.
  destruct (min_by_keeps (distance target) (tagged meal_type diet_pref)
              (min_by (distance target) first others)) as [->|[Hin Hlt]].
  - split; [apply SFltb_irrefl | now left].
  - split; [|now right].
    destruct (SFltb (distance target (min_by (distance target) first others)) _) eqn:E;
      [|reflexivity].
    pose proof (SFltb_trans _ _ _ E Hlt) as Hxx.
    now rewrite SFltb_irrefl in Hxx.
Qed.

(** A lunch of 700 kcal: "Chole Bhature" (550) for a vegetarian, "Mutton
    Curry with Roti (3)" (620) for a non-vegetarian. *)
Lemma wider_diet_never_farther_witness :
  exists veg pick,
    _select_meal "lunch" "vegetarian" (of_Z 700) = Ret (Some veg)
    /\ _select_meal "lunch" "non-vegetarian" (of_Z 700) = Ret (Some pick)
    /\ name veg = "Chole Bhature" /\ name pick = "Mutton Curry with Roti (3)".
Proof.
  destruct (wider_diet_never_farther "lunch" "non-vegetarian" (of_Z 700))
    as (veg & pick & Ev & Ep & _).
  - apply (bool_decide_unpack _). vm_compute. exact I.
  - apply (bool_decide_unpack _). vm_compute. exact I.
  - exists veg, pick. split; [exact Ev|]. split; [exact Ep|].
    vm_compute in Ev, Ep. injection Ev as <-. injection Ep as <-.
    split; reflexivity.
Defined.

End MealMore.

(** ** Categories and messages *)

Module BandFacts.
Import Float64 Float64Facts Helpers.

Lemma SFleb_SFltb_lt (x y t : float) :
  SFleb x y = true -> SFltb y t = true -> SFltb x t = true.
Proof. order_cases. Qed.

Lemma SFltb_SFleb_lt (x a b : float) :
  SFltb x a = true -> SFleb a b = true -> SFltb x b = true.
Proof. order_cases. Qed.

(** Among numbers, whoever is not below [t] is at least [t]. *)
Lemma not_below (x t u : float) :
  SFltb x t = false -> SFltb x u = true -> SFleb t t = true -> SFleb t x = true.
Proof. order_cases. Qed.

Lemma band_monotone (thresholds : list float) (x y : float) :
  SFleb x y = true -> (band thresholds x <= band thresholds y)%nat.
Proof.
  intros Hxy. induction thresholds as [|t ts IH]; [reflexivity|].
  cbn [band]. destruct (SFltb x t) eqn:Hx; [lia|].
  destruct (SFltb y t) eqn:Hy; [|lia].
  rewrite (SFleb_SFltb_lt x y t Hxy Hy) in Hx. discriminate.
Qed.

(** Higher thresholds give a lower band. *)
Lemma band_thresholds (low high : list float) (x : float) :
  Forall2 (fun a b => SFleb a b = true) low high ->
  (band high x <= band low x)%nat.
Proof.
  induction 1 as [|a b low high Hab _ IH]; [reflexivity|].
  cbn [band]. destruct (SFltb x b) eqn:Hb; [lia|].
  destruct (SFltb x a) eqn:Ha; [|lia].
  rewrite (SFltb_SFleb_lt x a b Ha Hab) in Hb. discriminate.
Qed.

Lemma band_le_length (thresholds : list float) (x : float) :
  (band thresholds x <= length thresholds)%nat.
Proof.
  induction thresholds as [|t ts IH]; [reflexivity|].
  cbn [band length]. destruct (SFltb x t); lia.
Qed.

(** A test [a <= x and x < b] that follows a failed test [x < a] is the
    test [x < b]. *)
Lemma chained (x a b : float) :
  SFltb x a = false -> SFleb a a = true -> SFleb a x && SFltb x b = SFltb x b.
Proof.
  intros Ha Haa. destruct (SFltb x b) eqn:Hb; [|apply andb_false_r].
  now rewrite (not_below x a b Ha Hb Haa).
Qed.

End BandFacts.

Module HelpersFacts.
Import Py Float64 Float64Facts Progress Helpers BandFacts.

Lemma bmi_thresholds_spec (bmi : float) :
  bmi_categories !! band [dec 185 10; of_Z 25; of_Z 30] bmi
  = Some (get_bmi_category bmi).1.
Proof.
  unfold get_bmi_category. cbn [band].
  destruct (SFltb bmi (dec 185 10)) eqn:H1; [reflexivity|].
  rewrite (chained _ _ _ H1) by reflexivity.
  destruct (SFltb bmi (of_Z 25)) eqn:H2; [reflexivity|].
  rewrite (chained _ _ _ H2) by reflexivity.
  destruct (SFltb bmi (of_Z 30)) eqn:H3; reflexivity.
Qed.

(** X. The BMI categories are ordered bands: a BMI that is not smaller
    never falls in an earlier category of the list Underweight, Normal,
    Overweight, Obese.  A BMI that is not a number is "Obese". *)
Theorem bmi_category_monotone :
  (forall x y : float,
      SFleb x y = true ->
      exists i j : nat,
        (i <= j)%nat
        /\ bmi_categories !! i = Some (get_bmi_category x).1
        /\ bmi_categories !! j = Some (get_bmi_category y).1)
  /\ get_bmi_category S754_nan = ("Obese", "🔴").
Proof.
  split; [|reflexivity].
  intros x y Hxy. eexists _, _.
  split; [apply (band_monotone [dec 185 10; of_Z 25; of_Z 30] x y Hxy)|].
  split; apply bmi_thresholds_spec.
Qed.

(** 24.9 and 25: "Normal", then "Overweight". *)
Lemma bmi_category_monotone_witness :
  exists i j : nat,
    (i <= j)%nat
    /\ bmi_categories !! i = Some "Normal"
    /\ bmi_categories !! j = Some "Overweight".
Proof.
  destruct bmi_category_monotone as [Hmono _].
  destruct (Hmono (dec 249 10) (of_Z 25)) as (i & j & Hij & Hi & Hj);
    [reflexivity|].
  exists i, j. split; [exact Hij|]. split; [exact Hi | exact Hj].
Defined.

Lemma message_spec (p : float) :
  messages !! band [of_Z 10; of_Z 25; of_Z 50; of_Z 75; of_Z 90] p
  = Some (get_motivational_message p).
Proof.
  unfold get_motivational_message. cbn [band].
  repeat match goal with
         | |- context [SFltb p ?t] => destruct (SFltb p t); [reflexivity|]
         end.
  reflexivity.
Qed.

(** X. The motivational messages follow the progress: a percentage that is
    not smaller never gets an earlier message of the six. *)
Theorem motivational_message_monotone (x y : float) :
  SFleb x y = true ->
  exists i j : nat,
    (i <= j)%nat
    /\ messages !! i = Some (get_motivational_message x)
    /\ messages !! j = Some (get_motivational_message y).
Proof.
  intros Hxy. eexists _, _.
  split; [apply (band_monotone [of_Z 10; of_Z 25; of_Z 50; of_Z 75; of_Z 90] x y Hxy)|].
  split; apply message_spec.
Qed.

Lemma motivational_message_monotone_witness :
  exists i j : nat,
    (i <= j)%nat
    /\ messages !! i = Some "💪 Great start! Keep the momentum going!"
    /\ messages !! j = Some "⭐ Halfway there! Your dedication is paying off!".
Proof.
  destruct (motivational_message_monotone (of_Z 10) (of_Z 50)) as (i & j & Hij & Hi & Hj);
    [reflexivity|].
  exists i, j. split; [exact Hij|]. split; [exact Hi | exact Hj].
Defined.

(** *** A goal weight equal to the first weight *)

(** A float minus itself is the positive zero, or is not a number. *)
Lemma fsub_diag (x : float) : fsub x x = S754_zero false \/ fsub x x = S754_nan.
Proof.
  destruct x as [[]|[]| |s m e]; cbn; auto.
  left. unfold fsub, SFsub.
  change (IntDef.Z.min e e) with (Z.min e e). rewrite Z.min_id.
  unfold shl_align. rewrite !Z.sub_diag. reflexivity.
Qed.

(** Whatever is divided by a difference [x - x] and multiplied by 100 is
    not below 100. *)
Lemma over_zero_not_below (n d : float) :
  d = S754_zero false \/ d = S754_nan ->
  SFltb (fmul (fdiv (SFabs n) d) (of_Z 100)) (of_Z 100) = false.
Proof.
  intros [->| ->]; destruct n as [[]|[]| |s m e]; reflexivity.
Qed.

(** X. Without a goal weight in the profile, or with a goal weight equal
    to the first logged weight, the progress shown is 100 percent whatever
    has been logged, and the message is the last of the six. *)
Theorem progress_without_goal (start : float) (rest : list float) :
  percent_to_goal (start :: rest) None = Some (of_Z 100)
  /\ percent_to_goal (start :: rest) (Some start) = Some (of_Z 100)
  /\ get_motivational_message (of_Z 100)
     = "🏆 Outstanding! You're so close to your goal!".
Proof.
  assert (Hp : forall current,
             progress_percentage start current start = of_Z 100).
  { intros current. unfold progress_percentage. cbn [ltb sub div mul absf of_int num].
    rewrite SFltb_irrefl. unfold py_min, py_max. cbn [ltb num].
    rewrite (over_zero_not_below _ _ (fsub_diag start)). reflexivity. }
  split; [|split]; [| |reflexivity].
  - unfold percent_to_goal. cbn [Py.get]. now rewrite Hp.
  - unfold percent_to_goal. cbn [Py.get]. now rewrite Hp.
Qed.

(** *** The goal date *)

Lemma unsigned_SFabs (x : float) : unsigned (SFabs x).
Proof. destruct x; cbn; auto. Qed.

Lemma unsigned_round (m e : Z) (l : location) :
  unsigned (binary_round_aux prec emax false m e l).
Proof.
  unfold binary_round_aux.
  destruct (shr_fexp prec emax m e l) as [mrs' e'].
  destruct (shr_fexp prec emax _ e' loc_Exact) as [mrs'' e''].
  destruct (shr_m mrs''); cbn; auto.
  destruct (e'' <=? emax - prec); cbn; auto.
Qed.

Lemma unsigned_fdiv (x y : float) :
  unsigned x -> SFltb (of_Z 0) y = true -> unsigned (fdiv x y).
Proof.
  destruct x as [sx|sx| |sx mx ex], y as [sy|[]| |[] my ey];
    cbn [unsigned]; intros Hx Hy; subst; try discriminate Hy;
    unfold fdiv, SFdiv; cbn [unsigned xorb]; auto.
  destruct (SFdiv_core_binary prec emax (Z.pos mx) ex (Z.pos my) ey) as [[mz ez] lz].
  apply unsigned_round.
Qed.

Lemma unsigned_fmul (x y : float) : unsigned x -> unsigned y -> unsigned (fmul x y).
Proof.
  destruct x as [sx|sx| |sx mx ex], y as [sy|sy| |sy my ey];
    cbn [unsigned]; intros Hx Hy; subst;
    unfold fmul, SFmul; cbn [unsigned xorb]; auto.
  apply unsigned_round.
Qed.

Lemma unsigned_not_negative (x : float) : unsigned x -> SFltb x (of_Z 0) = false.
Proof. destruct x as [s|s| |s m e]; cbn; try reflexivity; intros ->; reflexivity. Qed.

Lemma int_of_unsigned (x : float) (d : Z) :
  unsigned x -> int_of_float x = Done d -> 0 <= d.
Proof.
  destruct x as [s|s| |s m e]; cbn; try discriminate.
  - intros _ [= <-]. lia.
  - intros -> [= <-]. cbn [cond_Zopp].
    destruct (0 <=? e) eqn:He.
    + apply Z.leb_le in He. apply Z.mul_nonneg_nonneg; [lia|].
      apply Z.pow_nonneg. lia.
    + apply Z.leb_gt in He. apply Z.div_pos; [lia|].
      apply Z.pow_pos_nonneg; lia.
Qed.

Lemma positive_not_zero (y : float) : SFltb (of_Z 0) y = true -> SFeqb y (of_Z 0) = false.
Proof. destruct y as [s|[]| |[] m e]; cbn; congruence. Qed.

Lemma py_min_unsigned (a c : float) : unsigned c -> unsigned (py_min (SFabs a) c).
Proof.
  intros Hc. unfold py_min. cbn [ltb num].
  destruct (SFltb c (SFabs a)); [exact Hc | apply unsigned_SFabs].
Qed.

(** Without a positive weekly goal the capped weekly change is not positive
    either. *)
Lemma py_min_not_positive (a c : float) :
  SFltb (of_Z 0) c = true -> SFltb (of_Z 0) (SFabs a) = false ->
  SFltb (of_Z 0) (py_min (SFabs a) c) = false.
Proof.
  intros Hc Ha. unfold py_min. cbn [ltb num].
  destruct (SFltb c (SFabs a)) eqn:Hlt; [|exact Ha].
  rewrite (SFltb_trans _ _ _ Hc Hlt) in Ha. discriminate.
Qed.

(** The first half of [predict_transformation_date]: the weeks needed are
    computed without an exception and carry no sign. *)
Lemma weeks_needed_spec (current_weight target_weight weekly_goal : float)
    (goal_type : string) (now : datetime) :
  exists weeks_needed,
    unsigned weeks_needed
    /\ (SFltb (of_Z 0) (SFabs weekly_goal) = false -> weeks_needed = of_Z 0)
    /\ predict_transformation_date current_weight target_weight weekly_goal goal_type now
       = and_then (int_of_float (fmul weeks_needed (of_Z 7))) (fun days_needed =>
         and_then (timedelta days_needed) (fun delta =>
         and_then (add_days now delta) (fun target_date =>
         Done (target_date, weeks_needed, days_needed)))).
Proof.
  unfold predict_transformation_date.
  set (weekly_change := if String.eqb goal_type "Weight Loss" then _ else _).
  assert (Hwc : unsigned weekly_change
                /\ (SFltb (of_Z 0) (SFabs weekly_goal) = false ->
                    SFltb (of_Z 0) weekly_change = false)).
  { subst weekly_change. destruct (String.eqb goal_type "Weight Loss"); split;
      try (apply py_min_unsigned; reflexivity);
      apply py_min_not_positive; reflexivity. }
  destruct Hwc as [Hu Hzero].
  destruct (SFltb (of_Z 0) weekly_change) eqn:Hpos.
  - unfold truediv. rewrite (positive_not_zero _ Hpos). cbn [and_then].
    eexists. split; [|split; [|reflexivity]].
    + apply unsigned_fdiv; [apply unsigned_SFabs | exact Hpos].
    + intros Hz. pose proof (Hzero Hz) as Hn. congruence.
  - cbn [and_then]. exists (of_Z 0). split; [exact I|]. split; [intros _|]; reflexivity.
Qed.

(** X. [predict_transformation_date] never divides by zero: the guard on
    the weekly change leaves as only exceptions those of [int] and of the
    date arithmetic.  When it returns, the number of days is not negative,
    the weeks are not negative, and the target date is that many days after
    today, at the same time of day.  With a weekly goal that is zero or not
    a number it returns today and zero, whatever the weights are. *)
Theorem predict_transformation_date_safe
    (current_weight target_weight weekly_goal : float) (goal_type : string)
    (now : datetime) :
  predict_transformation_date current_weight target_weight weekly_goal goal_type now
  <> Fail ZeroDivisionError
  /\ (forall target_date weeks_needed days_needed,
        predict_transformation_date current_weight target_weight weekly_goal goal_type now
        = Done (target_date, weeks_needed, days_needed) ->
        0 <= days_needed
        /\ ordinal target_date = ordinal now + days_needed
        /\ time_of_day target_date = time_of_day now
        /\ SFltb weeks_needed (of_Z 0) = false)
  /\ (SFltb (of_Z 0) (SFabs weekly_goal) = false ->
      1 <= ordinal now <= MAXORDINAL ->
      predict_transformation_date current_weight target_weight weekly_goal goal_type now
      = Done (now, of_Z 0, 0)).
Proof.
  destruct (weeks_needed_spec current_weight target_weight weekly_goal goal_type now)
    as (weeks & Hu & Hzero & ->).
  split; [|split].
  - destruct (fmul weeks (of_Z 7)) as [s|s| |s m e]; cbn [int_of_float and_then];
      try discriminate;
      unfold timedelta; destruct (999999999 <? _); cbn [and_then]; try discriminate;
      unfold add_days; destruct (_ || _); cbn [and_then]; discriminate.
  - intros target_date weeks_needed days_needed.
    destruct (int_of_float (fmul weeks (of_Z 7))) as [d|e] eqn:Hint;
      cbn [and_then]; [|discriminate].
    unfold timedelta. destruct (999999999 <? Z.abs d); cbn [and_then]; [discriminate|].
    unfold add_days. destruct (_ || _); cbn [and_then]; [discriminate|].
    intros [= <- <- <-]. cbn [ordinal time_of_day].
    split; [|split; [reflexivity|split; [reflexivity|]]].
    + eapply int_of_unsigned; [|exact Hint].
      apply unsigned_fmul; [exact Hu | reflexivity].
    + now apply unsigned_not_negative.
  - intros Hz [Hlo Hhi]. rewrite (Hzero Hz).
    change (int_of_float (fmul (of_Z 0) (of_Z 7))) with (@Done Z 0).
    cbn [and_then]. change (timedelta 0) with (@Done Z 0). cbn [and_then].
    unfold add_days. rewrite Z.add_0_r.
    replace ((ordinal now <? 1) || (MAXORDINAL <? ordinal now)) with false
      by (symmetry; apply orb_false_iff; split; apply Z.ltb_ge; lia).
    cbn [and_then]. destruct now; reflexivity.
Qed.

(** From 80 kg to 70 kg at half a kilogram per week: 20 weeks, 140 days;
    and with a weekly goal of zero: today. *)
Lemma predict_transformation_date_safe_witness :
  (0 <= 140
   /\ ordinal {| ordinal := 738140; time_of_day := 0 |} = 738000 + 140)
  /\ predict_transformation_date (of_Z 80) (of_Z 70) (of_Z 0) "Weight Loss"
       {| ordinal := 738000; time_of_day := 0 |}
     = Done ({| ordinal := 738000; time_of_day := 0 |}, of_Z 0, 0).
Proof.
  split.
  - destruct (predict_transformation_date_safe (of_Z 80) (of_Z 70) (dec 5 10)
                "Weight Loss" {| ordinal := 738000; time_of_day := 0 |})
      as (_ & Hdone & _).
    destruct (Hdone {| ordinal := 738140; time_of_day := 0 |} (of_Z 20) 140)
      as (Hdays & Hord & _); [vm_compute; reflexivity|].
    split; [exact Hdays | exact Hord].
  - destruct (predict_transformation_date_safe (of_Z 80) (of_Z 70) (of_Z 0)
                "Weight Loss" {| ordinal := 738000; time_of_day := 0 |})
      as (_ & _ & Hzero).
    apply Hzero; [reflexivity | unfold MAXORDINAL; cbn; lia].
Defined.

End HelpersFacts.

(** ** Body-fat categories and the trained predictor *)

Module MlModelsFacts.
Import Py Float64 Float64Facts Helpers BandFacts BodyFat MlModels.

Lemma male_spec (body_fat_percentage : float) (gender : string) :
  lower gender = "male" ->
  body_fat_categories !! band [of_Z 6; of_Z 14; of_Z 18; of_Z 25] body_fat_percentage
  = Some (get_body_fat_category body_fat_percentage gender).1.
Proof.
  intros Hg. unfold get_body_fat_category. rewrite Hg.
  change (String.eqb "male" "male") with true. cbv iota. cbn [band].
  destruct (SFltb body_fat_percentage (of_Z 6)) eqn:H1; [reflexivity|].
  rewrite (chained _ _ _ H1) by reflexivity.
  destruct (SFltb body_fat_percentage (of_Z 14)) eqn:H2; [reflexivity|].
  rewrite (chained _ _ _ H2) by reflexivity.
  destruct (SFltb body_fat_percentage (of_Z 18)) eqn:H3; [reflexivity|].
  rewrite (chained _ _ _ H3) by reflexivity.
  destruct (SFltb body_fat_percentage (of_Z 25)) eqn:H4; reflexivity.
Qed.

Lemma female_spec (body_fat_percentage : float) (gender : string) :
  lower gender <> "male" ->
  body_fat_categories !! band [of_Z 14; of_Z 21; of_Z 25; of_Z 32] body_fat_percentage
  = Some (get_body_fat_category body_fat_percentage gender).1.
Proof.
  intros Hg. unfold get_body_fat_category.
  apply String.eqb_neq in Hg. rewrite Hg. cbn [band].
  destruct (SFltb body_fat_percentage (of_Z 14)) eqn:H1; [reflexivity|].
  rewrite (chained _ _ _ H1) by reflexivity.
  destruct (SFltb body_fat_percentage (of_Z 21)) eqn:H2; [reflexivity|].
  rewrite (chained _ _ _ H2) by reflexivity.
  destruct (SFltb body_fat_percentage (of_Z 25)) eqn:H3; [reflexivity|].
  rewrite (chained _ _ _ H3) by reflexivity.
  destruct (SFltb body_fat_percentage (of_Z 32)) eqn:H4; reflexivity.
Qed.

(** X. The body-fat categories are ordered bands for each gender: a
    percentage that is not smaller never falls in an earlier category of
    the list Essential Fat, Athletes, Fitness, Average, Obese.  Every gender
    other than "male" (in any letter case) is rated on the scale of
    women, and on that scale a percentage never falls in a later category
    than on the scale of men. *)
Theorem body_fat_category_bands :
  (forall (x y : float) (gender : string),
      SFleb x y = true ->
      exists i j : nat,
        (i <= j)%nat
        /\ body_fat_categories !! i = Some (get_body_fat_category x gender).1
        /\ body_fat_categories !! j = Some (get_body_fat_category y gender).1)
  /\ (forall (x : float) (gender : string),
        lower gender <> "male" ->
        get_body_fat_category x gender = get_body_fat_category x "female"
        /\ exists i j : nat,
             (i <= j)%nat
             /\ body_fat_categories !! i = Some (get_body_fat_category x gender).1
             /\ body_fat_categories !! j = Some (get_body_fat_category x "male").1).
Proof.
  split.
  - intros x y gender Hxy.
    destruct (String.eqb_spec (lower gender) "male") as [Hg|Hg].
    + eexists _, _. split; [|split; now apply male_spec].
      exact (band_monotone _ x y Hxy).
    + eexists _, _. split; [|split; now apply female_spec].
      exact (band_monotone _ x y Hxy).
  - intros x gender Hg. split.
    + unfold get_body_fat_category. apply String.eqb_neq in Hg. now rewrite Hg.
    + eexists _, _. split; [|split; [now apply female_spec | now apply male_spec]].
      apply band_thresholds. repeat constructor.
Qed.

(** 15 percent: "Athletes" for a woman, "Fitness" for a man. *)
Lemma body_fat_category_bands_witness :
  exists i j : nat,
    (i <= j)%nat
    /\ body_fat_categories !! i = Some "Athletes"
    /\ body_fat_categories !! j = Some "Fitness".
Proof.
  destruct body_fat_category_bands as [_ Hscale].
  destruct (Hscale (of_Z 15) "Female") as (_ & i & j & Hij & Hi & Hj);
    [discriminate|].
  exists i, j. split; [exact Hij|]. split; [exact Hi | exact Hj].
Defined.

(** X. With a fitted model [predict] clamps what the model computes: the
    result lies in [[5, 50]] whatever the model returns, and is 50 when the
    model returns no number.  A predictor that is marked as trained and
    holds no model is the one state in which [predict] has no value. *)
Theorem predict_trained_range `{Log10 float}
    (p : predictor float) (m : measurements float) :
  is_trained p = true ->
  (forall fitted,
      model p = Some fitted ->
      exists v, predict p m = Some v
                /\ SFleb (of_Z 5) v = true /\ SFleb v (of_Z 50) = true
                /\ (fitted m = S754_nan -> v = of_Z 50))
  /\ (model p = None -> predict p m = None).
Proof.
  intros Ht. unfold predict. rewrite Ht. cbn [negb]. split.
  - intros fitted ->. eexists. split; [reflexivity|].
    cbn [of_int num].
    split; [|split]; try (apply clamp_bounds; reflexivity).
    intros ->. now apply clamp_nan.
  - now intros ->.
Qed.

(** A model that returns 120 for every body. *)
Lemma predict_trained_range_witness :
  predict (H0:=log10_table) {| is_trained := true; model := Some (fun _ => of_Z 120) |}
    (man_175_37 (of_Z 85))
  = Some (of_Z 50).
Proof.
  destruct (predict_trained_range (H:=log10_table)
              {| is_trained := true; model := Some (fun _ => of_Z 120) |}
              (man_175_37 (of_Z 85)) eq_refl) as [Hfit _].
  destruct (Hfit (fun _ => of_Z 120) eq_refl) as (v & Hv & _).
  rewrite Hv. vm_compute in Hv. injection Hv as <-. reflexivity.
Defined.

End MlModelsFacts.

(** ** Profile form *)

Module DashboardFacts.
Import Py Float64 Dashboard.
Local Open Scope list_scope.

Lemma lstrip_nil (l : list ascii) : lstrip l = [] <-> forallb isspace l = true.
Proof.
  induction l as [|c l IH]; cbn; [tauto|].
  destruct (isspace c); cbn; [exact IH|]. split; discriminate.
Qed.

Lemma lstrip_suffix (l : list ascii) : exists spaces, l = spaces ++ lstrip l.
Proof.
  induction l as [|c l [spaces IH]]; [now exists []|].
  cbn. destruct (isspace c); [|now exists []].
  exists (c :: spaces). cbn. now f_equal.
Qed.

Lemma lstrip_head (l : list ascii) (c : ascii) (l' : list ascii) :
  lstrip l = c :: l' -> isspace c = false.
Proof.
  induction l as [|a l IH]; cbn; [discriminate|].
  destruct (isspace a) eqn:Ha; [exact IH|]. now intros [= <- _].
Qed.

Lemma length_string_of_list (l : list ascii) :
  String.length (string_of_list_ascii l) = length l.
Proof. induction l as [|c l IH]; cbn; [reflexivity | now rewrite IH]. Qed.

(** A text strips to nothing exactly when it holds white space only. *)
Lemma strip_empty (s : string) :
  String.length (strip s) = 0%nat <-> forallb isspace (list_ascii_of_string s) = true.
Proof.
  unfold strip. rewrite length_string_of_list, length_rev.
  rewrite length_zero_iff_nil, lstrip_nil.
  set (l := list_ascii_of_string s).
  destruct (lstrip l) as [|c l'] eqn:Hl.
  - split; [intros _; now apply lstrip_nil | reflexivity].
  - pose proof (lstrip_head _ _ _ Hl) as Hc.
    destruct (lstrip_suffix l) as [spaces Hs]. rewrite Hl in Hs.
    split; intros Hall; exfalso.
    + rewrite forallb_forall in Hall.
      specialize (Hall c). rewrite Hc in Hall.
      assert (false = true); [|discriminate].
      apply Hall. apply in_rev. rewrite rev_involutive. now left.
    + rewrite Hs, forallb_app in Hall. cbn in Hall. rewrite Hc in Hall.
      now rewrite andb_false_r in Hall.
Qed.

Lemma name_test (name : string) :
  String.eqb name "" || (String.length (strip name) =? 0)%nat
  = forallb isspace (list_ascii_of_string name).
Proof.
  apply eq_true_iff_eq. rewrite orb_true_iff, Nat.eqb_eq, strip_empty.
  split; [|tauto]. intros [Hname|Hall]; [|exact Hall].
  apply String.eqb_eq in Hname. now subst.
Qed.

(** The five checks are independent: the list is made of one message per
    failed check, in the order of the checks. *)
Lemma validate_profile_data_flags (name : string) (age : Z) (weight : float)
    (height : Z) (goal_weight : float) :
  validate_profile_data name age weight height goal_weight
  = (if forallb isspace (list_ascii_of_string name)
     then ["Name cannot be empty"] else [])
    ++ (if (age <? 15) || (100 <? age)
        then ["Age must be between 15 and 100"] else [])
    ++ (if SFltb weight (of_Z 30) || SFltb (of_Z 200) weight
        then ["Weight must be between 30 and 200 kg"] else [])
    ++ (if (height <? 100) || (250 <? height)
        then ["Height must be between 100 and 250 cm"] else [])
    ++ (if SFltb goal_weight (of_Z 30) || SFltb (of_Z 200) goal_weight
        then ["Goal weight must be between 30 and 200 kg"] else []).
Proof.
  unfold validate_profile_data. rewrite name_test.
  destruct (forallb isspace _), ((age <? 15) || (100 <? age)),
    (SFltb weight (of_Z 30) || SFltb (of_Z 200) weight),
    ((height <? 100) || (250 <? height)),
    (SFltb goal_weight (of_Z 30) || SFltb (of_Z 200) goal_weight); reflexivity.
Qed.

Lemma int_range (n lo hi : Z) : (n <? lo) || (hi <? n) = true <-> ~ (lo <= n <= hi).
Proof. rewrite orb_true_iff, !Z.ltb_lt. lia. Qed.

(** X. [validate_profile_data] reports every failed check, not only the
    first: each of the five messages is in the list exactly when its check
    fails, and the messages come in the order of the checks.  The name
    fails when it holds white space only; a weight that is not a number
    passes, since it is neither below 30 nor above 200.  The list is empty,
    and the profile is saved, exactly when the five checks pass. *)
Theorem validate_profile_data_errors (name : string) (age : Z) (weight : float)
    (height : Z) (goal_weight : float) :
  let errors := validate_profile_data name age weight height goal_weight in
  ("Name cannot be empty" ∈ errors
   <-> forallb isspace (list_ascii_of_string name) = true)
  /\ ("Age must be between 15 and 100" ∈ errors <-> ~ (15 <= age <= 100))
  /\ ("Weight must be between 30 and 200 kg" ∈ errors
      <-> SFltb weight (of_Z 30) = true \/ SFltb (of_Z 200) weight = true)
  /\ ("Height must be between 100 and 250 cm" ∈ errors <-> ~ (100 <= height <= 250))
  /\ ("Goal weight must be between 30 and 200 kg" ∈ errors
      <-> SFltb goal_weight (of_Z 30) = true \/ SFltb (of_Z 200) goal_weight = true)
  /\ sublist errors
       [ "Name cannot be empty"; "Age must be between 15 and 100";
         "Weight must be between 30 and 200 kg";
         "Height must be between 100 and 250 cm";
         "Goal weight must be between 30 and 200 kg" ]
  /\ (errors = []
      <-> forallb isspace (list_ascii_of_string name) = false
          /\ 15 <= age <= 100
          /\ (SFltb weight (of_Z 30) = false /\ SFltb (of_Z 200) weight = false)
          /\ 100 <= height <= 250
          /\ (SFltb goal_weight (of_Z 30) = false
              /\ SFltb (of_Z 200) goal_weight = false)).
Proof.
  intros errors. subst errors. rewrite validate_profile_data_flags.
  rewrite <- !int_range, <- !orb_true_iff.
  assert (Hage : 15 <= age <= 100 <-> (age <? 15) || (100 <? age) = false).
  { rewrite <- not_true_iff_false, int_range. lia. }
  assert (Hheight : 100 <= height <= 250 <-> (height <? 100) || (250 <? height) = false).
  { rewrite <- not_true_iff_false, int_range. lia. }
  rewrite Hage, Hheight, <- !orb_false_iff. clear Hage Hheight.
  destruct (forallb isspace _), ((age <? 15) || (100 <? age)),
    (SFltb weight (of_Z 30) || SFltb (of_Z 200) weight),
    ((height <? 100) || (250 <? height)),
    (SFltb goal_weight (of_Z 30) || SFltb (of_Z 200) goal_weight);
    cbn [app];
    (split; [|split; [|split; [|split; [|split; [|split]]]]]);
    lazymatch goal with
    | |- _ ∈ _ <-> true = true =>
        split; [reflexivity | intros _; apply (bool_decide_unpack _); vm_compute; exact I]
    | |- _ ∈ _ <-> false = true =>
        split; [intros Hin; apply (bool_decide_pack _) in Hin; vm_compute in Hin;
                destruct Hin | discriminate]
    | |- sublist _ _ =>
        repeat first [apply sublist_nil | apply sublist_skip | apply sublist_cons]
    | |- _ = [] <-> _ =>
        cbn [orb]; split; intros Heq; first [reflexivity | discriminate Heq]
    end.
Qed.

End DashboardFacts.

(** ** The coach over a sequence of calls *)

Module CoachPromptsFacts.
Import Py Coach CoachFacts CoachPrompts.

Section WithGenai.
Context {model_t chat_t : Type} `{Genai model_t chat_t}.

(** What one call of [get_response] does to the coach and to the service. *)
Lemma get_response_outcome (self : AICoach model_t chat_t) (user_message : string)
    (user_context : option (gmap string string)) :
  let out := get_response self user_message user_context in
  (exists text, out.1.1 = Ret text)
  /\ api_key out.1.2 = api_key self
  /\ model out.1.2 = model self
  /\ (is_Some (chat self) <-> is_Some (chat out.1.2))
  /\ (model self = None -> out = (Ret not_configured, self, []))
  /\ (is_Some (model self) -> is_Some (chat self) ->
      out.2 = [full_prompt user_message user_context]).
Proof.
  unfold get_response. destruct (model self) as [m|] eqn:Hm.
  - destruct (chat self) as [session|] eqn:Hc.
    + destruct (send_message session _) as [[text session']|e]; cbn;
        rewrite ?Hm, ?Hc; repeat split; eauto; try discriminate.
    + cbn. rewrite ?Hm, ?Hc. repeat split; eauto; try discriminate.
      intros _ [? ?]. discriminate.
  - cbn. rewrite Hm. repeat split; eauto. intros [? ?]. discriminate.
Qed.

(** Each of the four methods is one call of [get_response]. *)
Lemma perform_get_response (self : AICoach model_t chat_t) (c : call) :
  exists user_message user_context,
    perform self c = get_response self user_message user_context.
Proof. destruct c; cbn; eauto. Qed.

(** The coach has a session whenever it has a model. *)
Lemma after_paired (calls : list call) : forall self : AICoach model_t chat_t,
  (is_Some (model self) -> is_Some (chat self)) ->
  api_key (after self calls) = api_key self
  /\ model (after self calls) = model self
  /\ (is_Some (model (after self calls)) -> is_Some (chat (after self calls))).
Proof.
  induction calls as [|c calls IH]; intros self Hpair; [auto|].
  cbn [after fold_left]. fold (after (perform self c).1.2 calls).
  destruct (perform_get_response self c) as (msg & ctx & ->).
  destruct (get_response_outcome self msg ctx) as (_ & Hk & Hm & Hc & _).
  destruct (IH (get_response self msg ctx).1.2) as (Hk' & Hm' & Hp').
  { rewrite Hm. intros Hsome. apply Hc, Hpair, Hsome. }
  rewrite Hk', Hm', Hk, Hm. rewrite Hm', Hm in Hp'. auto.
Qed.

Lemma init_paired (key : string) :
  is_Some (model (init key)) -> is_Some (chat (init key)).
Proof.
  destruct (init_model_chat key) as [[-> ->]|(m & c & -> & ->)].
  - intros [? ?]. discriminate.
  - intros _. now exists c.
Qed.

(** X. After [__init__] and any sequence of calls of [get_response],
    [get_workout_advice], [get_nutrition_advice] and [analyze_progress],
    a further call of any of the four returns a text and raises nothing.
    The coach is configured once and for all: when [__init__] has left it
    without a model, every call returns the configuration message and sends
    nothing to the service; otherwise every call sends exactly one prompt,
    in the one chat session that all four methods share. *)
Theorem coach_calls_from_init (key : string) (calls : list call) (c : call) :
  let coach := after (init key) calls in
  let out := perform coach c in
  (exists text, out.1.1 = Ret text)
  /\ api_key coach = key
  /\ model coach = model (init key)
  /\ ((model (init key) = None /\ out = (Ret not_configured, coach, []))
      \/ (is_Some (model (init key)) /\ is_Some (chat coach)
          /\ exists prompt, out.2 = [prompt])).
Proof.
  intros coach out.
  destruct (after_paired calls (init key) (init_paired key)) as (Hk & Hm & Hp).
  fold coach in Hk, Hm, Hp.
  destruct (perform_get_response coach c) as (msg & ctx & Hout).
  subst out. rewrite Hout.
  destruct (get_response_outcome coach msg ctx) as (Htext & _ & _ & _ & Hnone & Hsome).
  split; [exact Htext|]. split.
  { rewrite Hk. unfold init, _initialize_model. cbn [api_key].
    destruct (negb (String.eqb key "")); [|reflexivity].
    destruct (configure key); [|reflexivity].
    destruct (GenerativeModel "gemini-1.5-flash") as [m|]; [|reflexivity].
    destruct (start_chat m); reflexivity. }
  split; [exact Hm|].
  rewrite <- Hm. destruct (model coach) as [m|] eqn:Hmodel.
  - right. split; [eauto|]. split; [apply Hp; eauto|].
    eexists. apply Hsome; [eauto | apply Hp; eauto].
  - left. split; [reflexivity|]. now apply Hnone.
Qed.

End WithGenai.

(** With the service of the examples: two calls on a coach with a key send
    one prompt each, and the answer is the error text. *)
Example coach_two_calls :
  let coach := after (H:=failing_service) (init (H:=failing_service) "some-key")
                 [GetWorkoutAdvice "Plank" "beginner"] in
  (perform (H:=failing_service) coach (GetNutritionAdvice "Weight Loss" "Vegan")).1.1
  = Ret "❌ Error getting response: 429 quota exceeded"
  /\ length (perform (H:=failing_service) coach
               (GetNutritionAdvice "Weight Loss" "Vegan")).2 = 1%nat.
Proof. split; reflexivity. Qed.

End CoachPromptsFacts.
